(** * Patent search: ingestion and retrieval pipeline

    A shallow embedding of [backend/parser.py] (class [USPTOParser]) and
    [backend/sqlite_search_engine.py] (class [SQLitePatentSearch]), with the
    properties of the pipeline stated and proved over that embedding.

    Conventions of the embedding.
    - A Python [str] is a [string] of 7-bit ASCII characters; case folding,
      [\s] and [\w] are the Python ones on such text, and a property
      that rests on the character classes is stated for ASCII text.  The
      date normalizer, whose digit class reaches beyond ASCII, is also given
      on sequences of code points, in module [Unicode].
    - The score that [calculate_custom_score] returns is a binary64 number:
      module [Binary64] has the function on the floats of the interpreter.
      [Engine.calculate_custom_score] is the same sum in exact rationals,
      with the boost 6/5; the order of the results of [search] is read
      from it.
    - [None] is [None] of an [option]; an exception is a constructor of a
      result type.
    - What the interpreter or the database engine chooses at run time (the
      current year, the salt of the built-in [hash], the address of an
      object, the XML parser, the full-text matcher of the engine) is a
      parameter.
    - A statement of the database is what the schema of [init_database]
      and SQLite make of it: the primary key of [patents] and the triggers
      declared on it; an integer parameter that must fit in 64 bits; the
      text functions [LIKE], [length] and [substr], which read a text up to
      its first NUL; a [LIKE] pattern of more than 50000 bytes, which is
      refused when it is evaluated.

    The file has the definitions first (the primitives, the engine, the
    parser, the splitter, the vocabulary of the properties, the samples) and
    the proofs after them. *)

From Stdlib Require Import List Ascii String ZArith QArith Lia Bool Arith.
From Stdlib Require Import Permutation Sorted DecimalString HexadecimalString.
From Stdlib Require Import Floats Uint63 Lqa DecimalNat.
Import ListNotations.

Set Warnings "-register-all,-abstract-large-number,-inexact-float".

Close Scope Q_scope.
Open Scope string_scope.
Open Scope nat_scope.

(** ** Python string primitives *)

Module Py.

(** [str.isspace] on ASCII: TAB, LF, VT, FF, CR, FS, GS, RS, US and space. *)
Definition is_space (c : ascii) : bool :=
  let n := nat_of_ascii c in
  ((9 <=? n) && (n <=? 13)) || ((28 <=? n) && (n <=? 32)).

Definition is_digit (c : ascii) : bool :=
  let n := nat_of_ascii c in (48 <=? n) && (n <=? 57).

Definition is_upper (c : ascii) : bool :=
  let n := nat_of_ascii c in (65 <=? n) && (n <=? 90).

Definition is_lower (c : ascii) : bool :=
  let n := nat_of_ascii c in (97 <=? n) && (n <=? 122).

(** [\w] of the [re] module on ASCII: letters, digits and underscore. *)
Definition is_word (c : ascii) : bool :=
  is_upper c || is_lower c || is_digit c || (nat_of_ascii c =? 95).

Definition lower_char (c : ascii) : ascii :=
  if is_upper c then ascii_of_nat (nat_of_ascii c + 32) else c.

Definition upper_char (c : ascii) : ascii :=
  if is_lower c then ascii_of_nat (nat_of_ascii c - 32) else c.

(** [s.lower()] *)
Fixpoint lower (s : string) : string :=
  match s with
  | "" => ""
  | String c s' => String (lower_char c) (lower s')
  end.

(** [s.upper()] *)
Fixpoint upper (s : string) : string :=
  match s with
  | "" => ""
  | String c s' => String (upper_char c) (upper s')
  end.

(** [s.startswith(p)] *)
Fixpoint startswith (p s : string) : bool :=
  match p, s with
  | "", _ => true
  | String _ _, "" => false
  | String a p', String b s' => Ascii.eqb a b && startswith p' s'
  end.

(** [sub in s] *)
Fixpoint contains (sub s : string) : bool :=
  match s with
  | "" => startswith sub ""
  | String _ s' => startswith sub s || contains sub s'
  end.

(** [s.count(sub)]: the number of non-overlapping occurrences of [sub],
    scanning from the left.  [skip] is the number of characters of the
    occurrence just counted that are still to be stepped over. *)
Fixpoint count_from (sub s : string) (skip : nat) : nat :=
  match s with
  | "" => 0
  | String _ s' =>
      match skip with
      | S k => count_from sub s' k
      | O => if startswith sub s
             then S (count_from sub s' (String.length sub - 1))
             else count_from sub s' 0
      end
  end.

Definition count (s sub : string) : nat :=
  match sub with
  | "" => S (String.length s)
  | _ => count_from sub s 0
  end.

(** [s.lstrip()], [s.rstrip()], [s.strip()] *)
Fixpoint lstrip (s : string) : string :=
  match s with
  | "" => ""
  | String c s' => if is_space c then lstrip s' else s
  end.

Fixpoint rstrip (s : string) : string :=
  match s with
  | "" => ""
  | String c s' =>
      match rstrip s' with
      | "" => if is_space c then "" else String c ""
      | r => String c r
      end
  end.

Definition strip (s : string) : string := rstrip (lstrip s).

(** [s.split()]: maximal runs of non-whitespace characters.  [cur] is the
    word being read, in reverse. *)
Fixpoint split_ws (s : string) (cur : list ascii) : list string :=
  let flush (rest : list string) :=
    match cur with
    | [] => rest
    | _ => string_of_list_ascii (rev cur) :: rest
    end in
  match s with
  | "" => flush []
  | String c s' =>
      if is_space c then flush (split_ws s' []) else split_ws s' (c :: cur)
  end.

Definition split (s : string) : list string := split_ws s [].

(** [s[:n]] *)
Fixpoint slice_to (n : nat) (s : string) : string :=
  match n, s with
  | O, _ => ""
  | _, "" => ""
  | S n', String c s' => String c (slice_to n' s')
  end.

(** [s[n:]] *)
Fixpoint slice_from (n : nat) (s : string) : string :=
  match n, s with
  | O, _ => s
  | _, "" => ""
  | S n', String _ s' => slice_from n' s'
  end.

(** The double-quote character. *)
Definition dquote : ascii := ascii_of_nat 34.

(** [bool(s)] *)
Definition truthy (s : string) : bool :=
  match s with "" => false | _ => true end.

(** [sep.join(l)] *)
Fixpoint join (sep : string) (l : list string) : string :=
  match l with
  | [] => ""
  | [x] => x
  | x :: l' => x ++ sep ++ join sep l'
  end.

End Py.

(** ** Results, exceptions *)

Inductive exn : Type :=
| ValueError
| TypeError
| OperationalError
| IntegrityError
| OverflowError.

Inductive result (A : Type) : Type :=
| Ok (a : A)
| Raise (e : exn).
Arguments Ok {A} a.
Arguments Raise {A} e.

Definition bind {A B : Type} (m : result A) (k : A -> result B) : result B :=
  match m with
  | Ok a => k a
  | Raise e => Raise e
  end.

Notation "x <- m ;; k" := (bind m (fun x => k))
  (at level 61, m at next level, right associativity).

(** ** The canonical record *)

(** The dictionary built by [extract_patent_data_robust], with every key
    present. *)
Record patent : Type := {
  id : string;
  title : string;
  abstract : string;
  assignee : string;
  inventors : list string;
  application_date : string;
  publication_date : string;
  ipc_classes : list string;
  ipc_class : string;
  claims : string;
  description : string;
  category : string
}.

(** ** The search engine: [sqlite_search_engine.py] *)

Module Engine.

(** *** SQL text operators *)

(** The pattern matcher of [LIKE]: [%] matches any run of characters, [_]
    any one character, every other character matches itself up to ASCII
    case. *)
Fixpoint like_match (pat s : string) : bool :=
  match pat with
  | "" => match s with "" => true | _ => false end
  | String p pat' =>
      if Ascii.eqb p "%" then
        (fix any (t : string) : bool :=
           like_match pat' t ||
           match t with
           | "" => false
           | String _ t' => any t'
           end) s
      else
        match s with
        | "" => false
        | String c s' =>
            (Ascii.eqb p "_" || Ascii.eqb (Py.lower_char p) (Py.lower_char c))
            && like_match pat' s'
        end
  end.

(** A text as the string functions of SQLite read it: up to its first NUL
    character. *)
Fixpoint until_nul (s : string) : string :=
  match s with
  | "" => ""
  | String c s' => if Ascii.eqb c Ascii.zero then "" else String c (until_nul s')
  end.

(** [x LIKE pat], for a pattern that the engine accepts: both texts are
    read up to their first NUL. *)
Definition like (pat s : string) : bool :=
  like_match (until_nul pat) (until_nul s).

(** The engine refuses a [LIKE] pattern of more than 50000 bytes
    ([SQLITE_MAX_LIKE_PATTERN_LENGTH]) with an [OperationalError], when it
    comes to evaluate it.  All the bytes of the pattern count, also those
    after a NUL; a character of the embedding is one byte. *)
Definition like_too_complex (pat : string) : bool :=
  (50000 <? Z.of_nat (String.length pat))%Z.

(** [length(x)]: the number of characters before the first NUL. *)
Definition sql_length (s : string) : nat := String.length (until_nul s).

(** [substr(x, 1, n)] *)
Definition sql_substr_to (n : nat) (s : string) : string :=
  Py.slice_to n (until_nul s).

(** An integer that binds to a statement: [sqlite3] raises
    [OverflowError] on a Python [int] outside the signed 64-bit range. *)
Definition fits_int64 (n : Z) : bool :=
  (- 2 ^ 63 <=? n)%Z && (n <? 2 ^ 63)%Z.

(** Comparison of TEXT values under the BINARY collation. *)
Fixpoint text_leb (a b : string) : bool :=
  match a, b with
  | "", _ => true
  | String _ _, "" => false
  | String x a', String y b' =>
      if nat_of_ascii x <? nat_of_ascii y then true
      else if nat_of_ascii y <? nat_of_ascii x then false
      else text_leb a' b'
  end.

(** [x BETWEEN lo AND hi] *)
Definition between (x lo hi : string) : bool := text_leb lo x && text_leb x hi.

(** [LIMIT n]: a negative bound is no bound. *)
Definition sql_limit {A : Type} (n : Z) (l : list A) : list A :=
  if (n <? 0)%Z then l else firstn (Z.to_nat n) l.

(** *** [json.dumps] of a list of strings *)

Definition hex_digit (n : nat) : ascii :=
  if n <? 10 then ascii_of_nat (48 + n) else ascii_of_nat (87 + n).

Definition json_escape_char (c : ascii) : string :=
  let n := nat_of_ascii c in
  if Ascii.eqb c Py.dquote then String "\" (String Py.dquote "")
  else if Ascii.eqb c "\" then "\\"
  else if n =? 10 then "\n"
  else if n =? 13 then "\r"
  else if n =? 9 then "\t"
  else if n =? 8 then "\b"
  else if n =? 12 then "\f"
  else if (n <? 32) || (126 <? n) then
    "\u00" ++ String (hex_digit (n / 16)) (String (hex_digit (n mod 16)) "")
  else String c "".

Fixpoint json_escape (s : string) : string :=
  match s with
  | "" => ""
  | String c s' => json_escape_char c ++ json_escape s'
  end.

Definition json_string (s : string) : string :=
  String Py.dquote (json_escape s ++ String Py.dquote "").

Definition json_dumps_list (l : list string) : string :=
  "[" ++ Py.join ", " (map json_string l) ++ "]".

(** *** Tables *)

(** A row of table [patents].  The two JSON columns are kept as the lists
    they serialise; [content_vector] is the triple that
    [create_simple_vector] serialises. *)
Record row : Type := {
  r_patent : patent;
  content_vector : nat * nat * nat
}.

(** A row of the full-text table [patents_fts], as the insert trigger
    writes it. *)
Record fts_entry : Type := {
  fts_id : string;
  fts_title : string;
  fts_abstract : string;
  fts_description : string;
  fts_claims : string;
  fts_assignee : string;
  fts_inventors : string;
  fts_ipc_class : string;
  fts_category : string
}.

(** The database: table [patents] in rowid order and the full-text index
    [patents_fts]. *)
Record db : Type := {
  patents : list row;
  patents_fts : list fts_entry
}.

(** An item of the list given to [index_patents]: a dictionary read from
    JSON, where any key may be missing. *)
Record patent_dict : Type := {
  d_id : option string;
  d_title : option string;
  d_abstract : option string;
  d_description : option string;
  d_claims : option string;
  d_assignee : option string;
  d_inventors : option (list string);
  d_application_date : option string;
  d_publication_date : option string;
  d_ipc_class : option string;
  d_ipc_classes : option (list string);
  d_category : option string
}.

(** [d.get(key, default)] *)
Definition get {A : Type} (v : option A) (default : A) : A :=
  match v with
  | Some a => a
  | None => default
  end.

Definition dict_of_patent (p : patent) : patent_dict :=
  {| d_id := Some (id p); d_title := Some (title p);
     d_abstract := Some (abstract p); d_description := Some (description p);
     d_claims := Some (claims p); d_assignee := Some (assignee p);
     d_inventors := Some (inventors p);
     d_application_date := Some (application_date p);
     d_publication_date := Some (publication_date p);
     d_ipc_class := Some (ipc_class p);
     d_ipc_classes := Some (ipc_classes p);
     d_category := Some (category p) |}.

(** *** [count_tech_terms], [create_simple_vector] *)

Definition tech_terms : list string :=
  [ "system"; "method"; "apparatus"; "device"; "process";
    "invention"; "embodiment"; "implementation"; "technology";
    "algorithm"; "network"; "computer"; "software"; "hardware" ].

Definition count_tech_terms (text : string) : nat :=
  let text_lower := Py.lower text in
  fold_left (fun acc term => acc + Py.count text_lower term) tech_terms 0.

Definition create_simple_vector (d : patent_dict) : nat * nat * nat :=
  let text := get (d_title d) "" ++ " " ++ get (d_abstract d) "" ++ " "
              ++ get (d_claims d) "" in
  (List.length (Py.split text), String.length text, count_tech_terms text).

(** *** [init_database]: what the schema makes of a write *)

(** [str(n)] of a non-negative integer. *)
Definition str_of_nat (n : nat) : string :=
  DecimalString.NilEmpty.string_of_uint (Nat.to_uint n).

Definition row_of_dict (i : nat) (d : patent_dict) : row :=
  {| r_patent :=
       {| id := get (d_id d) ("patent_" ++ str_of_nat i);
          title := get (d_title d) "";
          abstract := get (d_abstract d) "";
          assignee := get (d_assignee d) "";
          inventors := get (d_inventors d) [];
          application_date := get (d_application_date d) "";
          publication_date := get (d_publication_date d) "";
          ipc_classes := get (d_ipc_classes d) [];
          ipc_class := get (d_ipc_class d) "";
          claims := get (d_claims d) "";
          description := get (d_description d) "";
          category := get (d_category d) "" |};
     content_vector := create_simple_vector d |}.

(** The values the trigger [patents_fts_insert] copies from [new]. *)
Definition fts_of_row (r : row) : fts_entry :=
  let p := r_patent r in
  {| fts_id := id p; fts_title := title p; fts_abstract := abstract p;
     fts_description := description p; fts_claims := claims p;
     fts_assignee := assignee p;
     fts_inventors := json_dumps_list (inventors p);
     fts_ipc_class := ipc_class p; fts_category := category p |}.

(** [DELETE FROM patents].  The schema declares triggers on [patents]
    AFTER INSERT and AFTER UPDATE only, and [patents_fts] is an
    external-content table, so the statement leaves [patents_fts] as it
    is. *)
Definition delete_from_patents (d : db) : db :=
  {| patents := []; patents_fts := patents_fts d |}.

(** [INSERT INTO patents ... VALUES ...]: refused when the primary key
    [id] is taken; otherwise the row is added and the trigger
    [patents_fts_insert] adds its full-text entry. *)
Definition insert_into_patents (d : db) (r : row) : result db :=
  if existsb (fun r' => String.eqb (id (r_patent r')) (id (r_patent r)))
       (patents d)
  then Raise IntegrityError
  else Ok {| patents := (patents d ++ [r])%list;
             patents_fts := (patents_fts d ++ [fts_of_row r])%list |}.

(** *** [index_patents] *)

(** The loop over [enumerate(patents_data)]: an insert that raises is
    reported and skipped. *)
Fixpoint index_loop (i : nat) (items : list patent_dict) (d : db) : db :=
  match items with
  | [] => d
  | p :: rest =>
      match insert_into_patents d (row_of_dict i p) with
      | Ok d' => index_loop (S i) rest d'
      | Raise _ => index_loop (S i) rest d
      end
  end.

Definition index_patents (d : db) (patents_data : list patent_dict) : db :=
  index_loop 0 patents_data (delete_from_patents d).

(** *** [get_aggregations]: the key [total_patents] *)

(** [SELECT COUNT( * ) FROM patents] *)
Definition total_patents (d : db) : nat := List.length (patents d).

(** *** [prepare_fts_query] *)

(** [re.sub(r'[^\w\s]', ' ', query)] *)
Fixpoint strip_punctuation (s : string) : string :=
  match s with
  | "" => ""
  | String c s' =>
      String (if Py.is_word c || Py.is_space c then c else " "%char)
        (strip_punctuation s')
  end.

(** ["t"*] *)
Definition prefix_term (t : string) : string :=
  String Py.dquote (t ++ String Py.dquote "*").

Definition prepare_fts_query (query : string) : string :=
  let terms := Py.split (strip_punctuation query) in
  match terms with
  | [t] => prefix_term t
  | _ => Py.join " OR " (map prefix_term terms)
  end.

(** *** [calculate_custom_score] *)

Definition field_weights : list (string * Q) :=
  [ ("title", 3%Q); ("abstract", 2%Q); ("claims", (3 # 2)%Q); ("description", 1%Q) ].

(** [patent.get(field, '')] for the keys of [field_weights]. *)
Definition get_field (p : patent) (field : string) : string :=
  if String.eqb field "title" then title p
  else if String.eqb field "abstract" then abstract p
  else if String.eqb field "claims" then claims p
  else if String.eqb field "description" then description p
  else "".

Definition boosted_categories : list string :=
  [ "artificial_intelligence"; "telecommunications" ].

Definition in_list (x : string) (l : list string) : bool :=
  existsb (String.eqb x) l.

(** The inner loop, [for term in query_terms]. *)
Definition score_terms (field_text : string) (weight : Q)
    (query_terms : list string) (score : Q) : Q :=
  fold_left
    (fun sc term =>
       let tf := Py.count field_text term in
       if 0 <? tf then (sc + inject_Z (Z.of_nat tf) * weight)%Q else sc)
    query_terms score.

(** The outer loop, [for field, weight in field_weights.items()]. *)
Definition score_fields (p : patent) (query_terms : list string) (score : Q) : Q :=
  fold_left
    (fun sc fw =>
       let field_text := Py.lower (get_field p (fst fw)) in
       if Py.truthy field_text
       then score_terms field_text (snd fw) query_terms sc
       else sc)
    field_weights score.

Definition calculate_custom_score (p : patent) (original_query : string) : Q :=
  let query_terms := Py.split (Py.lower original_query) in
  let score := score_fields p query_terms 0%Q in
  if in_list (category p) boosted_categories
  then (score * (6 # 5))%Q
  else score.

(** *** [search] *)

Record search_result : Type := {
  hit : row;
  score : Q
}.

(** [formatted_results.sort(key=lambda x: x['score'], reverse=True)]: the
    built-in sort is stable, also under [reverse=True].  A stable sort is
    determined by its input; it is written here as an insertion sort. *)
Fixpoint insert_by_score (x : search_result) (l : list search_result)
  : list search_result :=
  match l with
  | [] => [x]
  | y :: l' =>
      if Qle_bool (score y) (score x)
      then x :: y :: l'
      else y :: insert_by_score x l'
  end.

Fixpoint sort_by_score (l : list search_result) : list search_result :=
  match l with
  | [] => []
  | x :: l' => insert_by_score x (sort_by_score l')
  end.

(** The optional conditions added to the [WHERE] clause. *)
Definition where_conditions (by_category by_assignee : option string)
    (date_range : option (string * string)) (r : row) : bool :=
  let p := r_patent r in
  (match by_category with
   | Some c => if Py.truthy c then String.eqb (category p) c else true
   | None => true
   end)
  &&
  (match by_assignee with
   | Some a =>
       if Py.truthy a then like ("%" ++ a ++ "%") (assignee p) else true
   | None => true
   end)
  &&
  (match date_range with
   | Some (lo, hi) => between (publication_date p) lo hi
   | None => true
   end).

(** The first condition of the [WHERE] clause, alone; the engine
    evaluates the conditions of a row in the order in which they are
    written, up to the first that fails. *)
Definition category_condition (by_category : option string) (r : row) : bool :=
  match by_category with
  | Some c => if Py.truthy c then String.eqb (category (r_patent r)) c else true
  | None => true
  end.

(** The assignee filter makes a pattern that the engine refuses. *)
Definition like_refused (by_assignee : option string) : bool :=
  match by_assignee with
  | Some a => Py.truthy a && like_too_complex ("%" ++ a ++ "%")
  | None => false
  end.

Section Search.

(** The full-text engine: the rows of [patents] joined to the entries of
    [patents_fts] that satisfy [MATCH q], in the order of [rank]; or the
    error the engine raises on [q]. *)
Variable fts_match : db -> string -> result (list row).

(** [conn.execute(base_query, params)] and [cursor.fetchall()].  Binding
    the parameters comes first and raises [OverflowError] on a limit that
    does not fit; with [LIMIT 0] the engine returns at once, before it
    looks at the match expression; a refused [LIKE] pattern raises as soon
    as a matched row reaches that condition. *)
Definition candidates (d : db) (query : string) (limit : Z)
    (by_category by_assignee : option string)
    (date_range : option (string * string)) : result (list row) :=
  if negb (fits_int64 limit) then Raise OverflowError
  else if (limit =? 0)%Z then Ok []
  else
    rows <- fts_match d (prepare_fts_query query) ;;
    if like_refused by_assignee && existsb (category_condition by_category) rows
    then Raise OperationalError
    else
      Ok (sql_limit limit
            (filter (where_conditions by_category by_assignee date_range) rows)).

Definition search (d : db) (query : string) (limit : Z)
    (by_category by_assignee : option string)
    (date_range : option (string * string)) : result (list search_result) :=
  results <- candidates d query limit by_category by_assignee date_range ;;
  let formatted_results :=
    map (fun r => {| hit := r;
                     score := calculate_custom_score (r_patent r) query |})
      results in
  Ok (sort_by_score formatted_results).

End Search.

(** *** [search_by_field] *)

Definition valid_fields : list string :=
  [ "assignee"; "category"; "ipc_class"; "inventors" ].

(** The column of [patents] that a valid field names. *)
Definition column (field : string) (r : row) : string :=
  let p := r_patent r in
  if String.eqb field "inventors" then json_dumps_list (inventors p)
  else if String.eqb field "assignee" then assignee p
  else if String.eqb field "category" then category p
  else ipc_class p.

(** The table is scanned in its own order.  Binding the limit raises
    [OverflowError] when it does not fit; a refused pattern raises at the
    first row the scan tests, so not on an empty table and not with
    [LIMIT 0]. *)
Definition search_by_field (d : db) (field value : string) (limit : Z)
  : result (list row) :=
  if negb (in_list field valid_fields) then Raise ValueError
  else if negb (fits_int64 limit) then Raise OverflowError
  else if like_too_complex ("%" ++ value ++ "%")
          && negb (limit =? 0)%Z
          && match patents d with [] => false | _ => true end
  then Raise OperationalError
  else
    Ok (sql_limit limit
          (filter (fun r => like ("%" ++ value ++ "%") (column field r))
             (patents d))).

(** *** [get_aggregations]: the groupings that have no row limit *)

(** One more row with the key [key]. *)
Fixpoint bump (key : string) (groups : list (string * nat)) : list (string * nat) :=
  match groups with
  | [] => [(key, 1)]
  | (k, n) :: rest =>
      if String.eqb k key then (k, S n) :: rest else (k, n) :: bump key rest
  end.

(** [SELECT key, COUNT( * ) ... GROUP BY key], read into a dictionary: one
    entry for each key, with the number of rows that have it.  The
    statement's [ORDER BY] fixes only the order in which the entries are
    inserted; that order is not modelled, the entries are kept in the order
    in which the keys first occur. *)
Definition group_count (keys : list string) : list (string * nat) :=
  fold_left (fun groups key => bump key groups) keys [].

(** [aggregations[name][key]], [None] for a missing key. *)
Fixpoint lookup (groups : list (string * nat)) (key : string) : option nat :=
  match groups with
  | [] => None
  | (k, n) :: rest => if String.eqb k key then Some n else lookup rest key
  end.

(** The key [categories]: [GROUP BY category]. *)
Definition categories (d : db) : list (string * nat) :=
  group_count (map (fun r => category (r_patent r)) (patents d)).

(** The key [by_year]: [substr(publication_date, 1, 4)] of the rows
    [WHERE length(publication_date) >= 4]. *)
Definition by_year (d : db) : list (string * nat) :=
  group_count
    (map (fun r => sql_substr_to 4 (publication_date (r_patent r)))
       (filter (fun r => 4 <=? sql_length (publication_date (r_patent r)))
          (patents d))).

End Engine.

(** ** The parser: [parser.py] *)

Module Parser.

(** *** Element trees *)

(** An [xml.etree.ElementTree.Element]: tag, text, tail, children, and the
    address the interpreter gave the object.  Attributes are not read by
    the parser and are left out. *)
Inductive element : Type :=
| Element (tag : string) (text tail : option string)
          (children : list element) (addr : N).

Definition tag (e : element) : string :=
  match e with Element t _ _ _ _ => t end.
Definition text (e : element) : option string :=
  match e with Element _ t _ _ _ => t end.
Definition tail (e : element) : option string :=
  match e with Element _ _ t _ _ => t end.
Definition children (e : element) : list element :=
  match e with Element _ _ _ c _ => c end.
Definition addr (e : element) : N :=
  match e with Element _ _ _ _ a => a end.

(** The elements below [e] in document order, [e] itself excluded. *)
Fixpoint descendants (e : element) : list element :=
  match e with
  | Element _ _ _ cs _ => flat_map (fun c => c :: descendants c) cs
  end.

(** One step of an ElementPath expression: [//tag] or [/tag]. *)
Inductive step : Type :=
| Desc (t : string)
| Child (t : string).

Definition has_tag (t : string) (e : element) : bool := String.eqb (tag e) t.

Definition select (s : step) (e : element) : list element :=
  match s with
  | Desc t => filter (has_tag t) (descendants e)
  | Child t => filter (has_tag t) (children e)
  end.

(** [elem.findall(path)] for a path that starts at [.]. *)
Fixpoint findall (path : list step) (es : list element) : list element :=
  match path with
  | [] => es
  | s :: path' => findall path' (flat_map (select s) es)
  end.

(** [elem.find(path)] *)
Definition find (e : element) (path : list step) : option element :=
  hd_error (findall path [e]).

(** *** [clean_text] *)

(** [re.sub(r'\s+', ' ', s)]; [in_run] says that the previous character
    was whitespace. *)
Fixpoint collapse_ws (s : string) (in_run : bool) : string :=
  match s with
  | "" => ""
  | String c s' =>
      if Py.is_space c
      then if in_run then collapse_ws s' true
           else String " " (collapse_ws s' true)
      else String c (collapse_ws s' false)
  end.

(** The characters kept by [[^\w\s\-\.,;:()\[\]]]. *)
Definition is_clean (c : ascii) : bool :=
  Py.is_word c || Py.is_space c ||
  existsb (Ascii.eqb c) (list_ascii_of_string "-.,;:()[]").

Fixpoint blank_unclean (s : string) : string :=
  match s with
  | "" => ""
  | String c s' => String (if is_clean c then c else " "%char) (blank_unclean s')
  end.

Definition clean_text (s : string) : string :=
  if negb (Py.truthy s) then ""
  else Py.slice_to 5000 (blank_unclean (collapse_ws (Py.strip s) false)).

(** *** [extract_text_content] *)

(** The strings appended to [texts] for one child: its flattened text when
    non-empty, then its stripped tail when it has one. *)
Definition child_texts (child_text : string) (tl : option string) : list string :=
  ((if Py.truthy child_text then [child_text] else []) ++
   (match tl with
    | Some t => if Py.truthy t then [Py.strip t] else []
    | None => []
    end))%list.

Fixpoint extract_text_content (e : element) : string :=
  match e with
  | Element _ tx _ cs _ =>
      let texts :=
        ((match tx with
          | Some t => if Py.truthy t then [Py.strip t] else []
          | None => []
          end) ++
         flat_map (fun c => child_texts (extract_text_content c) (tail c)) cs)%list
      in
      Py.join " " (filter Py.truthy texts)
  end.

(** *** [find_element_flexible] *)

Fixpoint find_element_flexible (root : element) (possible_paths : list (list step))
  : option element :=
  match possible_paths with
  | [] => None
  | path :: rest =>
      match find root path with
      | Some e => Some e
      | None => find_element_flexible root rest
      end
  end.

(** *** [format_date] *)

(** [re.sub(r'[^\d]', '', s)] *)
Fixpoint digits_only (s : string) : string :=
  match s with
  | "" => ""
  | String c s' => if Py.is_digit c then String c (digits_only s') else digits_only s'
  end.

(** [str(z)] of an integer. *)
Definition str_of_int (z : Z) : string :=
  DecimalString.NilZero.string_of_int (Z.to_int z).

(** [s[a:b]] *)
Definition slice (a b : nat) (s : string) : string :=
  Py.slice_to (b - a) (Py.slice_from a s).

(** The body of the [try]: [re.sub] raises [TypeError] on [None]; a string
    with fewer than four digits falls out of the [if] chain. *)
Definition format_date_try (date_str : option string) : result (option string) :=
  match date_str with
  | None => Raise TypeError
  | Some s =>
      let date_str := digits_only s in
      if 8 <=? String.length date_str then
        Ok (Some (slice 0 4 date_str ++ "-" ++ slice 4 6 date_str ++ "-"
                  ++ slice 6 8 date_str))
      else if 6 <=? String.length date_str then
        Ok (Some (slice 0 4 date_str ++ "-" ++ slice 4 6 date_str ++ "-01"))
      else if 4 <=? String.length date_str then
        Ok (Some (slice 0 4 date_str ++ "-01-01"))
      else Ok None
  end.

Definition format_date (current_year : Z) (date_str : option string) : string :=
  match format_date_try date_str with
  | Ok (Some d) => d
  | Ok None | Raise _ => str_of_int current_year ++ "-01-01"
  end.

(** *** [categorize_patent] *)

Definition ipc_categories : list (string * string) :=
  [ ("A", "human_necessities");
    ("B", "performing_operations");
    ("C", "chemistry_metallurgy");
    ("D", "textiles_paper");
    ("E", "fixed_constructions");
    ("F", "mechanical_engineering");
    ("G", "physics");
    ("H", "electricity") ].

Definition specific_patterns : list (string * list string) :=
  [ ("artificial_intelligence", ["G06N"; "AI"; "machine learning"; "neural network"]);
    ("telecommunications", ["H04"; "communication"; "wireless"; "network"]);
    ("biotechnology", ["C12"; "A61"; "genetic"; "biological"; "medical"]);
    ("semiconductors", ["H01L"; "semiconductor"; "transistor"; "chip"]);
    ("automotive", ["B60"; "vehicle"; "automotive"; "car"]);
    ("energy", ["H02"; "F03"; "solar"; "battery"; "energy"]) ].

(** [pattern.lower() in title_lower or pattern in ipc_class] *)
Definition triggers (title_lower ipc_class pattern : string) : bool :=
  Py.contains (Py.lower pattern) title_lower || Py.contains pattern ipc_class.

(** The two nested [for] loops, with their [return] at the first hit. *)
Fixpoint scan_patterns (title_lower ipc_class : string) (patterns : list string)
  : bool :=
  match patterns with
  | [] => false
  | pattern :: rest =>
      if triggers title_lower ipc_class pattern then true
      else scan_patterns title_lower ipc_class rest
  end.

Fixpoint scan_categories (title_lower ipc_class : string)
    (table : list (string * list string)) : option string :=
  match table with
  | [] => None
  | (category, patterns) :: rest =>
      if scan_patterns title_lower ipc_class patterns then Some category
      else scan_categories title_lower ipc_class rest
  end.

(** [d.get(key, default)] on a dictionary given as its items. *)
Fixpoint dict_get (d : list (string * string)) (key default : string) : string :=
  match d with
  | [] => default
  | (k, v) :: rest => if String.eqb k key then v else dict_get rest key default
  end.

Definition categorize_patent (ipc_class title : string) : string :=
  let ipc_class := if negb (Py.truthy ipc_class) then "G06F" else ipc_class in
  let title_lower := Py.lower title in
  match scan_categories title_lower ipc_class specific_patterns with
  | Some category => category
  | None =>
      let first_char := Py.upper (Py.slice_to 1 ipc_class) in
      dict_get ipc_categories first_char "other"
  end.

(** *** Identifier *)

Definition id_paths : list (list step) :=
  [ [Desc "document-id"; Child "doc-number"];
    [Desc "publication-reference"; Desc "doc-number"];
    [Desc "application-reference"; Desc "doc-number"];
    [Desc "subdoc-bibliographic-information"; Desc "document-id"; Child "doc-number"];
    [Desc "patent-number"];
    [Desc "application-number"] ].

(** The text of the element at [path], stripped, when the element exists
    and both the text and the stripped text are non-empty. *)
Definition id_at (patent_elem : element) (path : list step) : option string :=
  match find patent_elem path with
  | Some id_elem =>
      match text id_elem with
      | Some t =>
          if Py.truthy t && Py.truthy (Py.strip t) then Some (Py.strip t) else None
      | None => None
      end
  | None => None
  end.

Fixpoint first_id (patent_elem : element) (paths : list (list step)) : option string :=
  match paths with
  | [] => None
  | path :: rest =>
      match id_at patent_elem path with
      | Some patent_id => Some patent_id
      | None => first_id patent_elem rest
      end
  end.

(** [str(elem)]: an element has no [__str__] of its own, so this is its
    [repr], which shows the tag and the address of the object. *)
Definition str_of_element (e : element) : string :=
  "<Element '" ++ tag e ++ "' at 0x"
  ++ HexadecimalString.NilZero.string_of_uint (N.to_hex_uint (addr e)) ++ ">".

Section Identifier.

(** The built-in [hash] on strings; the interpreter salts it anew for
    each process. *)
Variable hash : string -> Z.

Definition fallback_id (patent_elem : element) : string :=
  Py.slice_to 15 ("PATENT_" ++ str_of_int (hash (str_of_element patent_elem))).

Definition extract_patent_id (patent_elem : element) : string :=
  match first_id patent_elem id_paths with
  | Some patent_id => patent_id
  | None => fallback_id patent_elem
  end.

End Identifier.

(** *** Assignee, inventors *)

(** What an f-string shows for [elem.text]. *)
Definition fmt_text (t : option string) : string :=
  match t with
  | Some s => s
  | None => "None"
  end.

Definition assignee_paths : list (list step) :=
  [ [Desc "assignees"; Child "assignee"];
    [Desc "assignee"];
    [Desc "subdoc-bibliographic-information"; Desc "assignee"] ].

Definition org_paths : list (list step) :=
  [ [Desc "orgname"]; [Desc "organization-name"]; [Desc "assignee-name"] ].

Fixpoint first_org (assignee_elem : element) (paths : list (list step))
  : option string :=
  match paths with
  | [] => None
  | org_path :: rest =>
      match find assignee_elem org_path with
      | Some org_elem =>
          match text org_elem with
          | Some t => if Py.truthy t then Some (Py.strip t)
                      else first_org assignee_elem rest
          | None => first_org assignee_elem rest
          end
      | None => first_org assignee_elem rest
      end
  end.

(** The name built from [.//first-name] and [.//last-name] below [e]. *)
Definition person_name (e : element) : option string :=
  match find e [Desc "first-name"], find e [Desc "last-name"] with
  | Some first_name, Some last_name =>
      Some (Py.strip (fmt_text (text first_name) ++ " " ++ fmt_text (text last_name)))
  | _, _ => None
  end.

Fixpoint assignee_from (patent_elem : element) (paths : list (list step)) : string :=
  match paths with
  | [] => "Unknown Assignee"
  | path :: rest =>
      match find patent_elem path with
      | Some assignee_elem =>
          match first_org assignee_elem org_paths with
          | Some org => org
          | None =>
              match person_name assignee_elem with
              | Some name => name
              | None => assignee_from patent_elem rest
              end
          end
      | None => assignee_from patent_elem rest
      end
  end.

Definition extract_assignee_robust (patent_elem : element) : string :=
  assignee_from patent_elem assignee_paths.

Definition inventor_paths : list (list step) :=
  [ [Desc "inventors"; Child "inventor"];
    [Desc "inventor"];
    [Desc "subdoc-bibliographic-information"; Desc "inventor"] ].

Definition add_inventor (inventors : list string) (inventor_elem : element)
  : list string :=
  match person_name inventor_elem with
  | Some name =>
      if existsb (String.eqb name) inventors then inventors
      else (inventors ++ [name])%list
  | None => inventors
  end.

Definition extract_inventors_robust (patent_elem : element) : list string :=
  let inventors :=
    fold_left
      (fun acc path => fold_left add_inventor (findall path [patent_elem]) acc)
      inventor_paths [] in
  match inventors with
  | [] => ["Unknown Inventor"]
  | _ => inventors
  end.

(** *** Dates, classifications *)

Definition app_date_paths : list (list step) :=
  [ [Desc "application-reference"; Desc "date"];
    [Desc "filing-date"];
    [Desc "subdoc-bibliographic-information"; Desc "filing-date"] ].

Definition pub_date_paths : list (list step) :=
  [ [Desc "publication-reference"; Desc "date"];
    [Desc "publication-date"];
    [Desc "subdoc-bibliographic-information"; Desc "publication-date"] ].

Section Dates.

(** [datetime.now().year] *)
Variable current_year : Z.

Fixpoint first_date (patent_elem : element) (paths : list (list step))
  : option string :=
  match paths with
  | [] => None
  | path :: rest =>
      match find patent_elem path with
      | Some date_elem =>
          match text date_elem with
          | Some t => if Py.truthy t then Some (format_date current_year (Some t))
                      else first_date patent_elem rest
          | None => first_date patent_elem rest
          end
      | None => first_date patent_elem rest
      end
  end.

(** The pair ([application_date], [publication_date]). *)
Definition extract_dates_robust (patent_elem : element) : string * string :=
  let default := str_of_int current_year ++ "-01-01" in
  (Engine.get (first_date patent_elem app_date_paths) default,
   Engine.get (first_date patent_elem pub_date_paths) default).

End Dates.

Definition ipc_paths : list (list step) :=
  [ [Desc "classifications-ipc"; Desc "main-classification"];
    [Desc "classification-ipc"; Desc "main-classification"];
    [Desc "ipc-classification"];
    [Desc "classification-ipc"] ].

Definition us_paths : list (list step) :=
  [ [Desc "classification-us"; Desc "main-classification"];
    [Desc "us-classification"];
    [Desc "classification-national"] ].

(** The texts, in order, of the elements at [paths] that have a non-empty
    text, each passed through [f]. *)
Definition collect_texts (f : string -> string) (patent_elem : element)
    (paths : list (list step)) : list string :=
  flat_map
    (fun path =>
       flat_map
         (fun e => match text e with
                   | Some t => if Py.truthy t then [f t] else []
                   | None => []
                   end)
         (findall path [patent_elem]))
    paths.

Definition extract_classifications_robust (patent_elem : element) : list string :=
  match collect_texts Py.strip patent_elem ipc_paths with
  | [] =>
      match collect_texts (fun t => "US" ++ Py.strip t) patent_elem us_paths with
      | [] => ["G06F"]
      | classifications => classifications
      end
  | classifications => classifications
  end.

(** *** [extract_patent_data_robust], [extract_from_root] *)

Definition title_paths : list (list step) :=
  [ [Desc "invention-title"]; [Desc "title-of-invention"];
    [Desc "invention-title-text"]; [Desc "title"] ].

Definition abstract_paths : list (list step) :=
  [ [Desc "abstract"]; [Desc "abstract-text"]; [Desc "subdoc-abstract"] ].

Definition claims_paths : list (list step) :=
  [ [Desc "claims"]; [Desc "claim"]; [Desc "subdoc-claims"] ].

Definition description_paths : list (list step) :=
  [ [Desc "description"]; [Desc "detailed-description"]; [Desc "subdoc-description"] ].

(** [clean_text(extract_text_content(e)) if e is not None else default] *)
Definition text_or (e : option element) (default : string) : string :=
  match e with
  | Some e => clean_text (extract_text_content e)
  | None => default
  end.

Section Extraction.

Variable hash : string -> Z.
Variable current_year : Z.

(** The dictionary [patent_data] as it stands before the validation. *)
Definition candidate (patent_elem : element) : patent :=
  let title :=
    text_or (find_element_flexible patent_elem title_paths) "Untitled" in
  let dates := extract_dates_robust current_year patent_elem in
  let ipc_classes := extract_classifications_robust patent_elem in
  let ipc_class := match ipc_classes with
                   | c :: _ => c
                   | [] => "G06F"
                   end in
  {| id := extract_patent_id hash patent_elem;
     title := title;
     abstract :=
       text_or (find_element_flexible patent_elem abstract_paths)
         "No abstract available";
     assignee := extract_assignee_robust patent_elem;
     inventors := extract_inventors_robust patent_elem;
     application_date := fst dates;
     publication_date := snd dates;
     ipc_classes := ipc_classes;
     ipc_class := ipc_class;
     claims :=
       text_or (find_element_flexible patent_elem claims_paths)
         "No claims available";
     description :=
       Py.slice_to 3000
         (clean_text
            (match find_element_flexible patent_elem description_paths with
             | Some e => extract_text_content e
             | None => ""
             end));
     category := categorize_patent ipc_class title |}.

Definition extract_patent_data_robust (patent_elem : element) : option patent :=
  let patent_data := candidate patent_elem in
  if (String.length (title patent_data) <? 5)
     || (String.length (abstract patent_data) <? 10)
  then None
  else Some patent_data.

(** [s.endswith(suffix)] *)
Definition endswith (suffix s : string) : bool :=
  Py.startswith (string_of_list_ascii (rev (list_ascii_of_string suffix)))
    (string_of_list_ascii (rev (list_ascii_of_string s))).

Definition patent_applications (root : element) : list element :=
  let found :=
    (findall [Desc "us-patent-application"] [root]
     ++ findall [Desc "patent-application-publication"] [root]
     ++ findall [Desc "us-patent-grant"] [root])%list in
  match found with
  | [] =>
      if endswith "patent-application" (tag root)
         || endswith "patent-grant" (tag root)
         || Py.contains "patent" (Py.lower (tag root))
      then [root] else []
  | _ => found
  end.

Definition extract_from_root (root : element) : list patent :=
  flat_map
    (fun patent_app =>
       match extract_patent_data_robust patent_app with
       | Some patent_data =>
           if Py.truthy (title patent_data) && Py.truthy (abstract patent_data)
           then [patent_data] else []
       | None => []
       end)
    (patent_applications root).

End Extraction.

End Parser.

(** ** The date normalizer on Unicode text *)

(** [format_date] on strings of code points.  The digit class of [re] on a
    [str] pattern is the class of the decimal digits of Unicode, which has
    digits of other scripts than ASCII; [Parser.format_date] is this
    function on ASCII text. *)
Module Unicode.

(** A [str] as the interpreter has it: a sequence of code points. *)
Definition str : Type := list N.

(** The code points of an ASCII text. *)
Definition of_string (s : string) : str :=
  map (fun c => N.of_nat (nat_of_ascii c)) (list_ascii_of_string s).

(** The code point of the digit zero of each set of decimal digits in
    the character database of the interpreter (Unicode 14.0); the digits
    of a set are the ten code points from its zero on. *)
Definition decimal_zeros : list N :=
  [ 48; 1632; 1776; 1984; 2406; 2534; 2662; 2790; 2918;
    3046; 3174; 3302; 3430; 3558; 3664; 3792; 3872; 4160;
    4240; 6112; 6160; 6470; 6608; 6784; 6800; 6992; 7088;
    7232; 7248; 42528; 43216; 43264; 43472; 43504; 43600; 44016;
    65296; 66720; 68912; 69734; 69872; 69942; 70096; 70384; 70736;
    70864; 71248; 71360; 71472; 71904; 72016; 72784; 73040; 73120;
    92768; 92864; 93008; 120782; 120792; 120802; 120812; 120822; 123200;
    123632; 125264; 130032 ]%N.

(** [\d]: [str.isdecimal] of the character. *)
Definition is_decimal (c : N) : bool :=
  existsb (fun z => (z <=? c) && (c <? z + 10))%N decimal_zeros.

(** [re.sub(r'[^\d]', '', s)] *)
Definition digits_only (s : str) : str := filter is_decimal s.

(** [s[a:b]] *)
Definition slice (a b : nat) (s : str) : str := firstn (b - a) (skipn a s).

(** The body of the [try]; [None] as input raises [TypeError] in
    [re.sub]. *)
Definition format_date_try (date_str : option str) : result (option str) :=
  match date_str with
  | None => Raise TypeError
  | Some s =>
      let date_str := digits_only s in
      if 8 <=? List.length date_str then
        Ok (Some (slice 0 4 date_str ++ of_string "-" ++ slice 4 6 date_str
                  ++ of_string "-" ++ slice 6 8 date_str)%list)
      else if 6 <=? List.length date_str then
        Ok (Some (slice 0 4 date_str ++ of_string "-" ++ slice 4 6 date_str
                  ++ of_string "-01")%list)
      else if 4 <=? List.length date_str then
        Ok (Some (slice 0 4 date_str ++ of_string "-01-01")%list)
      else Ok None
  end.

Definition format_date (current_year : Z) (date_str : option str) : str :=
  match format_date_try date_str with
  | Ok (Some d) => d
  | Ok None | Raise _ => of_string (Parser.str_of_int current_year ++ "-01-01")
  end.

End Unicode.

(** ** The document splitter: [parse_concatenated_xml] *)

Module Splitter.

(** *** The fragment of [re] that the boundary pattern uses *)

(** A pattern is a sequence of literals and of starred character classes,
    greedy ([c*]) or lazy ([c*?]). *)
Inductive item : Type :=
| Lit (s : string)
| Star (greedy : bool) (cls : ascii -> bool).

(** [s] without its prefix [p]. *)
Fixpoint strip_prefix (p s : string) : option string :=
  match p, s with
  | "", _ => Some s
  | String _ _, "" => None
  | String a p', String b s' =>
      if Ascii.eqb a b then strip_prefix p' s' else None
  end.

(** The backtracking matcher at one position: the rest of the input after
    the first match in the order the engine tries them (a greedy star the
    longest run first, a lazy star the shortest first). *)
Fixpoint match_here (items : list item) (s : string) : option string :=
  match items with
  | [] => Some s
  | Lit l :: k =>
      match strip_prefix l s with
      | Some s' => match_here k s'
      | None => None
      end
  | Star greedy cls :: k =>
      (fix star (t : string) : option string :=
         let stop := match_here k t in
         let more := match t with
                     | "" => None
                     | String c t' => if cls c then star t' else None
                     end in
         if greedy
         then match more with Some r => Some r | None => stop end
         else match stop with Some r => Some r | None => more end) s
  end.

(** [[m.group(0) for m in re.finditer(pattern, s)]]: matches are searched
    from left to right and do not overlap.  [skip] counts the characters
    of the last match still to be stepped over. *)
Fixpoint finditer (items : list item) (s : string) (skip : nat) : list string :=
  match s with
  | "" =>
      match skip, match_here items "" with
      | O, Some _ => [""]
      | _, _ => []
      end
  | String _ s' =>
      match skip with
      | S k => finditer items s' k
      | O =>
          match match_here items s with
          | Some rest =>
              let n := String.length s - String.length rest in
              Py.slice_to n s :: finditer items s' (n - 1)
          | None => finditer items s' 0
          end
      end
  end.

Definition not_gt (c : ascii) : bool := negb (Ascii.eqb c ">").
Definition any_char (c : ascii) : bool := true.

(** ['<?xml version="1.0"'] *)
Definition xml_decl : string :=
  "<?xml version=" ++ String Py.dquote ("1.0" ++ String Py.dquote "").

(** The pattern of [parse_concatenated_xml], compiled with [re.DOTALL]:
    [<\?xml version="1\.0"[^>]*\?>\s*<!DOCTYPE[^>]*>\s*<us-patent-application[^>]*>.*?</us-patent-application>] *)
Definition pattern : list item :=
  [ Lit xml_decl; Star true not_gt; Lit "?>";
    Star true Py.is_space;
    Lit "<!DOCTYPE"; Star true not_gt; Lit ">";
    Star true Py.is_space;
    Lit "<us-patent-application"; Star true not_gt; Lit ">";
    Star false any_char;
    Lit "</us-patent-application>" ].

(** *** [split_by_lines_improved] *)

Definition newline : ascii := ascii_of_nat 10.

(** [s.split('\n')]; [cur] is the line being read, in reverse. *)
Fixpoint split_lines (s : string) (cur : list ascii) : list string :=
  match s with
  | "" => [string_of_list_ascii (rev cur)]
  | String c s' =>
      if Ascii.eqb c newline
      then string_of_list_ascii (rev cur) :: split_lines s' []
      else split_lines s' (c :: cur)
  end.

(** The local variables of the loop. *)
Record scan : Type := {
  documents : list string;
  current_doc : string;
  doc_started : bool;
  doc_depth : Z
}.

Definition scan_line (st : scan) (line : string) : scan :=
  let line_stripped := Py.strip line in
  if Py.startswith xml_decl line_stripped then
    {| documents :=
         if doc_started st && Py.truthy (Py.strip (current_doc st))
         then (documents st ++ [Py.strip (current_doc st)])%list
         else documents st;
       current_doc := line ++ String newline "";
       doc_started := true;
       doc_depth := 0 |}
  else if doc_started st then
    let current := current_doc st ++ line ++ String newline "" in
    if Py.contains "<us-patent-application" line_stripped then
      {| documents := documents st; current_doc := current;
         doc_started := true; doc_depth := doc_depth st + 1 |}
    else if Py.contains "</us-patent-application>" line_stripped then
      if (doc_depth st - 1 =? 0)%Z then
        {| documents := (documents st ++ [Py.strip current])%list;
           current_doc := ""; doc_started := false; doc_depth := 0 |}
      else
        {| documents := documents st; current_doc := current;
           doc_started := true; doc_depth := doc_depth st - 1 |}
    else
      {| documents := documents st; current_doc := current;
         doc_started := true; doc_depth := doc_depth st |}
  else st.

Definition split_by_lines_improved (content : string) : list string :=
  let st :=
    fold_left scan_line (split_lines content [])
      {| documents := []; current_doc := ""; doc_started := false;
         doc_depth := 0 |} in
  if Py.truthy (Py.strip (current_doc st))
  then (documents st ++ [Py.strip (current_doc st)])%list
  else documents st.

(** *** The list [documents] of [parse_concatenated_xml] *)

Definition split_documents (content : string) : list string :=
  match finditer pattern content 0 with
  | [] => split_by_lines_improved content
  | documents => documents
  end.

Section Parse.

(** [ET.fromstring]; [None] stands for [ParseError]. *)
Variable fromstring : string -> option Parser.element.
Variable hash : string -> Z.
Variable current_year : Z.

(** The units handed to the XML parser: the first 50 documents,
    stripped, the empty ones dropped. *)
Definition units (content : string) : list string :=
  filter Py.truthy (map Py.strip (firstn 50 (split_documents content))).

Definition parse_concatenated_xml (content : string) : list patent :=
  flat_map
    (fun doc_content =>
       match fromstring doc_content with
       | Some root => Parser.extract_from_root hash current_year root
       | None => []
       end)
    (units content).

Definition parse_uspto_xml (content : string) : list patent :=
  match fromstring content with
  | Some root => Parser.extract_from_root hash current_year root
  | None => parse_concatenated_xml content
  end.

(** *** [process_file], [process_directory] *)

(** [l[:n]]: a negative [n] counts from the end. *)
Definition slice_list {A : Type} (n : Z) (l : list A) : list A :=
  if (n <? 0)%Z then firstn (List.length l - Z.to_nat (- n)) l
  else firstn (Z.to_nat n) l.

(** [if cap: l = l[:cap]]: [None] and 0 are no cap. *)
Definition capped {A : Type} (cap : option Z) (l : list A) : list A :=
  match cap with
  | Some n => if (n =? 0)%Z then l else slice_list n l
  | None => l
  end.

Definition process_file (content : string) (max_patents : option Z) : list patent :=
  capped max_patents (parse_uspto_xml content).

(** The list that [process_directory] returns once the output files are
    written.  [files] are the files below the input directory, path and
    content, in the order in which [os.walk] lists them. *)
Definition process_directory (files : list (string * string))
    (max_files max_patents_per_file : option Z) : list patent :=
  let xml_files := filter (fun f => Parser.endswith ".xml" (fst f)) files in
  match xml_files with
  | [] => []
  | _ =>
      flat_map (fun f => process_file (snd f) max_patents_per_file)
        (capped max_files xml_files)
  end.

End Parse.

End Splitter.

(** ** The scorer in binary64 *)

(** [calculate_custom_score] on the floating-point numbers of the
    interpreter: the value the function returns. *)
Module Binary64.

(** [float(n)] of a term frequency: the conversion rounds to nearest.  A
    term frequency is below 2^63, as the length of a text is. *)
Definition float_of_nat (n : nat) : float :=
  PrimFloat.of_uint63 (Uint63.of_Z (Z.of_nat n)).

Definition field_weights : list (string * float) :=
  [ ("title", 3%float); ("abstract", 2%float); ("claims", 1.5%float);
    ("description", 1%float) ].

(** The inner loop, [for term in query_terms]. *)
Definition score_terms (field_text : string) (weight : float)
    (query_terms : list string) (score : float) : float :=
  fold_left
    (fun sc term =>
       let tf := Py.count field_text term in
       if 0 <? tf then (sc + float_of_nat tf * weight)%float else sc)
    query_terms score.

(** The outer loop, [for field, weight in field_weights.items()]. *)
Definition score_fields (p : patent) (query_terms : list string) (score : float)
  : float :=
  fold_left
    (fun sc fw =>
       let field_text := Py.lower (Engine.get_field p (fst fw)) in
       if Py.truthy field_text
       then score_terms field_text (snd fw) query_terms sc
       else sc)
    field_weights score.

(** The literal [1.2]: the binary64 number nearest to 6/5. *)
Definition boost_factor : float := 0x1.3333333333333p+0%float.

Definition calculate_custom_score (p : patent) (original_query : string) : float :=
  let query_terms := Py.split (Py.lower original_query) in
  let score := score_fields p query_terms 0%float in
  if Engine.in_list (category p) Engine.boosted_categories
  then (score * boost_factor)%float
  else score.

End Binary64.

(** ** The properties, as stated *)

Module Spec.

(** The sum of the occurrence counts of the terms in one field text. *)
Definition term_sum (field_text : string) (terms : list string) : Q :=
  fold_right (fun t acc => (inject_Z (Z.of_nat (Py.count field_text t)) + acc)%Q)
    0%Q terms.

(** The weighted sum over the weighted fields: for each field, the term
    frequencies of the lower-cased query terms in the lower-cased field,
    times the weight of the field. *)
Definition weighted_sum (p : patent) (query : string) : Q :=
  fold_right
    (fun fw acc =>
       (term_sum (Py.lower (Engine.get_field p (fst fw))) (Py.split (Py.lower query))
        * snd fw + acc)%Q)
    0%Q Engine.field_weights.

(** The category boost. *)
Definition boost (p : patent) : Q :=
  if String.eqb (category p) "artificial_intelligence"
     || String.eqb (category p) "telecommunications"
  then (6 # 5)%Q else 1%Q.



(** The candidates with their scores, in retrieval order. *)
Definition scored (query : string) (rows : list Engine.row) : list Engine.search_result :=
  map (fun r => {| Engine.hit := r;
                   Engine.score := Engine.calculate_custom_score (Engine.r_patent r) query |})
    rows.

(** Ten characters with a hyphen at the fifth and at the eighth place, the
    other places taken from the class [digit]. *)
Definition shape_of_date (digit : ascii -> bool) (s : string) : bool :=
  match list_ascii_of_string s with
  | [y1; y2; y3; y4; h1; m1; m2; h2; d1; d2] =>
      forallb digit [y1; y2; y3; y4; m1; m2; d1; d2]
      && Ascii.eqb h1 "-" && Ascii.eqb h2 "-"
  | _ => false
  end.

(** One of the ten digits 0 to 9. *)
Definition digit_0_9 (c : ascii) : bool :=
  existsb (Ascii.eqb c) ["0"; "1"; "2"; "3"; "4"; "5"; "6"; "7"; "8"; "9"]%char.

(** The shape [YYYY-MM-DD]: four digits, a hyphen, two digits, a hyphen,
    two digits, and nothing more. *)
Definition iso_date (s : string) : bool := shape_of_date digit_0_9 s.

(** Every character is a decimal digit. *)
Fixpoint all_digits (s : string) : bool :=
  match s with
  | "" => true
  | String c s' => Py.is_digit c && all_digits s'
  end.

(** The content of an element tree: the tree with every address dropped. *)
Fixpoint content (e : Parser.element) : Parser.element :=
  match e with
  | Parser.Element tg tx tl cs _ => Parser.Element tg tx tl (map content cs) 0%N
  end.

(** Two trees with the same content: they may differ in addresses only. *)
Definition same_content (e1 e2 : Parser.element) : Prop := content e1 = content e2.

(** [<current-year>-01-01] *)
Definition default_date (current_year : Z) : string :=
  Parser.str_of_int current_year ++ "-01-01".

(** [s] without its longest prefix of characters of the class. *)
Fixpoint drop_while (cls : ascii -> bool) (s : string) : string :=
  match s with
  | "" => ""
  | String c s' => if cls c then drop_while cls s' else s
  end.

(** What follows the first [>] of [s], when the character before it is
    [?]; [prev_q] says so of the character before [s]. *)
Fixpoint after_qgt (s : string) (prev_q : bool) : option string :=
  match s with
  | "" => None
  | String c s' =>
      if Ascii.eqb c ">" then (if prev_q then Some s' else None)
      else after_qgt s' (Ascii.eqb c "?")
  end.

(** What follows the first occurrence of [l] in [s]. *)
Fixpoint after_first (l s : string) : option string :=
  match Splitter.strip_prefix l s with
  | Some r => Some r
  | None =>
      match s with
      | "" => None
      | String _ s' => after_first l s'
      end
  end.

Definition and_then {A B : Type} (o : option A) (f : A -> option B) : option B :=
  match o with
  | Some a => f a
  | None => None
  end.

(** The boundary pattern read without backtracking: the declaration up to
    the first [>], which a [?] must precede; DOCTYPE up to the next [>];
    the opening tag of the root up to the next [>]; then everything up to
    and including the first closing tag of the root.  The result is what
    follows the match. *)
Definition boundary (s : string) : option string :=
  and_then (Splitter.strip_prefix Splitter.xml_decl s) (fun s1 =>
  and_then (after_qgt s1 false) (fun s2 =>
  and_then (Splitter.strip_prefix "<!DOCTYPE" (drop_while Py.is_space s2)) (fun s3 =>
  and_then (Splitter.strip_prefix ">" (drop_while Splitter.not_gt s3)) (fun s4 =>
  and_then (Splitter.strip_prefix "<us-patent-application"
              (drop_while Py.is_space s4)) (fun s5 =>
  and_then (Splitter.strip_prefix ">" (drop_while Splitter.not_gt s5)) (fun s6 =>
  after_first "</us-patent-application>" s6)))))).

(** Every character is whitespace. *)
Fixpoint all_space (s : string) : bool :=
  match s with
  | "" => true
  | String c s' => Py.is_space c && all_space s'
  end.

(** A document that the boundary pattern matches from its first character
    to its last. *)
Definition bounded_document (d : string) : Prop :=
  Splitter.match_here Splitter.pattern d = Some "".

(** The input made of the documents of [items] in order, each preceded by
    the run of characters paired with it, and [trailer] at the end. *)
Fixpoint concatenation (items : list (string * string)) (trailer : string) : string :=
  match items with
  | [] => trailer
  | (w, d) :: rest => w ++ d ++ concatenation rest trailer
  end.

(** No character of [s] is a line break. *)
Fixpoint one_line (s : string) : bool :=
  match s with
  | "" => true
  | String c s' => negb (Ascii.eqb c Splitter.newline) && one_line s'
  end.

(** The lines joined by line breaks. *)
Definition unlines (ls : list string) : string :=
  Py.join (String Splitter.newline "") ls.

(** The lines, each followed by a line break. *)
Fixpoint with_breaks (ls : list string) : string :=
  match ls with
  | [] => ""
  | l :: rest => l ++ String Splitter.newline "" ++ with_breaks rest
  end.

(** The lines after a declaration line, read as the line scan reads them
    from the depth [depth]: none starts a declaration, and the depth
    returns to zero on the last of them and not before. *)
Fixpoint closes_at_last (rest : list string) (depth : Z) : bool :=
  match rest with
  | [] => false
  | line :: rest' =>
      let line_stripped := Py.strip line in
      negb (Py.startswith Splitter.xml_decl line_stripped) &&
      (if Py.contains "<us-patent-application" line_stripped then
         closes_at_last rest' (depth + 1)
       else if Py.contains "</us-patent-application>" line_stripped then
         if (depth - 1 =? 0)%Z
         then match rest' with [] => true | _ => false end
         else closes_at_last rest' (depth - 1)
       else closes_at_last rest' depth)
  end.

(** A document given by its lines: the first starts with the declaration,
    and the root element closes on the last. *)
Definition line_document (ls : list string) : bool :=
  match ls with
  | [] => false
  | first :: rest =>
      Py.startswith Splitter.xml_decl (Py.strip first) && closes_at_last rest 0
  end.

(** The state of the line scan between two documents. *)
Definition between_documents (found : list string) : Splitter.scan :=
  {| Splitter.documents := found; Splitter.current_doc := "";
     Splitter.doc_started := false; Splitter.doc_depth := 0 |}.

(** [check] holds of the [n] integers from [z] on. *)
Fixpoint holds_from (check : Z -> bool) (n : nat) (z : Z) : bool :=
  match n with
  | O => true
  | S n' => check z && holds_from check n' (z + 1)
  end.

(** The rows that [index_patents] builds from a batch, numbered from [i]. *)
Fixpoint enumerate_rows (i : nat) (items : list Engine.patent_dict) : list Engine.row :=
  match items with
  | [] => []
  | x :: rest => Engine.row_of_dict i x :: enumerate_rows (S i) rest
  end.

(** The rows whose id is neither in [seen] nor that of an earlier row. *)
Fixpoint first_by_id (seen : list string) (rows : list Engine.row) : list Engine.row :=
  match rows with
  | [] => []
  | r :: rest =>
      if existsb (fun s => String.eqb s (id (Engine.r_patent r))) seen
      then first_by_id seen rest
      else r :: first_by_id (seen ++ [id (Engine.r_patent r)]) rest
  end.

(** Every character of [s] satisfies [p]. *)
Fixpoint all_chars (p : ascii -> bool) (s : string) : bool :=
  match s with
  | "" => true
  | String c s' => p c && all_chars p s'
  end.

(** An ASCII letter, a digit or the underscore. *)
Definition word_char (c : ascii) : bool :=
  existsb (Ascii.eqb c)
    (list_ascii_of_string
       "abcdefghijklmnopqrstuvwxyzABCDEFGHIJKLMNOPQRSTUVWXYZ0123456789_").

(** The characters that [clean_text] lets through: word characters, the
    space, and the punctuation [-.,;:()[]]. *)
Definition plain_char (c : ascii) : bool :=
  word_char c || Ascii.eqb c " "
  || existsb (Ascii.eqb c) (list_ascii_of_string "-.,;:()[]").

(** The values that [categorize_patent] can return. *)
Definition category_labels : list string :=
  (map fst Parser.specific_patterns ++ map snd Parser.ipc_categories ++ ["other"])%list.

(** *** What the revised properties speak of *)

(** Every character is an ASCII character. *)
Definition ascii_text (s : string) : bool :=
  all_chars (fun c => nat_of_ascii c <? 128) s.

Definition ascii_option (t : option string) : bool :=
  match t with
  | Some s => ascii_text s
  | None => true
  end.

(** Every text and every tail in the tree is ASCII. *)
Fixpoint ascii_element (e : Parser.element) : bool :=
  match e with
  | Parser.Element _ tx tl cs _ =>
      ascii_option tx && ascii_option tl && forallb ascii_element cs
  end.

(** The words of a text: its maximal runs of letters, digits and
    underscores, in order.  [cur] is the run being read, in reverse. *)
Fixpoint words_from (s : string) (cur : list ascii) : list string :=
  match s with
  | "" =>
      match cur with
      | [] => []
      | _ => [string_of_list_ascii (rev cur)]
      end
  | String c s' =>
      if word_char c then words_from s' (c :: cur)
      else
        match cur with
        | [] => words_from s' []
        | _ => string_of_list_ascii (rev cur) :: words_from s' []
        end
  end.

Definition words (s : string) : list string := words_from s [].

(** A character with an ASCII capital replaced by its small letter. *)
Definition fold_char (c : ascii) : ascii :=
  let n := nat_of_ascii c in
  if (65 <=? n) && (n <=? 90) then ascii_of_nat (n + 32) else c.

(** The text with its ASCII capitals replaced by small letters, as
    [LIKE] compares it. *)
Fixpoint fold_ascii (s : string) : string :=
  match s with
  | "" => ""
  | String c s' => String (fold_char c) (fold_ascii s')
  end.

(** A text matches a pattern of [LIKE]: [%] stands for any run of
    characters, the empty one included, [_] for any one character, and
    every other character for itself, ASCII case apart. *)
Inductive like_spec : string -> string -> Prop :=
| like_end : like_spec "" ""
| like_none (pat s : string) :
    like_spec pat s -> like_spec (String "%" pat) s
| like_more (pat : string) (c : ascii) (s : string) :
    like_spec (String "%" pat) s -> like_spec (String "%" pat) (String c s)
| like_one (pat : string) (c : ascii) (s : string) :
    like_spec pat s -> like_spec (String "_" pat) (String c s)
| like_same (p : ascii) (pat : string) (c : ascii) (s : string) :
    p <> "%"%char -> p <> "_"%char -> fold_char p = fold_char c ->
    like_spec pat s -> like_spec (String p pat) (String c s).

(** No character of the text is a wildcard of [LIKE] or a NUL. *)
Definition literal_text (s : string) : bool :=
  all_chars (fun c => negb (Ascii.eqb c "%") && negb (Ascii.eqb c "_")
                      && negb (Ascii.eqb c Ascii.zero)) s.

(** The first four characters of the text exist and none is a NUL: the
    text has four characters or more for [length]. *)
Definition four_before_nul (s : string) : bool :=
  match s with
  | String a (String b (String c (String d _))) =>
      negb (Ascii.eqb a Ascii.zero) && negb (Ascii.eqb b Ascii.zero)
      && negb (Ascii.eqb c Ascii.zero) && negb (Ascii.eqb d Ascii.zero)
  | _ => false
  end.

(** The limit is a signed 64-bit integer. *)
Definition int64 (n : Z) : Prop := (- 2 ^ 63 <= n < 2 ^ 63)%Z.

(** **** The score, from the words of the property *)

(** What one field adds to the score: for each term in turn, its number
    of occurrences in the lower-cased text times the weight. *)
Definition field_sum (text : string) (weight : float) (terms : list string)
    (score : float) : float :=
  fold_left
    (fun sc term =>
       (sc + Binary64.float_of_nat (Py.count (Py.lower text) term) * weight)%float)
    terms score.

(** The weighted sum over title (3.0), abstract (2.0), claims (1.5) and
    description (1.0), added up in that order from 0.0. *)
Definition weighted_sum64 (p : patent) (query : string) : float :=
  let terms := Py.split (Py.lower query) in
  field_sum (description p) 1%float terms
    (field_sum (claims p) 1.5%float terms
       (field_sum (abstract p) 2%float terms
          (field_sum (title p) 3%float terms 0%float))).

(** The score: the weighted sum, multiplied by 1.2 exactly when the
    category is one of the two. *)
Definition score64 (p : patent) (query : string) : float :=
  if String.eqb (category p) "artificial_intelligence"
     || String.eqb (category p) "telecommunications"
  then (weighted_sum64 p query * 1.2)%float
  else weighted_sum64 p query.

(** The sign of a binary64 number is not minus: it is a zero, a finite
    number or an infinity without the sign bit, or not a number. *)
Definition unsigned_sf (x : spec_float) : Prop :=
  match x with
  | S754_zero s | S754_infinity s | S754_finite s _ _ => s = false
  | S754_nan => True
  end.

Definition unsigned (x : float) : Prop := unsigned_sf (Prim2SF x).

(** **** Dates on code points *)

Definition ascii_digit (c : N) : bool := ((48 <=? c) && (c <=? 57))%N.

(** The shape of ten characters with a hyphen at the fifth and at the
    eighth place, the other places taken from the class [digit]. *)
Definition date_shape (digit : N -> bool) (s : Unicode.str) : bool :=
  match s with
  | [y1; y2; y3; y4; h1; m1; m2; h2; d1; d2] =>
      forallb digit [y1; y2; y3; y4; m1; m2; d1; d2]
      && N.eqb h1 45 && N.eqb h2 45
  | _ => false
  end.

(** A syntactically valid ISO date: [YYYY-MM-DD] in ASCII digits. *)
Definition iso_date_codes (s : Unicode.str) : bool := date_shape ascii_digit s.

(** The sum of the counts of a grouping. *)
Definition total_count (groups : list (string * nat)) : nat :=
  fold_right (fun kn acc => snd kn + acc) 0 groups.

(** The rows whose publication date has four characters or more, as
    [length] counts them. *)
Definition dated (d : Engine.db) : list Engine.row :=
  filter (fun r => four_before_nul (publication_date (Engine.r_patent r)))
    (Engine.patents d).

(** The number of keys equal to [key]. *)
Definition occurrences (key : string) (keys : list string) : nat :=
  List.length (filter (String.eqb key) keys).

End Spec.



(** ** Sample data *)

Module Sample.

Definition mk (i t a c : string) : patent :=
  {| id := i; title := t; abstract := a;
     assignee := "Acme Corp"; inventors := ["Ada Lovelace"];
     application_date := "2023-01-10"; publication_date := "2023-06-15";
     ipc_classes := ["H04L"]; ipc_class := "H04L";
     claims := ""; description := ""; category := c |}.

Definition router : patent :=
  mk "US001" "Network router for a network of networks"
     "A packet forwarding apparatus." "physics".

Definition antenna : patent :=
  mk "US002" "Antenna array" "A wireless network element." "physics".

Definition empty_db : Engine.db :=
  {| Engine.patents := []; Engine.patents_fts := [] |}.

(** The database after [index_patents([router])] on an empty one. *)
Definition one_patent_db : Engine.db :=
  Engine.index_patents empty_db [Engine.dict_of_patent router].

Definition two_patent_db : Engine.db :=
  Engine.index_patents empty_db
    [Engine.dict_of_patent antenna; Engine.dict_of_patent router].

(** An item read from JSON that has a title and nothing else. *)
Definition item_without_id (t : string) : Engine.patent_dict :=
  {| Engine.d_id := None; Engine.d_title := Some t; Engine.d_abstract := None;
     Engine.d_description := None; Engine.d_claims := None;
     Engine.d_assignee := None; Engine.d_inventors := None;
     Engine.d_application_date := None; Engine.d_publication_date := None;
     Engine.d_ipc_class := None; Engine.d_ipc_classes := None;
     Engine.d_category := None |}.

(** A full-text matcher for the samples: every stored row, in table
    order, for any query but the empty one, which the engine refuses. *)
Definition all_rows (d : Engine.db) (q : string) : result (list Engine.row) :=
  if Py.truthy q then Ok (Engine.patents d) else Raise OperationalError.

(** A stand-in for the built-in [hash] of one process: a polynomial hash
    started from the salt of the process and wrapped to a signed 64-bit
    integer.  The interpreter's own function is SipHash keyed with a salt
    drawn at start-up; the examples need only a function of the string that
    tells two strings apart. *)
Definition salted_hash (salt : Z) (s : string) : Z :=
  let h := fold_left
             (fun h c => ((h * 1000003 + Z.of_nat (nat_of_ascii c)) mod 2 ^ 64)%Z)
             (list_ascii_of_string s) (salt mod 2 ^ 64)%Z in
  if (h <? 2 ^ 63)%Z then h else (h - 2 ^ 64)%Z.

(** A parsed application with a title and an abstract and no identifier,
    at the address [a]. *)
Definition anonymous_application (a : N) : Parser.element :=
  Parser.Element "us-patent-application" None None
    [ Parser.Element "invention-title" (Some "Folding bicycle frame") None [] (a + 64);
      Parser.Element "abstract" None None
        [ Parser.Element "p" (Some "A frame that folds about a hinge.") None [] (a + 192) ]
        (a + 128) ]
    a.

(** A parsed application with an identifier and neither title nor
    abstract. *)
Definition untitled_application : Parser.element :=
  Parser.Element "us-patent-application" None None
    [ Parser.Element "publication-reference" None None
        [ Parser.Element "document-id" None None
            [ Parser.Element "doc-number" (Some "20250012345") None [] 4096;
              Parser.Element "date" (Some "20250731") None [] 4160 ]
            4032 ]
        3968 ]
    3904.

Definition nl : string := String Splitter.newline "".

(** [<?xml version="1.0" encoding="UTF-8"?>] *)
Definition declaration : string :=
  Splitter.xml_decl ++ " encoding="
  ++ String Py.dquote ("UTF-8" ++ String Py.dquote "?>").

(** A patent application with a declaration, a document type and a root
    element, each on a line of its own. *)
Definition document_with_doctype (t : string) : string :=
  declaration ++ nl
  ++ "<!DOCTYPE us-patent-application SYSTEM "
  ++ String Py.dquote ("us-patent-application-v46.dtd" ++ String Py.dquote " [ ]>")
  ++ nl
  ++ "<us-patent-application>" ++ nl
  ++ "<invention-title>" ++ t ++ "</invention-title>" ++ nl
  ++ "<abstract><p>A frame that folds about a hinge.</p></abstract>" ++ nl
  ++ "</us-patent-application>".

(** The same without the document type, which XML does not require. *)
Definition document_without_doctype (t : string) : string :=
  declaration ++ nl
  ++ "<us-patent-application>" ++ nl
  ++ "<invention-title>" ++ t ++ "</invention-title>" ++ nl
  ++ "<abstract><p>A frame that folds about a hinge.</p></abstract>" ++ nl
  ++ "</us-patent-application>".

(** The tree of [document_with_doctype t] and of
    [document_without_doctype t], at the address [a]. *)
Definition application_titled (t : string) (a : N) : Parser.element :=
  Parser.Element "us-patent-application" (Some nl) None
    [ Parser.Element "invention-title" (Some t) (Some nl) [] (a + 64);
      Parser.Element "abstract" None (Some nl)
        [ Parser.Element "p" (Some "A frame that folds about a hinge.") None [] (a + 192) ]
        (a + 128) ]
    a.

(** The titles of the sample documents. *)
Definition titles : list string := ["Folding bicycle frame"; "Antenna array"].

(** The XML parser on the samples: it reads the two documents above for the
    titles of the samples; the other texts handed to it in the examples are
    not well-formed XML, and it refuses them. *)
Definition fromstring (d : string) : option Parser.element :=
  match
    find (fun t => String.eqb d (document_with_doctype t)
                   || String.eqb d (document_without_doctype t)) titles
  with
  | Some t => Some (application_titled t 4096)
  | None => None
  end.

(** A file of two applications, and a directory with two such files and
    a file that is not XML. *)
Definition two_documents : string :=
  document_with_doctype "Folding bicycle frame" ++ nl
  ++ document_with_doctype "Antenna array".

Definition directory : list (string * string) :=
  [ ("data/raw/ipa250731.xml", two_documents);
    ("data/raw/readme.txt", "Bulk data, weekly.");
    ("data/raw/ipa250807.xml", two_documents) ].

(** A text of 50001 bytes. *)
Definition long_text : string :=
  string_of_list_ascii (repeat "a"%char 50001).

(** The lines of [document_without_doctype]. *)
Definition lines_without_doctype (t : string) : list string :=
  [ declaration;
    "<us-patent-application>";
    "<invention-title>" ++ t ++ "</invention-title>";
    "<abstract><p>A frame that folds about a hinge.</p></abstract>";
    "</us-patent-application>" ].

End Sample.
(** * Proofs *)

(** ** Strings *)

(** The primitives on sample inputs, with the values the interpreter gives. *)
Example python_string_samples :
  Py.count "aaaa" "aa" = 2 /\
  Py.count "abc" "" = 4 /\
  Py.split "  a b  cd " = ["a"; "b"; "cd"] /\
  Py.strip "  a b  " = "a b" /\
  Py.lower "Neural NETWORK-2" = "neural network-2" /\
  Py.contains "ai" (Py.lower "Folding chair") = true /\
  Py.join ", " ["a"; "b"; "c"] = "a, b, c" /\
  Py.slice_to 3 "abcdef" = "abc" /\
  Py.slice_from 4 "abcdef" = "ef".
Proof. repeat split. Qed.

Lemma string_of_rev_cons_nonempty (c : ascii) (cur : list ascii) :
  string_of_list_ascii (rev (c :: cur)) <> "".
Proof.
  simpl. destruct (rev cur); simpl; discriminate.
Qed.

Lemma split_ws_nonempty (s : string) :
  forall cur t, In t (Py.split_ws s cur) -> t <> "".
Proof.
  induction s as [|c s IH]; intros cur t; simpl.
  - destruct cur as [|a cur]; simpl; [tauto|].
    intros [<-|[]]. apply string_of_rev_cons_nonempty.
  - destruct (Py.is_space c).
    + destruct cur as [|a cur]; simpl.
      * apply IH.
      * intros [<-|H]; [apply string_of_rev_cons_nonempty | eapply IH; eauto].
    + apply IH.
Qed.

Lemma split_nonempty (s t : string) : In t (Py.split s) -> t <> "".
Proof. apply split_ws_nonempty. Qed.

Lemma count_empty_text (t : string) : t <> "" -> Py.count "" t = 0.
Proof. destruct t; [congruence | reflexivity]. Qed.

Lemma append_assoc (a b c : string) : (a ++ b) ++ c = a ++ b ++ c.
Proof. induction a as [|x a IH]; simpl; [reflexivity | now rewrite IH]. Qed.

Lemma append_empty_r (a : string) : a ++ "" = a.
Proof. induction a as [|x a IH]; simpl; [reflexivity | now rewrite IH]. Qed.

Lemma length_append (a b : string) :
  String.length (a ++ b) = String.length a + String.length b.
Proof. induction a as [|x a IH]; simpl; [reflexivity | now rewrite IH]. Qed.

(** ** Scoring *)

Lemma score_terms_sum (field_text : string) (weight : Q) (terms : list string) :
  forall sc,
    (Engine.score_terms field_text weight terms sc
     == sc + Spec.term_sum field_text terms * weight)%Q.
Proof.
  unfold Engine.score_terms.
  induction terms as [|t terms IH]; intros sc; simpl.
  - ring.
  - rewrite IH. destruct (Nat.ltb_spec 0 (Py.count field_text t)) as [Hpos|Hzero].
    + ring.
    + replace (Py.count field_text t) with 0 by lia.
      change (inject_Z (Z.of_nat 0)) with 0%Q. ring.
Qed.

Lemma term_sum_empty_text (terms : list string) :
  (forall t, In t terms -> t <> "") ->
  (Spec.term_sum "" terms == 0)%Q.
Proof.
  induction terms as [|t terms IH]; intros H; simpl.
  - reflexivity.
  - rewrite count_empty_text by (apply H; now left).
    rewrite IH by (intros; apply H; now right).
    reflexivity.
Qed.

Lemma score_field_step (p : patent) (terms : list string) (fw : string * Q) (sc : Q) :
  (forall t, In t terms -> t <> "") ->
  ((let field_text := Py.lower (Engine.get_field p (fst fw)) in
    if Py.truthy field_text
    then Engine.score_terms field_text (snd fw) terms sc
    else sc)
   == sc + Spec.term_sum (Py.lower (Engine.get_field p (fst fw))) terms * snd fw)%Q.
Proof.
  intros H. cbv zeta.
  destruct (Py.lower (Engine.get_field p (fst fw))) as [|c s] eqn:E; simpl Py.truthy; cbv iota.
  - rewrite term_sum_empty_text by assumption. ring.
  - apply score_terms_sum.
Qed.

Lemma score_fields_fold (p : patent) (terms : list string)
    (fws : list (string * Q)) :
  (forall t, In t terms -> t <> "") ->
  forall sc,
    (fold_left
       (fun sc fw =>
          let field_text := Py.lower (Engine.get_field p (fst fw)) in
          if Py.truthy field_text
          then Engine.score_terms field_text (snd fw) terms sc
          else sc)
       fws sc
     == sc + fold_right
               (fun fw acc =>
                  Spec.term_sum (Py.lower (Engine.get_field p (fst fw))) terms
                  * snd fw + acc)
               0 fws)%Q.
Proof.
  intros H. induction fws as [|fw fws IH]; intros sc.
  - simpl. ring.
  - cbn [fold_left fold_right]. rewrite IH.
    rewrite (score_field_step p terms fw sc H). ring.
Qed.

Lemma in_boosted_categories (c : string) :
  Engine.in_list c Engine.boosted_categories
  = String.eqb c "artificial_intelligence" || String.eqb c "telecommunications".
Proof.
  unfold Engine.in_list, Engine.boosted_categories. simpl.
  now rewrite orb_false_r.
Qed.

(** *** The score in binary64 *)

Lemma unsigned_round_aux (mx ex : Z) (lx : location) :
  Spec.unsigned_sf (binary_round_aux prec emax false mx ex lx).
Proof.
  unfold binary_round_aux.
  destruct (shr_fexp prec emax mx ex lx) as [mrs' e'].
  destruct (shr_fexp prec emax _ e' loc_Exact) as [mrs'' e''].
  destruct (shr_m mrs''); [reflexivity | | exact I].
  destruct (e'' <=? emax - prec)%Z; reflexivity.
Qed.

Lemma unsigned_normalize (m e : Z) :
  (0 <= m)%Z -> Spec.unsigned_sf (binary_normalize prec emax m e false).
Proof.
  intros H. destruct m as [|m|m]; [reflexivity | | lia].
  unfold binary_normalize, binary_round.
  destruct (shl_align m e _) as [mz ez]. apply unsigned_round_aux.
Qed.

Lemma unsigned_add (x y : float) :
  Spec.unsigned x -> Spec.unsigned y -> Spec.unsigned (x + y)%float.
Proof.
  unfold Spec.unsigned. rewrite FloatAxioms.add_spec.
  destruct (Prim2SF x) as [sx|sx| |sx mx ex], (Prim2SF y) as [sy|sy| |sy my ey];
    simpl; intros Hx Hy; subst; try reflexivity; try exact I.
  apply unsigned_normalize. simpl. lia.
Qed.

Lemma unsigned_mul (x y : float) :
  Spec.unsigned x -> Spec.unsigned y -> Spec.unsigned (x * y)%float.
Proof.
  unfold Spec.unsigned. rewrite FloatAxioms.mul_spec.
  destruct (Prim2SF x) as [sx|sx| |sx mx ex], (Prim2SF y) as [sy|sy| |sy my ey];
    simpl; intros Hx Hy; subst; try reflexivity; try exact I.
  apply unsigned_round_aux.
Qed.

Lemma unsigned_float_of_nat (n : nat) : Spec.unsigned (Binary64.float_of_nat n).
Proof.
  unfold Spec.unsigned, Binary64.float_of_nat. rewrite FloatAxioms.of_uint63_spec.
  apply unsigned_normalize. apply Uint63.to_Z_bounded.
Qed.

Lemma add_zero_unsigned (x : float) : Spec.unsigned x -> (x + 0)%float = x.
Proof.
  unfold Spec.unsigned. intros H. apply Prim2SF_inj. rewrite FloatAxioms.add_spec.
  change (Prim2SF 0) with (S754_zero false).
  destruct (Prim2SF x) as [sx|sx| |sx mx ex]; simpl in *; subst; reflexivity.
Qed.

(** The four weights and the boost carry no sign, and no occurrence adds
    nothing. *)
Lemma weight_facts (w : float) :
  In w [3%float; 2%float; 1.5%float; 1%float] ->
  Spec.unsigned w /\ (Binary64.float_of_nat 0 * w)%float = 0%float.
Proof.
  intros [<-|[<-|[<-|[<-|[]]]]]; split; reflexivity.
Qed.

Lemma field_sum_step (w : float) (sc : float) (tf : nat) :
  Spec.unsigned w -> (Binary64.float_of_nat 0 * w)%float = 0%float ->
  Spec.unsigned sc ->
  (if 0 <? tf then (sc + Binary64.float_of_nat tf * w)%float else sc)
  = (sc + Binary64.float_of_nat tf * w)%float /\
  Spec.unsigned (sc + Binary64.float_of_nat tf * w)%float.
Proof.
  intros Hw Hz Hsc. split.
  - destruct (Nat.ltb_spec 0 tf) as [|Hzero]; [reflexivity|].
    replace tf with 0 by lia. rewrite Hz. symmetry. now apply add_zero_unsigned.
  - apply unsigned_add; [assumption|].
    apply unsigned_mul; [apply unsigned_float_of_nat | assumption].
Qed.

Lemma score_terms_field_sum (field_text : string) (w : float) (terms : list string) :
  Spec.unsigned w -> (Binary64.float_of_nat 0 * w)%float = 0%float ->
  forall sc,
    Spec.unsigned sc ->
    Binary64.score_terms field_text w terms sc
    = fold_left
        (fun sc term =>
           (sc + Binary64.float_of_nat (Py.count field_text term) * w)%float)
        terms sc /\
    Spec.unsigned (Binary64.score_terms field_text w terms sc).
Proof.
  intros Hw Hz. unfold Binary64.score_terms.
  induction terms as [|t terms IH]; intros sc Hsc; [now split|].
  cbn [fold_left]. cbv zeta.
  destruct (field_sum_step w sc (Py.count field_text t) Hw Hz Hsc) as [E U].
  rewrite E. now apply IH.
Qed.

Lemma field_sum_empty_text (w : float) (terms : list string) :
  Spec.unsigned w -> (Binary64.float_of_nat 0 * w)%float = 0%float ->
  (forall t, In t terms -> t <> "") ->
  forall sc,
    Spec.unsigned sc ->
    fold_left
      (fun sc term => (sc + Binary64.float_of_nat (Py.count "" term) * w)%float)
      terms sc = sc.
Proof.
  intros Hw Hz. induction terms as [|t terms IH]; intros H sc Hsc; [reflexivity|].
  cbn [fold_left]. rewrite count_empty_text by (apply H; now left).
  rewrite Hz, (add_zero_unsigned sc Hsc).
  apply IH; [intros; apply H; now right | assumption].
Qed.

Lemma score_field_sum (p : patent) (text : string) (w : float)
    (terms : list string) :
  In w [3%float; 2%float; 1.5%float; 1%float] ->
  (forall t, In t terms -> t <> "") ->
  forall sc,
    Spec.unsigned sc ->
    (if Py.truthy (Py.lower text)
     then Binary64.score_terms (Py.lower text) w terms sc
     else sc)
    = Spec.field_sum text w terms sc /\
    Spec.unsigned (Spec.field_sum text w terms sc).
Proof.
  intros Hin Hterms sc Hsc. destruct (weight_facts w Hin) as [Hw Hz].
  destruct (score_terms_field_sum (Py.lower text) w terms Hw Hz sc Hsc) as [E U].
  unfold Spec.field_sum. rewrite <- E. split; [|exact U].
  destruct (Py.lower text) as [|c s] eqn:L; [|reflexivity].
  cbn [Py.truthy]. rewrite E.
  symmetry. now apply field_sum_empty_text.
Qed.

(** The score before the boost, the variable [score] after the loops. *)
Lemma score_fields_weighted_sum64 (p : patent) (query : string) :
  Binary64.score_fields p (Py.split (Py.lower query)) 0%float
  = Spec.weighted_sum64 p query.
Proof.
  set (terms := Py.split (Py.lower query)).
  assert (forall t, In t terms -> t <> "") as Hterms
    by (intros t; apply split_nonempty).
  unfold Binary64.score_fields, Binary64.field_weights, Spec.weighted_sum64.
  fold terms. cbn [fold_left fst snd]. cbv zeta.
  change (Engine.get_field p "title") with (title p).
  change (Engine.get_field p "abstract") with (abstract p).
  change (Engine.get_field p "claims") with (claims p).
  change (Engine.get_field p "description") with (description p).
  destruct (score_field_sum p (title p) 3%float terms
              ltac:(simpl; tauto) Hterms 0%float eq_refl) as [E1 U1].
  rewrite E1.
  destruct (score_field_sum p (abstract p) 2%float terms
              ltac:(simpl; tauto) Hterms _ U1) as [E2 U2].
  rewrite E2.
  destruct (score_field_sum p (claims p) 1.5%float terms
              ltac:(simpl; tauto) Hterms _ U2) as [E3 U3].
  rewrite E3.
  destruct (score_field_sum p (description p) 1%float terms
              ltac:(simpl; tauto) Hterms _ U3) as [E4 _].
  exact E4.
Qed.

Lemma custom_score_score64 (p : patent) (query : string) :
  Binary64.calculate_custom_score p query = Spec.score64 p query.
Proof.
  unfold Binary64.calculate_custom_score, Spec.score64.
  rewrite in_boosted_categories. cbv zeta.
  now rewrite score_fields_weighted_sum64.
Qed.

Lemma weighted_sum64_network (p : patent) (t a c d : nat) :
  Py.count (Py.lower (title p)) "network" = t ->
  Py.count (Py.lower (abstract p)) "network" = a ->
  Py.count (Py.lower (claims p)) "network" = c ->
  Py.count (Py.lower (description p)) "network" = d ->
  Spec.weighted_sum64 p "network"
  = (0 + Binary64.float_of_nat t * 3 + Binary64.float_of_nat a * 2
     + Binary64.float_of_nat c * 1.5 + Binary64.float_of_nat d * 1)%float.
Proof.
  intros Ht Ha Hc Hd. unfold Spec.weighted_sum64, Spec.field_sum.
  change (Py.split (Py.lower "network")) with ["network"].
  cbn [fold_left]. now rewrite Ht, Ha, Hc, Hd.
Qed.

(** C2.  The value that [calculate_custom_score] returns is the weighted
    sum of the property, computed in binary64 in the order of the table:
    for title (3.0), abstract (2.0), claims (1.5) and description (1.0) in
    turn, and for each lower-cased query term in turn, the number of
    occurrences of the term in the lower-cased field text times the weight
    is added; the sum is multiplied by 1.2 exactly when the category is
    artificial_intelligence or telecommunications.  The guards of the code
    (an empty field, a term that does not occur) add nothing.  For the
    query network, a record with three occurrences in the title and none
    elsewhere scores 9.0, and a record with one occurrence in the abstract
    and none elsewhere scores 2.0, before any boost and as the returned
    score when the category is not boosted; the boost makes
    10.799999999999999 of 9.0 and 2.4 of 2.0. *)
Theorem custom_score_binary64_weighted_sum :
  (forall p query,
      Binary64.calculate_custom_score p query = Spec.score64 p query) /\
  (forall p query,
      Binary64.score_fields p (Py.split (Py.lower query)) 0%float
      = Spec.weighted_sum64 p query) /\
  (forall p query,
      category p = "artificial_intelligence" \/ category p = "telecommunications" ->
      Binary64.calculate_custom_score p query
      = (Spec.weighted_sum64 p query * 1.2)%float) /\
  (forall p query,
      category p <> "artificial_intelligence" ->
      category p <> "telecommunications" ->
      Binary64.calculate_custom_score p query = Spec.weighted_sum64 p query) /\
  (forall p,
      Py.count (Py.lower (title p)) "network" = 3 ->
      Py.count (Py.lower (abstract p)) "network" = 0 ->
      Py.count (Py.lower (claims p)) "network" = 0 ->
      Py.count (Py.lower (description p)) "network" = 0 ->
      Binary64.score_fields p (Py.split (Py.lower "network")) 0%float = 9%float /\
      (category p <> "artificial_intelligence" ->
       category p <> "telecommunications" ->
       Binary64.calculate_custom_score p "network" = 9%float) /\
      (category p = "artificial_intelligence" \/ category p = "telecommunications" ->
       Binary64.calculate_custom_score p "network" = 0x1.5999999999999p+3%float)) /\
  (forall p,
      Py.count (Py.lower (title p)) "network" = 0 ->
      Py.count (Py.lower (abstract p)) "network" = 1 ->
      Py.count (Py.lower (claims p)) "network" = 0 ->
      Py.count (Py.lower (description p)) "network" = 0 ->
      Binary64.score_fields p (Py.split (Py.lower "network")) 0%float = 2%float /\
      (category p <> "artificial_intelligence" ->
       category p <> "telecommunications" ->
       Binary64.calculate_custom_score p "network" = 2%float) /\
      (category p = "artificial_intelligence" \/ category p = "telecommunications" ->
       Binary64.calculate_custom_score p "network" = 0x1.3333333333333p+1%float)).
Proof.
  assert (forall p query,
             category p = "artificial_intelligence" \/ category p = "telecommunications" ->
             Binary64.calculate_custom_score p query
             = (Spec.weighted_sum64 p query * 1.2)%float) as Boosted.
  { intros p query H. rewrite custom_score_score64. unfold Spec.score64.
    destruct H as [-> | ->]; reflexivity. }
  assert (forall p query,
             category p <> "artificial_intelligence" ->
             category p <> "telecommunications" ->
             Binary64.calculate_custom_score p query = Spec.weighted_sum64 p query)
    as Plain.
  { intros p query H1 H2. rewrite custom_score_score64. unfold Spec.score64.
    apply String.eqb_neq in H1. apply String.eqb_neq in H2.
    now rewrite H1, H2. }
  split; [exact custom_score_score64|].
  split; [exact score_fields_weighted_sum64|].
  split; [exact Boosted|]. split; [exact Plain|]. split.
  - intros p Ht Ha Hc Hd.
    pose proof (weighted_sum64_network p 3 0 0 0 Ht Ha Hc Hd) as W.
    change (0 + Binary64.float_of_nat 3 * 3 + Binary64.float_of_nat 0 * 2
            + Binary64.float_of_nat 0 * 1.5 + Binary64.float_of_nat 0 * 1)%float
      with 9%float in W.
    split; [now rewrite score_fields_weighted_sum64|]. split.
    + intros H1 H2. now rewrite Plain.
    + intros H. rewrite Boosted, W by assumption. reflexivity.
  - intros p Ht Ha Hc Hd.
    pose proof (weighted_sum64_network p 0 1 0 0 Ht Ha Hc Hd) as W.
    change (0 + Binary64.float_of_nat 0 * 3 + Binary64.float_of_nat 1 * 2
            + Binary64.float_of_nat 0 * 1.5 + Binary64.float_of_nat 0 * 1)%float
      with 2%float in W.
    split; [now rewrite score_fields_weighted_sum64|]. split.
    + intros H1 H2. now rewrite Plain.
    + intros H. rewrite Boosted, W by assumption. reflexivity.
Qed.

(** In binary64 the two unboosted samples score 9.0 and 2.0 as well, and
    the boosted one 10.799999999999999. *)
Example score_samples_binary64 :
  Binary64.calculate_custom_score Sample.router "network" = 9%float /\
  Binary64.calculate_custom_score Sample.antenna "network" = 2%float /\
  Binary64.calculate_custom_score
    (Sample.mk "US003" "Network network NETWORK" "None of it." "telecommunications")
    "network" = 0x1.5999999999999p+3%float.
Proof. repeat split; vm_compute; reflexivity. Qed.

(** ** Index rebuild *)

Lemma index_loop_fts (items : list Engine.patent_dict) :
  forall i d,
    exists added,
      Engine.patents (Engine.index_loop i items d)
      = (Engine.patents d ++ added)%list /\
      Engine.patents_fts (Engine.index_loop i items d)
      = (Engine.patents_fts d ++ map Engine.fts_of_row added)%list.
Proof.
  induction items as [|p items IH]; intros i d; simpl.
  - exists []. now rewrite !app_nil_r.
  - unfold Engine.insert_into_patents.
    destruct (existsb _ (Engine.patents d)).
    + apply IH.
    + destruct (IH (S i)
                  {| Engine.patents := (Engine.patents d ++ [Engine.row_of_dict i p])%list;
                     Engine.patents_fts :=
                       (Engine.patents_fts d
                        ++ [Engine.fts_of_row (Engine.row_of_dict i p)])%list |})
        as (added & E1 & E2).
      exists (Engine.row_of_dict i p :: added). simpl in E1, E2.
      rewrite E1, E2. simpl. now rewrite <- !app_assoc.
Qed.

(** After a rebuild the table holds rows of the new batch only, and the
    full-text table holds every entry it held before, followed by the
    entries of the rows just stored. *)
Lemma index_patents_state (d : Engine.db) (items : list Engine.patent_dict) :
  Engine.patents_fts (Engine.index_patents d items)
  = (Engine.patents_fts d
     ++ map Engine.fts_of_row (Engine.patents (Engine.index_patents d items)))%list.
Proof.
  unfold Engine.index_patents.
  destruct (index_loop_fts items 0 (Engine.delete_from_patents d)) as (added & E1 & E2).
  rewrite E1, E2. reflexivity.
Qed.

(** The stored records are deleted: a rebuild from the empty batch leaves
    no stored record, so [total_patents] is 0. *)
Lemma index_patents_empty_total (d : Engine.db) :
  Engine.patents (Engine.index_patents d []) = [] /\
  Engine.total_patents (Engine.index_patents d []) = 0.
Proof. split; reflexivity. Qed.

(** C1.  A rebuild deletes the stored records and not the derived
    full-text entries: on the database that holds the one sample record,
    [index_patents([])] leaves no stored record and a total of 0, and the
    full-text table still holds the entry of the record deleted. *)
Theorem index_patents_empty_keeps_fts_entries :
  Engine.patents Sample.one_patent_db
  = [Engine.row_of_dict 0 (Engine.dict_of_patent Sample.router)] /\
  Engine.patents (Engine.index_patents Sample.one_patent_db []) = [] /\
  Engine.total_patents (Engine.index_patents Sample.one_patent_db []) = 0 /\
  Engine.patents_fts (Engine.index_patents Sample.one_patent_db [])
  = [Engine.fts_of_row (Engine.row_of_dict 0 (Engine.dict_of_patent Sample.router))].
Proof. repeat split. Qed.

(** The same for every database: the empty rebuild changes nothing in the
    full-text table. *)
Lemma index_patents_empty_fts (d : Engine.db) :
  Engine.patents_fts (Engine.index_patents d []) = Engine.patents_fts d.
Proof. reflexivity. Qed.

(** ** Field search *)

(** [LIKE] on sample texts, with the values the engine gives; the last
    three have a NUL in the text or in the pattern. *)
Example like_samples :
  Engine.like "%ibm%" "IBM Corp" = true /\
  Engine.like "%a_c%" "xxabcxx" = true /\
  Engine.like "%a_c%" "xxacxx" = false /\
  Engine.like "%%%" "x" = true /\
  Engine.like "%Smith%" (Engine.json_dumps_list ["Ada Lovelace"; "Jo Smith"]) = true /\
  Engine.like "%cd%" (String "a" (String "b" (String Ascii.zero "cdef"))) = false /\
  Engine.like "%ab%" (String "a" (String "b" (String Ascii.zero "cdef"))) = true /\
  Engine.like (String "%" (String Ascii.zero "zzz%")) "Acme" = true.
Proof. repeat split. Qed.

Lemma like_percent (pat s : string) :
  Engine.like_match (String "%" pat) s
  = Engine.like_match pat s
    || match s with
       | "" => false
       | String _ s' => Engine.like_match (String "%" pat) s'
       end.
Proof. destruct s; reflexivity. Qed.

Lemma like_percent_all (s : string) : Engine.like_match "%" s = true.
Proof.
  induction s as [|c s IH]; [reflexivity|].
  rewrite like_percent, IH. apply orb_true_r.
Qed.

Lemma like_char (p : ascii) (pat s : string) :
  Ascii.eqb p "%" = false ->
  Engine.like_match (String p pat) s
  = match s with
    | "" => false
    | String c s' =>
        (Ascii.eqb p "_" || Ascii.eqb (Py.lower_char p) (Py.lower_char c))
        && Engine.like_match pat s'
    end.
Proof. intros H. cbn [Engine.like_match]. now rewrite H. Qed.

Lemma fold_ascii_lower (s : string) : Spec.fold_ascii s = Py.lower s.
Proof.
  induction s as [|c s IH]; [reflexivity|].
  cbn [Spec.fold_ascii Py.lower]. now rewrite IH.
Qed.

(** The matcher accepts exactly the texts that match the pattern. *)
Lemma like_match_spec (pat : string) :
  forall s, Engine.like_match pat s = true <-> Spec.like_spec pat s.
Proof.
  induction pat as [|p pat IH]; intros s.
  - split.
    + destruct s; [constructor | discriminate].
    + intros H. inversion H. reflexivity.
  - destruct (Ascii.eqb_spec p "%") as [->|Hp].
    + split.
      * induction s as [|c s IHs]; rewrite like_percent; intros H.
        -- rewrite orb_false_r in H. apply Spec.like_none. now apply IH.
        -- apply orb_true_iff in H as [H|H].
           ++ apply Spec.like_none. now apply IH.
           ++ apply Spec.like_more. now apply IHs.
      * intros H. remember (String "%" pat) as q eqn:Q.
        induction H as [|pat0 s0 H _|pat0 c s0 H IHs|pat0 c s0 H _|p0 pat0 c s0 N1 N2 F H _];
          inversion Q; subst.
        -- rewrite like_percent. apply IH in H. now rewrite H.
        -- rewrite like_percent. rewrite (IHs eq_refl). apply orb_true_r.
        -- congruence.
    + apply Ascii.eqb_neq in Hp. rewrite (like_char p pat s Hp).
      destruct s as [|c s].
      * split; [discriminate | intros H; inversion H; subst; discriminate].
      * rewrite andb_true_iff, orb_true_iff, IH. split.
        -- intros [[H|H] Hrest].
           ++ apply Ascii.eqb_eq in H. subst p. now apply Spec.like_one.
           ++ destruct (Ascii.eqb_spec p "_") as [->|Hu];
                [now apply Spec.like_one|].
              apply Ascii.eqb_eq in H. apply Ascii.eqb_neq in Hp.
              now apply Spec.like_same.
        -- intros H. inversion H; subst.
           ++ discriminate.
           ++ discriminate.
           ++ split; [left; reflexivity | assumption].
           ++ split; [right; now apply Ascii.eqb_eq | assumption].
Qed.

Lemma literal_text_cons (c : ascii) (v : string) :
  Spec.literal_text (String c v) = true ->
  Ascii.eqb c "%" = false /\ Ascii.eqb c "_" = false /\
  Ascii.eqb c Ascii.zero = false /\ Spec.literal_text v = true.
Proof.
  unfold Spec.literal_text. cbn [Spec.all_chars]. intros H.
  apply andb_true_iff in H as [H Hv].
  apply andb_true_iff in H as [H H3]. apply andb_true_iff in H as [H1 H2].
  apply negb_true_iff in H1, H2, H3. auto.
Qed.

(** A pattern of literal characters followed by [%] matches the texts
    that start with it, up to ASCII case. *)
Lemma like_literal_prefix (v : string) :
  Spec.literal_text v = true ->
  forall t,
    Engine.like_match (v ++ "%") t = Py.startswith (Py.lower v) (Py.lower t).
Proof.
  induction v as [|c v IH]; intros H t.
  - apply like_percent_all.
  - apply literal_text_cons in H as (Hp & Hu & _ & Hv).
    change (String c v ++ "%") with (String c (v ++ "%")).
    rewrite (like_char c _ t Hp), Hu. destruct t as [|c' t]; [reflexivity|].
    cbn [Py.lower Py.startswith orb]. now rewrite (IH Hv).
Qed.

(** Between two [%] it matches the texts that contain it. *)
Lemma like_literal_contains (v : string) :
  Spec.literal_text v = true ->
  forall s,
    Engine.like_match ("%" ++ v ++ "%") s = Py.contains (Py.lower v) (Py.lower s).
Proof.
  intros H s. change ("%" ++ v ++ "%") with (String "%" (v ++ "%")).
  induction s as [|c s IH]; rewrite like_percent, (like_literal_prefix v H).
  - cbn [Py.lower Py.contains]. apply orb_false_r.
  - rewrite IH. reflexivity.
Qed.

Lemma until_nul_literal (v rest : string) :
  Spec.literal_text v = true ->
  Engine.until_nul (v ++ rest) = v ++ Engine.until_nul rest.
Proof.
  induction v as [|c v IH]; intros H; [reflexivity|].
  apply literal_text_cons in H as (_ & _ & Hz & Hv).
  cbn [append Engine.until_nul]. now rewrite Hz, (IH Hv).
Qed.

Lemma like_literal (v s : string) :
  Spec.literal_text v = true ->
  Engine.like ("%" ++ v ++ "%") s
  = Py.contains (Spec.fold_ascii v) (Spec.fold_ascii (Engine.until_nul s)).
Proof.
  intros H. unfold Engine.like.
  assert (Engine.until_nul ("%" ++ v ++ "%") = "%" ++ v ++ "%") as ->.
  { change ("%" ++ v ++ "%") with (String "%" (v ++ "%")).
    cbn [Engine.until_nul]. change (Ascii.eqb "%" Ascii.zero) with false. cbv iota.
    now rewrite (until_nul_literal v "%" H). }
  rewrite !fold_ascii_lower. now apply like_literal_contains.
Qed.

Lemma in_list_In (x : string) (l : list string) :
  Engine.in_list x l = true <-> In x l.
Proof.
  unfold Engine.in_list. rewrite existsb_exists. split.
  - intros (y & Hy & E). apply String.eqb_eq in E. now subst.
  - intros H. exists x. split; [assumption | apply String.eqb_refl].
Qed.

Lemma sql_limit_incl {A : Type} (n : Z) (l : list A) (x : A) :
  In x (Engine.sql_limit n l) -> In x l.
Proof.
  unfold Engine.sql_limit. destruct (n <? 0)%Z; [tauto|].
  intros H. rewrite <- (firstn_skipn (Z.to_nat n) l). apply in_or_app. now left.
Qed.

Lemma fits_int64_spec (n : Z) : Engine.fits_int64 n = true <-> Spec.int64 n.
Proof.
  unfold Engine.fits_int64, Spec.int64.
  rewrite andb_true_iff, Z.leb_le, Z.ltb_lt. tauto.
Qed.

(** C9, as the code has it.  [search_by_field] raises [ValueError] if and
    only if the field is not one of assignee, category, ipc_class,
    inventors.  For a field of the list it raises [OverflowError] exactly
    when the limit is no signed 64-bit integer, and else, for an ASCII
    value, [OperationalError] exactly when the pattern [%value%] has more
    than 50000 bytes, the limit is not 0 and the table is not empty; it
    raises nothing else.  Otherwise it returns, in table order, the rows
    whose column of that name matches [%value%] under [LIKE], the first
    [limit] of them, all for a negative limit.  Pattern and column are
    read up to their first NUL; [%] stands for any run of characters, [_]
    for any one, every other character for itself up to ASCII case.  So
    for a value without [%], [_] and NUL the rows that match are the rows
    whose column, read up to its first NUL, contains the value up to ASCII
    case. *)
Theorem search_by_field_errors_and_matches :
  forall (d : Engine.db) (field value : string) (limit : Z),
    let valid := In field ["assignee"; "category"; "ipc_class"; "inventors"] in
    let pattern := "%" ++ value ++ "%" in
    let matches :=
      filter (fun r => Engine.like pattern (Engine.column field r))
        (Engine.patents d) in
    (Engine.search_by_field d field value limit = Raise ValueError <-> ~ valid) /\
    (valid ->
     (Engine.search_by_field d field value limit = Raise OverflowError
      <-> ~ Spec.int64 limit)) /\
    (valid -> Spec.int64 limit -> Spec.ascii_text value = true ->
     (Engine.search_by_field d field value limit = Raise OperationalError
      <-> (50000 < Z.of_nat (String.length pattern))%Z /\ limit <> 0%Z
          /\ Engine.patents d <> [])) /\
    (forall e,
        Engine.search_by_field d field value limit = Raise e ->
        e = ValueError \/ e = OverflowError \/ e = OperationalError) /\
    (valid -> Spec.int64 limit -> Spec.ascii_text value = true ->
     (Z.of_nat (String.length pattern) <= 50000)%Z \/ limit = 0%Z
     \/ Engine.patents d = [] ->
     Engine.search_by_field d field value limit
     = Ok (if (limit <? 0)%Z then matches else firstn (Z.to_nat limit) matches)) /\
    (forall r,
        Engine.like pattern (Engine.column field r) = true
        <-> Spec.like_spec (Engine.until_nul pattern)
              (Engine.until_nul (Engine.column field r))) /\
    (Spec.literal_text value = true ->
     forall r,
       Engine.like pattern (Engine.column field r)
       = Py.contains (Spec.fold_ascii value)
           (Spec.fold_ascii (Engine.until_nul (Engine.column field r)))) /\
    (forall r,
        Engine.column "assignee" r = assignee (Engine.r_patent r) /\
        Engine.column "category" r = category (Engine.r_patent r) /\
        Engine.column "ipc_class" r = ipc_class (Engine.r_patent r) /\
        Engine.column "inventors" r
        = Engine.json_dumps_list (inventors (Engine.r_patent r))).
Proof.
  intros d field value limit valid pattern matches.
  assert (Engine.in_list field Engine.valid_fields = true <-> valid) as V
    by apply in_list_In.
  pose proof (fits_int64_spec limit) as F.
  assert (Engine.like_too_complex pattern = true
          <-> (50000 < Z.of_nat (String.length pattern))%Z) as C
    by (unfold Engine.like_too_complex; apply Z.ltb_lt).
  assert ((limit =? 0)%Z = true <-> limit = 0%Z) as L by apply Z.eqb_eq.
  assert (match Engine.patents d with [] => false | _ => true end = true
          <-> Engine.patents d <> []) as T.
  { destruct (Engine.patents d); split; try congruence; discriminate. }
  unfold Engine.search_by_field. fold pattern. fold matches.
  unfold Engine.sql_limit.
  destruct (Engine.in_list field Engine.valid_fields);
    destruct (Engine.fits_int64 limit);
    destruct (Engine.like_too_complex pattern);
    destruct (limit =? 0)%Z;
    destruct (match Engine.patents d with [] => false | _ => true end);
    cbn [negb andb];
    (split; [split; [try discriminate; intros _ | intros N]; intuition congruence|]);
    (split; [intros Hv; split; [try discriminate; intros _ | intros N];
             intuition congruence|]);
    (split; [intros Hv Hi _; split; [try discriminate; intros _ | intros N];
             intuition congruence|]);
    (split; [intros e He; inversion He; auto|]);
    (split; [intros Hv Hi _ Hc; try reflexivity; exfalso;
             destruct Hc as [Hc|[Hc|Hc]]; intuition (try lia; try congruence)|]);
    (split; [intros r; apply like_match_spec|]);
    (split; [intros Hl r; now apply like_literal | intros r; repeat split]).
Qed.

(** [search_by_field] raises on an allowed field, and its match is no
    substring match: on the field assignee it raises [OverflowError] at the
    limit 2^63 and [OperationalError] at a value of 50001 bytes; the value
    A_me, which the text Acme Corp does not contain, returns the row of
    that assignee, and so does the empty value followed by a NUL and any
    text. *)
Lemma search_by_field_raises_on_allowed_field :
  In "assignee" ["assignee"; "category"; "ipc_class"; "inventors"] /\
  Engine.search_by_field Sample.one_patent_db "assignee" "Acme" (2 ^ 63)
  = Raise OverflowError /\
  Engine.search_by_field Sample.one_patent_db "assignee" Sample.long_text 10
  = Raise OperationalError /\
  assignee Sample.router = "Acme Corp" /\
  Py.contains "A_me" "Acme Corp" = false /\
  Engine.search_by_field Sample.one_patent_db "assignee" "A_me" 10
  = Ok [Engine.row_of_dict 0 (Engine.dict_of_patent Sample.router)] /\
  Py.contains (String Ascii.zero "zzz") "Acme Corp" = false /\
  Engine.search_by_field Sample.one_patent_db "assignee" (String Ascii.zero "zzz") 10
  = Ok [Engine.row_of_dict 0 (Engine.dict_of_patent Sample.router)].
Proof.
  split; [simpl; tauto|]. repeat split; vm_compute; reflexivity.
Qed.

(** The statement on the samples: a value in another case, a value that
    no row holds, the limit 0 with a pattern that would be refused, and a
    field that is not in the list. *)
Example search_by_field_samples :
  Engine.search_by_field Sample.two_patent_db "assignee" "ACME" 1
  = Ok [Engine.row_of_dict 0 (Engine.dict_of_patent Sample.antenna)] /\
  Engine.search_by_field Sample.two_patent_db "inventors" "Turing" 10 = Ok [] /\
  Engine.search_by_field Sample.two_patent_db "assignee" Sample.long_text 0 = Ok [] /\
  Engine.search_by_field Sample.empty_db "assignee" Sample.long_text 10 = Ok [] /\
  Engine.search_by_field Sample.two_patent_db "country" "US" 10 = Raise ValueError /\
  Engine.search_by_field Sample.two_patent_db "country" "US" (2 ^ 63) = Raise ValueError.
Proof. repeat split; vm_compute; reflexivity. Qed.

(** ** Ranked search *)

Lemma insert_by_score_perm (x : Engine.search_result) (l : list Engine.search_result) :
  Permutation (Engine.insert_by_score x l) (x :: l).
Proof.
  induction l as [|y l IH]; simpl.
  - apply Permutation_refl.
  - destruct (Qle_bool (Engine.score y) (Engine.score x)).
    + apply Permutation_refl.
    + eapply Permutation_trans; [apply perm_skip, IH | apply perm_swap].
Qed.

Lemma sort_by_score_perm (l : list Engine.search_result) :
  Permutation (Engine.sort_by_score l) l.
Proof.
  induction l as [|x l IH]; simpl.
  - apply perm_nil.
  - eapply Permutation_trans; [apply insert_by_score_perm | now apply perm_skip].
Qed.










(** On the two samples the retrieval order is antenna, router; the scores
    are 2 and 9; the ranked order is router, antenna. *)
Example search_two_samples :
  exists a r,
    Engine.patents Sample.two_patent_db = [a; r] /\
    Engine.r_patent a = Sample.antenna /\ Engine.r_patent r = Sample.router /\
    Engine.search Sample.all_rows Sample.two_patent_db "network" 10 None None None
    = Ok [ {| Engine.hit := r; Engine.score := 9 |};
           {| Engine.hit := a; Engine.score := 2 |} ].
Proof.
  exists (Engine.row_of_dict 0 (Engine.dict_of_patent Sample.antenna)).
  exists (Engine.row_of_dict 1 (Engine.dict_of_patent Sample.router)).
  repeat split; vm_compute; reflexivity.
Qed.

(** A limit below the number of matches cuts the candidates before the
    scores are known: with [limit = 1] the lower-scored sample is the only
    result. *)
Example search_limit_cuts_before_ranking :
  exists a,
    Engine.r_patent a = Sample.antenna /\
    Engine.search Sample.all_rows Sample.two_patent_db "network" 1 None None None
    = Ok [ {| Engine.hit := a; Engine.score := 2 |} ].
Proof.
  exists (Engine.row_of_dict 0 (Engine.dict_of_patent Sample.antenna)).
  split; vm_compute; reflexivity.
Qed.

(** The errors of the statement, on the samples: a limit that is no signed
    64-bit integer, an assignee pattern of more than 50000 bytes when a row
    reaches it, and the same pattern when the category filter lets no row
    reach it, or when the limit is 0. *)
Example search_error_samples :
  Engine.search Sample.all_rows Sample.two_patent_db "network" (- 2 ^ 63 - 1)
    None None None = Raise OverflowError /\
  Engine.search Sample.all_rows Sample.two_patent_db "network" 10
    None (Some Sample.long_text) None = Raise OperationalError /\
  Engine.search Sample.all_rows Sample.two_patent_db "network" 10
    (Some "chemistry") (Some Sample.long_text) None = Ok [] /\
  Engine.search Sample.all_rows Sample.two_patent_db "?!" 0
    None (Some Sample.long_text) None = Ok [].
Proof. repeat split; vm_compute; reflexivity. Qed.

(** The two scores of the samples for the query network. *)
Example score_samples :
  (Engine.calculate_custom_score Sample.router "network" == 9)%Q /\
  (Engine.calculate_custom_score Sample.antenna "network" == 2)%Q /\
  (Engine.calculate_custom_score
     (Sample.mk "US003" "Network network NETWORK" "None of it." "telecommunications")
     "network" == 54 # 5)%Q.
Proof. repeat split. Qed.

(** ** Date normalizer *)

(** *** On ASCII text *)

Lemma digit_0_9_is_digit (c : ascii) : Spec.digit_0_9 c = Py.is_digit c.
Proof. destruct c as [[] [] [] [] [] [] [] []]; reflexivity. Qed.

Lemma iso_date_is_digit (s : string) :
  Spec.iso_date s = Spec.shape_of_date Py.is_digit s.
Proof.
  unfold Spec.iso_date, Spec.shape_of_date.
  destruct (list_ascii_of_string s)
    as [|c0 [|c1 [|c2 [|c3 [|c4 [|c5 [|c6 [|c7 [|c8 [|c9 [|c10 l]]]]]]]]]]];
    try reflexivity.
  cbn [forallb]. now rewrite !digit_0_9_is_digit.
Qed.

Lemma digits_only_all_digits (s : string) :
  Spec.all_digits (Parser.digits_only s) = true.
Proof.
  induction s as [|c s IH]; simpl; [reflexivity|].
  destruct (Py.is_digit c) eqn:E; simpl; [now rewrite E | assumption].
Qed.

Lemma holds_from_spec (check : Z -> bool) (n : nat) :
  forall z, Spec.holds_from check n z = true ->
            forall y, (z <= y < z + Z.of_nat n)%Z -> check y = true.
Proof.
  induction n as [|n IH]; intros z H y Hy; [lia|].
  simpl in H. apply andb_true_iff in H as [Hz Hrest].
  destruct (Z.eq_dec y z) as [->|Hne]; [assumption|].
  apply (IH (z + 1)%Z Hrest). lia.
Qed.

Lemma default_date_iso (year : Z) :
  (1000 <= year <= 9999)%Z -> Spec.iso_date (Spec.default_date year) = true.
Proof.
  intros H.
  apply (holds_from_spec (fun y => Spec.iso_date (Spec.default_date y))
           (Z.to_nat 9000) 1000%Z); [vm_compute; reflexivity | lia].
Qed.

Ltac next_digit ds Hlen Hall c :=
  destruct ds as [|c ds]; [simpl in Hlen; lia|];
  simpl in Hlen; simpl in Hall; apply andb_true_iff in Hall;
  let Hc := fresh "Hd" in destruct Hall as [Hc Hall].

Lemma eight_digits_iso (ds : string) :
  Spec.all_digits ds = true -> 8 <= String.length ds ->
  Spec.iso_date (Parser.slice 0 4 ds ++ "-" ++ Parser.slice 4 6 ds ++ "-"
                 ++ Parser.slice 6 8 ds) = true.
Proof.
  intros Hall Hlen. rewrite iso_date_is_digit.
  next_digit ds Hlen Hall c1. next_digit ds Hlen Hall c2.
  next_digit ds Hlen Hall c3. next_digit ds Hlen Hall c4.
  next_digit ds Hlen Hall c5. next_digit ds Hlen Hall c6.
  next_digit ds Hlen Hall c7. next_digit ds Hlen Hall c8.
  destruct ds; cbn; rewrite Hd, Hd0, Hd1, Hd2, Hd3, Hd4, Hd5, Hd6; reflexivity.
Qed.

Lemma six_digits_iso (ds : string) :
  Spec.all_digits ds = true -> 6 <= String.length ds ->
  Spec.iso_date (Parser.slice 0 4 ds ++ "-" ++ Parser.slice 4 6 ds ++ "-01") = true.
Proof.
  intros Hall Hlen. rewrite iso_date_is_digit.
  next_digit ds Hlen Hall c1. next_digit ds Hlen Hall c2.
  next_digit ds Hlen Hall c3. next_digit ds Hlen Hall c4.
  next_digit ds Hlen Hall c5. next_digit ds Hlen Hall c6.
  destruct ds; cbn; rewrite Hd, Hd0, Hd1, Hd2, Hd3, Hd4; reflexivity.
Qed.

Lemma four_digits_iso (ds : string) :
  Spec.all_digits ds = true -> 4 <= String.length ds ->
  Spec.iso_date (Parser.slice 0 4 ds ++ "-01-01") = true.
Proof.
  intros Hall Hlen. rewrite iso_date_is_digit.
  next_digit ds Hlen Hall c1. next_digit ds Hlen Hall c2.
  next_digit ds Hlen Hall c3. next_digit ds Hlen Hall c4.
  destruct ds; cbn; rewrite Hd, Hd0, Hd1, Hd2; reflexivity.
Qed.

Lemma format_date_iso (current_year : Z) (input : option string) :
  (1000 <= current_year <= 9999)%Z ->
  Spec.iso_date (Parser.format_date current_year input) = true.
Proof.
  intros Hyear. destruct input as [s|]; [|apply default_date_iso, Hyear].
  unfold Parser.format_date, Parser.format_date_try.
  pose proof (digits_only_all_digits s) as Hall.
  destruct (Nat.leb_spec 8 (String.length (Parser.digits_only s)));
    [now apply eight_digits_iso|].
  destruct (Nat.leb_spec 6 (String.length (Parser.digits_only s)));
    [now apply six_digits_iso|].
  destruct (Nat.leb_spec 4 (String.length (Parser.digits_only s)));
    [now apply four_digits_iso|].
  apply default_date_iso, Hyear.
Qed.

(** The shape is all there is: the fields are not checked against the
    calendar. *)
Example format_date_not_a_calendar_date :
  Parser.format_date 2026 (Some "20231345") = "2023-13-45".
Proof. reflexivity. Qed.

(** *** On code points *)

(** C6, at the input of the eight full-width digits of 20230615 (U+FF12
    U+FF10 U+FF12 U+FF13 U+FF10 U+FF16 U+FF11 U+FF15).  The digit class of
    the pattern keeps them, so [format_date] returns the same full-width
    digits with two hyphens between them, which is no ISO date; the date
    the input denotes is 2023-06-15. *)
Theorem format_date_keeps_fullwidth_digits :
  forall (current_year : Z),
    Unicode.digits_only [65298; 65296; 65298; 65299; 65296; 65302; 65297; 65301]%N
    = [65298; 65296; 65298; 65299; 65296; 65302; 65297; 65301]%N /\
    Unicode.format_date current_year
      (Some [65298; 65296; 65298; 65299; 65296; 65302; 65297; 65301]%N)
    = [65298; 65296; 65298; 65299; 45; 65296; 65302; 45; 65297; 65301]%N /\
    Spec.iso_date_codes
      (Unicode.format_date current_year
         (Some [65298; 65296; 65298; 65299; 65296; 65302; 65297; 65301]%N))
    = false /\
    Unicode.format_date current_year
      (Some [65298; 65296; 65298; 65299; 65296; 65302; 65297; 65301]%N)
    <> Unicode.of_string "2023-06-15".
Proof.
  intros current_year. split; [reflexivity|]. split; [reflexivity|].
  split; [reflexivity | discriminate].
Qed.

Lemma of_string_app (a b : string) :
  Unicode.of_string (a ++ b) = (Unicode.of_string a ++ Unicode.of_string b)%list.
Proof.
  unfold Unicode.of_string. rewrite <- map_app. f_equal.
  induction a as [|c a IH]; simpl; [reflexivity | now rewrite IH].
Qed.

Lemma of_string_cons (c : ascii) (s : string) :
  Unicode.of_string (String c s)
  = N.of_nat (nat_of_ascii c) :: Unicode.of_string s.
Proof. reflexivity. Qed.

Lemma of_string_length (s : string) :
  List.length (Unicode.of_string s) = String.length s.
Proof. induction s as [|c s IH]; [reflexivity|]. rewrite of_string_cons. simpl. now rewrite IH. Qed.

(** On the code points below 256 the decimal digits are the ASCII
    digits. *)
Lemma is_decimal_byte (c : ascii) :
  Unicode.is_decimal (N.of_nat (nat_of_ascii c)) = Py.is_digit c.
Proof. destruct c as [[] [] [] [] [] [] [] []]; vm_compute; reflexivity. Qed.

Lemma digits_only_of_string (s : string) :
  Unicode.digits_only (Unicode.of_string s) = Unicode.of_string (Parser.digits_only s).
Proof.
  induction s as [|c s IH]; [reflexivity|].
  rewrite of_string_cons. unfold Unicode.digits_only in *. cbn [filter Parser.digits_only].
  rewrite is_decimal_byte, IH. now destruct (Py.is_digit c).
Qed.

Lemma skipn_of_string (n : nat) :
  forall s, skipn n (Unicode.of_string s) = Unicode.of_string (Py.slice_from n s).
Proof.
  induction n as [|n IH]; intros s; [now destruct s|].
  destruct s as [|c s]; [reflexivity|]. rewrite of_string_cons. simpl. apply IH.
Qed.

Lemma firstn_of_string (n : nat) :
  forall s, firstn n (Unicode.of_string s) = Unicode.of_string (Py.slice_to n s).
Proof.
  induction n as [|n IH]; intros s; [now destruct s|].
  destruct s as [|c s]; [reflexivity|].
  rewrite of_string_cons. cbn [firstn Py.slice_to]. now rewrite of_string_cons, IH.
Qed.

Lemma slice_of_string (a b : nat) (s : string) :
  Unicode.slice a b (Unicode.of_string s) = Unicode.of_string (Parser.slice a b s).
Proof.
  unfold Unicode.slice, Parser.slice. now rewrite skipn_of_string, firstn_of_string.
Qed.

(** On ASCII text, and on any text of code points below 256,
    [Unicode.format_date] is [Parser.format_date]. *)
Lemma format_date_of_string (current_year : Z) (s : string) :
  Unicode.format_date current_year (Some (Unicode.of_string s))
  = Unicode.of_string (Parser.format_date current_year (Some s)).
Proof.
  unfold Unicode.format_date, Unicode.format_date_try,
    Parser.format_date, Parser.format_date_try.
  rewrite digits_only_of_string, of_string_length.
  destruct (8 <=? String.length (Parser.digits_only s)).
  { now rewrite !of_string_app, !slice_of_string. }
  destruct (6 <=? String.length (Parser.digits_only s)).
  { now rewrite !of_string_app, !slice_of_string. }
  destruct (4 <=? String.length (Parser.digits_only s)).
  { now rewrite !of_string_app, !slice_of_string. }
  reflexivity.
Qed.

Lemma date_shape_weaken (d1 d2 : N -> bool) (s : Unicode.str) :
  (forall c, d1 c = true -> d2 c = true) ->
  Spec.date_shape d1 s = true -> Spec.date_shape d2 s = true.
Proof.
  intros W. unfold Spec.date_shape.
  destruct s as [|c0 [|c1 [|c2 [|c3 [|c4 [|c5 [|c6 [|c7 [|c8 [|c9 [|c10 l]]]]]]]]]]];
    try discriminate.
  intros H. apply andb_true_iff in H as [H H2]. apply andb_true_iff in H as [H H1].
  rewrite H1, H2, !andb_true_r.
  apply forallb_forall. intros c Hc. apply W.
  now apply (proj1 (forallb_forall _ _) H).
Qed.

Lemma ascii_digit_is_decimal (c : N) :
  Spec.ascii_digit c = true -> Unicode.is_decimal c = true.
Proof.
  unfold Spec.ascii_digit. intros H. apply andb_true_iff in H as [H1 H2].
  apply N.leb_le in H1, H2.
  apply existsb_exists. exists 48%N. split; [left; reflexivity|].
  apply andb_true_iff. split; [apply N.leb_le | apply N.ltb_lt]; lia.
Qed.

Lemma default_date_codes (year : Z) :
  (1000 <= year <= 9999)%Z ->
  Spec.iso_date_codes (Unicode.of_string (Parser.str_of_int year ++ "-01-01")) = true.
Proof.
  intros H.
  apply (holds_from_spec
           (fun y => Spec.iso_date_codes
                       (Unicode.of_string (Parser.str_of_int y ++ "-01-01")))
           (Z.to_nat 9000) 1000%Z); [vm_compute; reflexivity | lia].
Qed.

Ltac next_code ds Hlen Hall c :=
  destruct ds as [|c ds]; [simpl in Hlen; lia|];
  simpl in Hlen; cbn [forallb] in Hall; apply andb_true_iff in Hall;
  let Hc := fresh "Hd" in destruct Hall as [Hc Hall].

Lemma eight_codes_shape (digit : N -> bool) (ds : Unicode.str) :
  forallb digit ds = true -> 8 <= List.length ds ->
  Spec.date_shape digit
    (Unicode.slice 0 4 ds ++ [45%N] ++ Unicode.slice 4 6 ds ++ [45%N]
     ++ Unicode.slice 6 8 ds)%list = true.
Proof.
  intros Hall Hlen.
  next_code ds Hlen Hall c1. next_code ds Hlen Hall c2.
  next_code ds Hlen Hall c3. next_code ds Hlen Hall c4.
  next_code ds Hlen Hall c5. next_code ds Hlen Hall c6.
  next_code ds Hlen Hall c7. next_code ds Hlen Hall c8.
  destruct ds; cbn; rewrite Hd, Hd0, Hd1, Hd2, Hd3, Hd4, Hd5, Hd6; reflexivity.
Qed.

Lemma six_codes_shape (digit : N -> bool) (ds : Unicode.str) :
  digit 48%N = true -> digit 49%N = true ->
  forallb digit ds = true -> 6 <= List.length ds ->
  Spec.date_shape digit
    (Unicode.slice 0 4 ds ++ [45%N] ++ Unicode.slice 4 6 ds ++ [45; 48; 49]%N)%list
  = true.
Proof.
  intros H0 H1 Hall Hlen.
  next_code ds Hlen Hall c1. next_code ds Hlen Hall c2.
  next_code ds Hlen Hall c3. next_code ds Hlen Hall c4.
  next_code ds Hlen Hall c5. next_code ds Hlen Hall c6.
  destruct ds; cbn; rewrite Hd, Hd0, Hd1, Hd2, Hd3, Hd4, H0, H1; reflexivity.
Qed.

Lemma four_codes_shape (digit : N -> bool) (ds : Unicode.str) :
  digit 48%N = true -> digit 49%N = true ->
  forallb digit ds = true -> 4 <= List.length ds ->
  Spec.date_shape digit
    (Unicode.slice 0 4 ds ++ [45; 48; 49; 45; 48; 49]%N)%list = true.
Proof.
  intros H0 H1 Hall Hlen.
  next_code ds Hlen Hall c1. next_code ds Hlen Hall c2.
  next_code ds Hlen Hall c3. next_code ds Hlen Hall c4.
  destruct ds; cbn; rewrite Hd, Hd0, Hd1, Hd2, H0, H1; reflexivity.
Qed.

Lemma format_date_cases (current_year : Z) (s : Unicode.str) :
  let ds := Unicode.digits_only s in
  (8 <= List.length ds ->
   Unicode.format_date current_year (Some s)
   = (Unicode.slice 0 4 ds ++ [45%N] ++ Unicode.slice 4 6 ds ++ [45%N]
      ++ Unicode.slice 6 8 ds)%list) /\
  (6 <= List.length ds < 8 ->
   Unicode.format_date current_year (Some s)
   = (Unicode.slice 0 4 ds ++ [45%N] ++ Unicode.slice 4 6 ds ++ [45; 48; 49]%N)%list) /\
  (4 <= List.length ds < 6 ->
   Unicode.format_date current_year (Some s)
   = (Unicode.slice 0 4 ds ++ [45; 48; 49; 45; 48; 49]%N)%list) /\
  (List.length ds < 4 ->
   Unicode.format_date current_year (Some s)
   = Unicode.of_string (Spec.default_date current_year)).
Proof.
  intros ds. unfold Unicode.format_date, Unicode.format_date_try. fold ds.
  destruct (Nat.leb_spec 8 (List.length ds));
    destruct (Nat.leb_spec 6 (List.length ds));
    destruct (Nat.leb_spec 4 (List.length ds));
    repeat split; intros; try lia; reflexivity.
Qed.

Lemma format_date_shape (digit : N -> bool) (current_year : Z) (s : Unicode.str) :
  digit 48%N = true -> digit 49%N = true ->
  forallb digit (Unicode.digits_only s) = true ->
  Spec.date_shape digit
    (Unicode.of_string (Parser.str_of_int current_year ++ "-01-01")) = true ->
  Spec.date_shape digit (Unicode.format_date current_year (Some s)) = true.
Proof.
  intros H0 H1 Hall Hdef.
  destruct (format_date_cases current_year s) as (C8 & C6 & C4 & C0).
  destruct (Nat.le_gt_cases 8 (List.length (Unicode.digits_only s))) as [H8|H8].
  { rewrite (C8 H8). now apply eight_codes_shape. }
  destruct (Nat.le_gt_cases 6 (List.length (Unicode.digits_only s))) as [H6|H6].
  { rewrite C6 by lia. now apply six_codes_shape. }
  destruct (Nat.le_gt_cases 4 (List.length (Unicode.digits_only s))) as [H4|H4].
  { rewrite C4 by lia. now apply four_codes_shape. }
  rewrite C0 by lia. exact Hdef.
Qed.

(** [format_date] on any text, in a year of four digits.  It is total: on
    every sequence of code points, and on [None], it returns ten code
    points, hyphens at the fifth and the eighth place and decimal digits of
    Unicode at the others.  When the decimal digits of the input are ASCII
    digits the result is an ISO date YYYY-MM-DD.  With [ds] the decimal
    digits of the input in order: at least 8 give the first 4, the next 2
    and the next 2; at least 6, the first 4 and the next 2, with day 01; at
    least 4, the first 4 with 01-01; fewer, or [None], the current year
    with 01-01.  The four inputs of the specification give the dates it
    names.  On ASCII text the function is [Parser.format_date]. *)
Theorem format_date_on_code_points :
  forall (current_year : Z),
    (1000 <= current_year <= 9999)%Z ->
    (forall input,
        Spec.date_shape Unicode.is_decimal (Unicode.format_date current_year input)
        = true) /\
    (forall s,
        forallb Spec.ascii_digit (Unicode.digits_only s) = true ->
        Spec.iso_date_codes (Unicode.format_date current_year (Some s)) = true) /\
    (forall s,
        let ds := Unicode.digits_only s in
        (8 <= List.length ds ->
         Unicode.format_date current_year (Some s)
         = (Unicode.slice 0 4 ds ++ [45%N] ++ Unicode.slice 4 6 ds ++ [45%N]
            ++ Unicode.slice 6 8 ds)%list) /\
        (6 <= List.length ds < 8 ->
         Unicode.format_date current_year (Some s)
         = (Unicode.slice 0 4 ds ++ [45%N] ++ Unicode.slice 4 6 ds
            ++ [45; 48; 49]%N)%list) /\
        (4 <= List.length ds < 6 ->
         Unicode.format_date current_year (Some s)
         = (Unicode.slice 0 4 ds ++ [45; 48; 49; 45; 48; 49]%N)%list) /\
        (List.length ds < 4 ->
         Unicode.format_date current_year (Some s)
         = Unicode.of_string (Spec.default_date current_year))) /\
    Unicode.format_date current_year None
    = Unicode.of_string (Spec.default_date current_year) /\
    Spec.iso_date_codes (Unicode.of_string (Spec.default_date current_year)) = true /\
    Unicode.format_date current_year (Some (Unicode.of_string "20230615"))
    = Unicode.of_string "2023-06-15" /\
    Unicode.format_date current_year (Some (Unicode.of_string "202306"))
    = Unicode.of_string "2023-06-01" /\
    Unicode.format_date current_year (Some (Unicode.of_string "2023"))
    = Unicode.of_string "2023-01-01" /\
    Unicode.format_date current_year (Some (Unicode.of_string "garbage"))
    = Unicode.of_string (Spec.default_date current_year) /\
    (forall s,
        Unicode.format_date current_year (Some (Unicode.of_string s))
        = Unicode.of_string (Parser.format_date current_year (Some s))).
Proof.
  intros current_year Hyear.
  pose proof (default_date_codes current_year Hyear) as Hdef.
  split.
  { intros [s|].
    - apply format_date_shape; try reflexivity.
      + unfold Unicode.digits_only. apply forallb_forall. intros c Hc.
        now apply filter_In in Hc.
      + apply (date_shape_weaken Spec.ascii_digit); [apply ascii_digit_is_decimal|].
        exact Hdef.
    - apply (date_shape_weaken Spec.ascii_digit); [apply ascii_digit_is_decimal|].
      exact Hdef. }
  split.
  { intros s Hs. now apply format_date_shape. }
  split; [apply format_date_cases|].
  repeat split; try exact Hdef. intros s. apply format_date_of_string.
Qed.

(** The theorem in the year 2026, on a date written with blanks. *)
Lemma format_date_on_code_points_witness :
  (1000 <= 2026 <= 9999)%Z /\
  forallb Spec.ascii_digit (Unicode.digits_only (Unicode.of_string "2023 06 15")) = true /\
  Spec.iso_date_codes
    (Unicode.format_date 2026 (Some (Unicode.of_string "2023 06 15"))) = true /\
  Unicode.format_date 2026 (Some (Unicode.of_string "garbage"))
  = Unicode.of_string "2026-01-01".
Proof.
  split; [lia|]. split; [reflexivity|].
  destruct (format_date_on_code_points 2026 ltac:(lia))
    as (_ & Hiso & _ & _ & _ & _ & _ & _ & Hgarbage & _).
  split; [apply Hiso; reflexivity | exact Hgarbage].
Defined.

(** ** Categorizer *)

Lemma scan_patterns_true (tl ipc : string) (patterns : list string) :
  Parser.scan_patterns tl ipc patterns = true <->
  exists pattern, In pattern patterns /\ Parser.triggers tl ipc pattern = true.
Proof.
  induction patterns as [|p ps IH]; simpl.
  - split; [discriminate | intros (? & [] & _)].
  - destruct (Parser.triggers tl ipc p) eqn:E.
    + split; [intros _; exists p; auto | reflexivity].
    + rewrite IH. split.
      * intros (q & Hq & Hq'). exists q. auto.
      * intros (q & [<-|Hq] & Hq'); [congruence | exists q; auto].
Qed.

Lemma scan_categories_some (tl ipc : string) (table : list (string * list string)) :
  forall category,
    Parser.scan_categories tl ipc table = Some category ->
    exists before patterns after,
      table = (before ++ (category, patterns) :: after)%list /\
      Parser.scan_patterns tl ipc patterns = true /\
      Forall (fun entry => Parser.scan_patterns tl ipc (snd entry) = false) before.
Proof.
  induction table as [|[c ps] table IH]; intros category H; simpl in H.
  - discriminate.
  - destruct (Parser.scan_patterns tl ipc ps) eqn:E.
    + inversion H; subst. exists [], ps, table. repeat split; auto.
    + destruct (IH _ H) as (before & patterns & after & -> & Hp & Hb).
      exists ((c, ps) :: before), patterns, after. repeat split; auto.
Qed.

Lemma scan_categories_none (tl ipc : string) (table : list (string * list string)) :
  Parser.scan_categories tl ipc table = None ->
  Forall (fun entry => Parser.scan_patterns tl ipc (snd entry) = false) table.
Proof.
  induction table as [|[c ps] table IH]; intros H; simpl in H.
  - constructor.
  - destruct (Parser.scan_patterns tl ipc ps) eqn:E; [discriminate|].
    constructor; auto.
Qed.

Lemma contains_lower_neural_network (tl ipc : string) :
  Py.contains "neural network" tl = true ->
  Parser.scan_categories tl ipc Parser.specific_patterns
  = Some "artificial_intelligence".
Proof.
  intros H. unfold Parser.specific_patterns. cbn [Parser.scan_categories].
  assert (Parser.scan_patterns tl ipc
            ["G06N"; "AI"; "machine learning"; "neural network"] = true) as E.
  { apply scan_patterns_true. exists "neural network". split.
    - simpl. tauto.
    - unfold Parser.triggers.
      change (Py.lower "neural network") with "neural network".
      now rewrite H. }
  now rewrite E.
Qed.

(** C5.  [categorize_patent] is a function of the classification code and
    the title.  With the code replaced by G06F when it is empty, either the
    result is the first category of the table, in its fixed order, one of
    whose triggers occurs lower-cased in the lower-cased title or as it
    stands in the code, no trigger of an earlier category doing so; or no
    trigger of any category does, and the result is the broad category of
    the upper-cased first letter of the code, other when that letter has
    none.  A title that contains neural network is categorized
    artificial_intelligence with the code G06F1234, where the fallback for
    G is physics. *)
Theorem categorize_patent_first_match_wins :
  forall (ipc_class title : string),
    let code := if negb (Py.truthy ipc_class) then "G06F" else ipc_class in
    let hit (patterns : list string) :=
      exists pattern, In pattern patterns /\
        (Py.contains (Py.lower pattern) (Py.lower title) = true \/
         Py.contains pattern code = true) in
    ((exists before category patterns after,
         Parser.specific_patterns = (before ++ (category, patterns) :: after)%list /\
         hit patterns /\
         (forall entry, In entry before -> ~ hit (snd entry)) /\
         Parser.categorize_patent ipc_class title = category)
     \/
     ((forall entry, In entry Parser.specific_patterns -> ~ hit (snd entry)) /\
      Parser.categorize_patent ipc_class title
      = Parser.dict_get Parser.ipc_categories (Py.upper (Py.slice_to 1 code)) "other"))
    /\
    (Py.contains "neural network" (Py.lower title) = true ->
     Parser.categorize_patent "G06F1234" title = "artificial_intelligence")
    /\
    Parser.dict_get Parser.ipc_categories (Py.upper (Py.slice_to 1 "G06F1234")) "other"
    = "physics".
Proof.
  intros ipc_class title code hit.
  assert (forall patterns,
             Parser.scan_patterns (Py.lower title) code patterns = true <-> hit patterns)
    as Hhit.
  { intros patterns. rewrite scan_patterns_true. unfold hit, Parser.triggers.
    split; intros (p & Hp & H); exists p; (split; [assumption|]).
    - now apply orb_true_iff in H.
    - now apply orb_true_iff. }
  assert (forall l : list (string * list string),
             Forall (fun entry => Parser.scan_patterns (Py.lower title) code (snd entry)
                                  = false) l ->
             forall entry, In entry l -> ~ hit (snd entry)) as Hmiss.
  { intros l Hl entry Hin Habs. rewrite Forall_forall in Hl.
    apply Hhit in Habs. rewrite (Hl _ Hin) in Habs. discriminate. }
  split; [|split].
  - unfold Parser.categorize_patent. fold code.
    destruct (Parser.scan_categories (Py.lower title) code Parser.specific_patterns)
      as [category|] eqn:E.
    + left. destruct (scan_categories_some _ _ _ _ E) as (before & ps & after & Et & Hp & Hb).
      exists before, category, ps, after. repeat split.
      * exact Et.
      * now apply Hhit.
      * now apply Hmiss.
    + right. split; [|reflexivity].
      apply Hmiss. now apply scan_categories_none.
  - intros H. unfold Parser.categorize_patent.
    change (if negb (Py.truthy "G06F1234") then "G06F" else "G06F1234") with "G06F1234".
    now rewrite (contains_lower_neural_network _ _ H).
  - reflexivity.
Qed.

Example categorize_samples :
  Parser.categorize_patent "G06F1234" "Training a Neural Network on images"
  = "artificial_intelligence" /\
  Parser.categorize_patent "G06F1234" "Clamp for a workbench" = "physics" /\
  Parser.categorize_patent "H04L" "Clamp" = "telecommunications" /\
  Parser.categorize_patent "" "Clamp" = "physics" /\
  Parser.categorize_patent "X99" "Clamp" = "other" /\
  Parser.categorize_patent "B25B" "Folding chair" = "artificial_intelligence".
Proof. repeat split. Qed.

(** ** Identifier fallback *)

Lemma slice_to_length (n : nat) (s : string) : String.length (Py.slice_to n s) <= n.
Proof.
  revert s. induction n as [|n IH]; intros [|c s]; simpl; try lia.
  specialize (IH s). lia.
Qed.

(** C4, as the code has it.  When no identifier path yields a non-empty
    text, the fallback id is the first 15 characters of PATENT_ followed by
    the decimal form of the built-in hash of the element's printed form,
    which names the tag and the address of the object.  It starts with
    PATENT_, has at most 15 characters, and is the same for any two
    elements of the same tag at the same address under the same hash,
    whatever their content. *)
Theorem fallback_id_of_tag_address_and_hash :
  forall (hash : string -> Z) (e : Parser.element),
    Parser.first_id e Parser.id_paths = None ->
    Parser.extract_patent_id hash e
    = Py.slice_to 15
        ("PATENT_"
         ++ Parser.str_of_int
              (hash ("<Element '" ++ Parser.tag e ++ "' at 0x"
                     ++ HexadecimalString.NilZero.string_of_uint
                          (N.to_hex_uint (Parser.addr e)) ++ ">"))) /\
    String.length (Parser.extract_patent_id hash e) <= 15 /\
    Py.startswith "PATENT_" (Parser.extract_patent_id hash e) = true /\
    (forall e',
        Parser.first_id e' Parser.id_paths = None ->
        Parser.tag e' = Parser.tag e -> Parser.addr e' = Parser.addr e ->
        Parser.extract_patent_id hash e' = Parser.extract_patent_id hash e).
Proof.
  intros hash e H. unfold Parser.extract_patent_id. rewrite H.
  split; [reflexivity|]. split; [apply slice_to_length|]. split.
  - unfold Parser.fallback_id. reflexivity.
  - intros e' H' Htag Haddr. rewrite H'.
    unfold Parser.fallback_id, Parser.str_of_element. now rewrite Htag, Haddr.
Qed.

(** The theorem at the sample without identifier, at the address 0x1000. *)
Lemma fallback_id_of_tag_address_and_hash_witness :
  Parser.first_id (Sample.anonymous_application 4096) Parser.id_paths = None /\
  Parser.extract_patent_id (Sample.salted_hash 0) (Sample.anonymous_application 4096)
  = Py.slice_to 15
      ("PATENT_"
       ++ Parser.str_of_int
            (Sample.salted_hash 0 "<Element 'us-patent-application' at 0x1000>")) /\
  String.length
    (Parser.extract_patent_id (Sample.salted_hash 0) (Sample.anonymous_application 4096))
  <= 15.
Proof.
  split; [reflexivity|].
  destruct (fallback_id_of_tag_address_and_hash (Sample.salted_hash 0)
              (Sample.anonymous_application 4096) eq_refl) as (E & L & _).
  split; [exact E | exact L].
Defined.

(** C4, as stated, fails: one document parsed twice gives two trees of the
    same content at two addresses, no identifier path yields a text in
    either, and under one and the same hash the two fallback ids differ;
    under another salt the id of the first tree differs again. *)
Lemma fallback_id_differs_for_identical_content :
  Spec.same_content (Sample.anonymous_application 140245128543824)
                    (Sample.anonymous_application 140245128547920) /\
  Parser.first_id (Sample.anonymous_application 140245128543824) Parser.id_paths = None /\
  Parser.first_id (Sample.anonymous_application 140245128547920) Parser.id_paths = None /\
  Parser.extract_patent_id (Sample.salted_hash 0)
    (Sample.anonymous_application 140245128543824) = "PATENT_75203395" /\
  Parser.extract_patent_id (Sample.salted_hash 0)
    (Sample.anonymous_application 140245128547920) = "PATENT_30774136" /\
  Parser.extract_patent_id (Sample.salted_hash 0)
    (Sample.anonymous_application 140245128543824)
  <> Parser.extract_patent_id (Sample.salted_hash 0)
       (Sample.anonymous_application 140245128547920) /\
  Parser.extract_patent_id (Sample.salted_hash 7)
    (Sample.anonymous_application 140245128543824) = "PATENT_68461054".
Proof.
  repeat split; try (vm_compute; reflexivity).
  vm_compute. discriminate.
Qed.

(** The fallback id does not read the content at all: under any hash, two
    trees whose printed forms the hash tells apart in its first eight
    characters get two ids. *)
Lemma fallback_id_follows_hash :
  forall (hash : string -> Z) (e1 e2 : Parser.element),
    Py.slice_to 8 (Parser.str_of_int (hash (Parser.str_of_element e1)))
    <> Py.slice_to 8 (Parser.str_of_int (hash (Parser.str_of_element e2))) ->
    Parser.fallback_id hash e1 <> Parser.fallback_id hash e2.
Proof.
  intros hash e1 e2 H E. apply H. unfold Parser.fallback_id in E.
  simpl in E. now inversion E.
Qed.

(** ** Validation, and what reaches the store *)

Lemma row_of_dict_of_patent (i : nat) (p : patent) :
  Engine.r_patent (Engine.row_of_dict i (Engine.dict_of_patent p)) = p /\
  Engine.row_of_dict i (Engine.dict_of_patent p)
  = Engine.row_of_dict 0 (Engine.dict_of_patent p).
Proof. destruct p; split; reflexivity. Qed.

Lemma index_loop_rows (items : list Engine.patent_dict) :
  forall i d r,
    In r (Engine.patents (Engine.index_loop i items d)) ->
    In r (Engine.patents d) \/
    exists j x, In x items /\ r = Engine.row_of_dict j x.
Proof.
  induction items as [|x items IH]; intros i d r H; simpl in H.
  - now left.
  - unfold Engine.insert_into_patents in H.
    destruct (existsb _ (Engine.patents d)).
    + destruct (IH _ _ _ H) as [Hd|(j & y & Hy & E)]; [now left|].
      right. exists j, y. split; [now right | exact E].
    + destruct (IH _ _ _ H) as [Hd|(j & y & Hy & E)].
      * simpl in Hd. apply in_app_or in Hd as [Hd|[<-|[]]]; [now left|].
        right. exists i, x. split; [now left | reflexivity].
      * right. exists j, y. split; [now right | exact E].
Qed.

Lemma index_patents_rows (d : Engine.db) (batch : list patent) (r : Engine.row) :
  In r (Engine.patents (Engine.index_patents d (map Engine.dict_of_patent batch))) ->
  In (Engine.r_patent r) batch.
Proof.
  intros H. unfold Engine.index_patents in H.
  apply index_loop_rows in H as [[]|(j & x & Hx & ->)].
  apply in_map_iff in Hx as (p & <- & Hp).
  now rewrite (proj1 (row_of_dict_of_patent j p)).
Qed.

Lemma index_loop_distinct (batch : list patent) :
  forall i d,
    NoDup (map id batch) ->
    (forall p r, In p batch -> In r (Engine.patents d) ->
                 id (Engine.r_patent r) <> id p) ->
    Engine.patents (Engine.index_loop i (map Engine.dict_of_patent batch) d)
    = (Engine.patents d
       ++ map (fun p => Engine.row_of_dict 0 (Engine.dict_of_patent p)) batch)%list.
Proof.
  induction batch as [|p batch IH]; intros i d Hnd Hfresh; simpl.
  - now rewrite app_nil_r.
  - inversion Hnd as [|? ? Hp Hnd']; subst.
    unfold Engine.insert_into_patents.
    destruct (existsb _ (Engine.patents d)) eqn:E.
    + exfalso. apply existsb_exists in E as (r & Hr & Er).
      apply String.eqb_eq in Er.
      rewrite (proj1 (row_of_dict_of_patent i p)) in Er.
      apply (Hfresh p r); [now left | assumption | assumption].
    + rewrite IH; [| assumption |].
      * simpl. rewrite <- app_assoc. simpl.
        now rewrite (proj2 (row_of_dict_of_patent i p)).
      * intros q r Hq Hr. simpl in Hr.
        apply in_app_or in Hr as [Hr|[<-|[]]].
        -- apply Hfresh; [now right | assumption].
        -- rewrite (proj1 (row_of_dict_of_patent i p)). intros Eid.
           apply Hp. rewrite Eid. now apply in_map.
Qed.

(** A batch of records with pairwise distinct ids is stored whole, in
    order, whatever the table held before. *)
Lemma index_patents_distinct (d : Engine.db) (batch : list patent) :
  NoDup (map id batch) ->
  Engine.patents (Engine.index_patents d (map Engine.dict_of_patent batch))
  = map (fun p => Engine.row_of_dict 0 (Engine.dict_of_patent p)) batch.
Proof.
  intros H. unfold Engine.index_patents.
  rewrite index_loop_distinct; [reflexivity | assumption |].
  intros p r _ [].
Qed.

Lemma truthy_of_length (s : string) (n : nat) :
  S n <= String.length s -> Py.truthy s = true.
Proof. destruct s; simpl; [lia | reflexivity]. Qed.

Lemma extract_some (hash : string -> Z) (year : Z) (e : Parser.element) (p : patent) :
  Parser.extract_patent_data_robust hash year e = Some p <->
  p = Parser.candidate hash year e /\
  5 <= String.length (title p) /\ 10 <= String.length (abstract p).
Proof.
  unfold Parser.extract_patent_data_robust. cbv zeta.
  destruct (Nat.ltb_spec (String.length (title (Parser.candidate hash year e))) 5);
    destruct (Nat.ltb_spec (String.length (abstract (Parser.candidate hash year e))) 10);
    cbn [orb]; split;
    try discriminate;
    try (intros (-> & ? & ?); lia).
  - intros E. inversion E. subst. auto.
  - intros (-> & _). reflexivity.
Qed.

Lemma extract_from_root_in (hash : string -> Z) (year : Z)
    (root : Parser.element) (p : patent) :
  In p (Parser.extract_from_root hash year root) <->
  exists e, In e (Parser.patent_applications root) /\
            Parser.extract_patent_data_robust hash year e = Some p.
Proof.
  unfold Parser.extract_from_root. rewrite in_flat_map. split.
  - intros (e & He & H). exists e. split; [assumption|].
    destruct (Parser.extract_patent_data_robust hash year e) as [q|]; [|destruct H].
    destruct (Py.truthy (title q) && Py.truthy (abstract q)); [|destruct H].
    destruct H as [<-|[]]. reflexivity.
  - intros (e & He & H). exists e. split; [assumption|]. rewrite H.
    apply extract_some in H as (_ & Ht & Ha).
    rewrite (truthy_of_length (title p) 4 Ht), (truthy_of_length (abstract p) 9 Ha).
    now left.
Qed.

(** C7.  The title of a candidate is the cleaned text of the first title
    element found, or Untitled; its abstract likewise, or No abstract
    available.  Extraction returns no record exactly when that title is
    shorter than 5 or that abstract shorter than 10, and returns the
    candidate otherwise; it raises nothing.  The records extracted from a
    root are the candidates returned, so a rejected candidate is not among
    them; every row stored by a rebuild from them, and every full-text
    entry the rebuild adds, is one of them and meets both thresholds. *)
Theorem extraction_rejects_short_title_or_abstract :
  forall (hash : string -> Z) (current_year : Z),
    (forall e,
        let c := Parser.candidate hash current_year e in
        title c
        = Parser.text_or (Parser.find_element_flexible e Parser.title_paths) "Untitled" /\
        abstract c
        = Parser.text_or (Parser.find_element_flexible e Parser.abstract_paths)
            "No abstract available" /\
        (Parser.extract_patent_data_robust hash current_year e = None
         <-> String.length (title c) < 5 \/ String.length (abstract c) < 10) /\
        (5 <= String.length (title c) -> 10 <= String.length (abstract c) ->
         Parser.extract_patent_data_robust hash current_year e = Some c)) /\
    (forall root p,
        In p (Parser.extract_from_root hash current_year root) <->
        exists e, In e (Parser.patent_applications root) /\
                  Parser.extract_patent_data_robust hash current_year e = Some p) /\
    (forall root e,
        In e (Parser.patent_applications root) ->
        Parser.extract_patent_data_robust hash current_year e = None ->
        ~ In (Parser.candidate hash current_year e)
             (Parser.extract_from_root hash current_year root)) /\
    (forall d root r,
        let stored :=
          Engine.index_patents d
            (map Engine.dict_of_patent (Parser.extract_from_root hash current_year root)) in
        (In r (Engine.patents stored) ->
         In (Engine.r_patent r) (Parser.extract_from_root hash current_year root) /\
         5 <= String.length (title (Engine.r_patent r)) /\
         10 <= String.length (abstract (Engine.r_patent r))) /\
        Engine.patents_fts stored
        = (Engine.patents_fts d ++ map Engine.fts_of_row (Engine.patents stored))%list).
Proof.
  intros hash year.
  assert (forall e,
             Parser.extract_patent_data_robust hash year e = None
             <-> String.length (title (Parser.candidate hash year e)) < 5 \/
                 String.length (abstract (Parser.candidate hash year e)) < 10) as Hnone.
  { intros e. unfold Parser.extract_patent_data_robust. cbv zeta.
    destruct (Nat.ltb_spec (String.length (title (Parser.candidate hash year e))) 5);
      destruct (Nat.ltb_spec (String.length (abstract (Parser.candidate hash year e))) 10);
      cbn [orb]; split; try discriminate; intros; try reflexivity; lia. }
  split; [|split; [|split]].
  - intros e c. split; [reflexivity|]. split; [reflexivity|].
    split; [apply Hnone|].
    intros Ht Ha. apply extract_some. auto.
  - intros root p. apply extract_from_root_in.
  - intros root e He Hrej Hin.
    apply extract_from_root_in in Hin as (e' & _ & H').
    apply extract_some in H' as (_ & Ht & Ha).
    apply Hnone in Hrej. lia.
  - intros d root r stored. split; [|apply index_patents_state].
    intros Hr. apply index_patents_rows in Hr. split; [assumption|].
    apply extract_from_root_in in Hr as (e & _ & H).
    now apply extract_some in H.
Qed.

(** C10.  When no title path and no abstract path finds an element, the
    candidate carries the texts Untitled, of length 8, and No abstract
    available, of length 21; both pass the thresholds, so extraction
    returns it, it is among the records extracted from any root that lists
    the element, and a rebuild from a batch of distinct ids that holds it
    stores its row. *)
Theorem missing_title_and_abstract_accepted :
  forall (hash : string -> Z) (current_year : Z) (e : Parser.element),
    Parser.find_element_flexible e Parser.title_paths = None ->
    Parser.find_element_flexible e Parser.abstract_paths = None ->
    exists p,
      Parser.extract_patent_data_robust hash current_year e = Some p /\
      title p = "Untitled" /\ String.length (title p) = 8 /\
      abstract p = "No abstract available" /\ String.length (abstract p) = 21 /\
      (forall root,
          In e (Parser.patent_applications root) ->
          In p (Parser.extract_from_root hash current_year root)) /\
      (forall d batch,
          In p batch -> NoDup (map id batch) ->
          In (Engine.row_of_dict 0 (Engine.dict_of_patent p))
             (Engine.patents (Engine.index_patents d (map Engine.dict_of_patent batch)))).
Proof.
  intros hash year e Ht Ha.
  assert (title (Parser.candidate hash year e) = "Untitled") as Et
    by (cbn [Parser.candidate title]; now rewrite Ht).
  assert (abstract (Parser.candidate hash year e) = "No abstract available") as Ea
    by (cbn [Parser.candidate abstract]; now rewrite Ha).
  assert (Parser.extract_patent_data_robust hash year e
          = Some (Parser.candidate hash year e)) as E.
  { apply extract_some. rewrite Et, Ea. simpl. repeat split; lia. }
  exists (Parser.candidate hash year e).
  split; [exact E|]. rewrite Et, Ea.
  split; [reflexivity|]. split; [reflexivity|].
  split; [reflexivity|]. split; [reflexivity|]. split.
  - intros root He. apply extract_from_root_in. now exists e.
  - intros d batch Hin Hnd. rewrite (index_patents_distinct d batch Hnd).
    now apply (in_map (fun q => Engine.row_of_dict 0 (Engine.dict_of_patent q))).
Qed.

(** The theorem at the sample with neither title nor abstract. *)
Lemma missing_title_and_abstract_accepted_witness :
  Parser.find_element_flexible Sample.untitled_application Parser.title_paths = None /\
  Parser.find_element_flexible Sample.untitled_application Parser.abstract_paths = None /\
  exists p,
    Parser.extract_patent_data_robust (Sample.salted_hash 0) 2026
      Sample.untitled_application = Some p /\
    title p = "Untitled" /\ String.length (title p) = 8 /\
    abstract p = "No abstract available" /\ String.length (abstract p) = 21 /\
    (forall root,
        In Sample.untitled_application (Parser.patent_applications root) ->
        In p (Parser.extract_from_root (Sample.salted_hash 0) 2026 root)) /\
    (forall d batch,
        In p batch -> NoDup (map id batch) ->
        In (Engine.row_of_dict 0 (Engine.dict_of_patent p))
           (Engine.patents (Engine.index_patents d (map Engine.dict_of_patent batch)))).
Proof.
  split; [reflexivity|]. split; [reflexivity|].
  apply (missing_title_and_abstract_accepted (Sample.salted_hash 0) 2026
           Sample.untitled_application); reflexivity.
Defined.

(** The sample with neither title nor abstract, end to end: extracted from
    its own root with the two sentinel texts, and stored. *)
Example untitled_sample_stored :
  exists p,
    Parser.extract_from_root (Sample.salted_hash 0) 2026 Sample.untitled_application = [p] /\
    id p = "20250012345" /\ title p = "Untitled" /\
    abstract p = "No abstract available" /\
    Engine.patents (Engine.index_patents Sample.one_patent_db [Engine.dict_of_patent p])
    = [Engine.row_of_dict 0 (Engine.dict_of_patent p)].
Proof.
  eexists. split; [vm_compute; reflexivity|]. repeat split.
Qed.

(** A title of two characters is rejected whatever the other fields hold;
    a title of nine characters with an abstract of ten or more is
    accepted. *)
Example validator_samples :
  Parser.extract_patent_data_robust (Sample.salted_hash 0) 2026
    (Parser.Element "us-patent-application" None None
       [ Parser.Element "invention-title" (Some "AI") None [] 8;
         Parser.Element "abstract" (Some "A long enough abstract.") None [] 16 ] 0)
  = None /\
  exists p,
    Parser.extract_patent_data_robust (Sample.salted_hash 0) 2026
      (Parser.Element "us-patent-application" None None
         [ Parser.Element "invention-title" (Some "AI System") None [] 8;
           Parser.Element "abstract" (Some "Ten chars.") None [] 16 ] 0)
    = Some p /\ title p = "AI System" /\ abstract p = "Ten chars.".
Proof.
  split; [vm_compute; reflexivity|].
  eexists. split; [vm_compute; reflexivity|]. split; reflexivity.
Qed.

(** ** Document splitter *)

(** *** The matcher, one item at a time *)

#[local] Arguments Ascii.eqb : simpl never.

Lemma match_here_lit (l : string) (k : list Splitter.item) (s : string) :
  Splitter.match_here (Splitter.Lit l :: k) s
  = Spec.and_then (Splitter.strip_prefix l s) (Splitter.match_here k).
Proof. reflexivity. Qed.

Lemma match_here_star (g : bool) (cls : ascii -> bool) (k : list Splitter.item)
    (s : string) :
  Splitter.match_here (Splitter.Star g cls :: k) s
  = let stop := Splitter.match_here k s in
    let more := match s with
                | "" => None
                | String c s' =>
                    if cls c then Splitter.match_here (Splitter.Star g cls :: k) s'
                    else None
                end in
    if g
    then match more with Some r => Some r | None => stop end
    else match stop with Some r => Some r | None => more end.
Proof. destruct s; reflexivity. Qed.

(** A greedy star before a literal whose first character is outside the
    class takes the whole run. *)
Lemma greedy_star_then_outside (cls : ascii -> bool) (c0 : ascii) (l : string)
    (k : list Splitter.item) :
  cls c0 = false ->
  forall s,
    Splitter.match_here (Splitter.Star true cls :: Splitter.Lit (String c0 l) :: k) s
    = Splitter.match_here (Splitter.Lit (String c0 l) :: k) (Spec.drop_while cls s).
Proof.
  intros Hc0. induction s as [|c s IH]; [reflexivity|].
  rewrite match_here_star. cbv zeta. simpl Spec.drop_while.
  destruct (cls c) eqn:Ec; [|reflexivity].
  rewrite IH.
  destruct (Splitter.match_here (Splitter.Lit (String c0 l) :: k) (Spec.drop_while cls s));
    [reflexivity|].
  rewrite match_here_lit. simpl.
  destruct (Ascii.eqb c0 c) eqn:E; [|reflexivity].
  apply Ascii.eqb_eq in E. congruence.
Qed.

Lemma after_qgt_head (s : string) (b : bool) :
  Spec.after_qgt s b
  = match s with
    | "" => None
    | String c s' =>
        if Ascii.eqb c ">" then (if b then Some s' else None)
        else Spec.after_qgt s false
    end.
Proof.
  destruct s as [|c s]; [reflexivity|]. simpl.
  destruct (Ascii.eqb c ">"); reflexivity.
Qed.

(** The greedy run of the declaration stops at the first [>], and the
    literal [?>] fits only there. *)
Lemma greedy_star_then_question_gt (k : list Splitter.item) :
  forall s,
    Splitter.match_here
      (Splitter.Star true Splitter.not_gt :: Splitter.Lit "?>" :: k) s
    = Spec.and_then (Spec.after_qgt s false) (Splitter.match_here k).
Proof.
  induction s as [|c s IH]; [reflexivity|].
  rewrite match_here_star. cbv zeta. rewrite IH.
  unfold Splitter.not_gt. simpl Spec.after_qgt.
  destruct (Ascii.eqb c ">") eqn:Egt; simpl negb; cbv iota.
  - apply Ascii.eqb_eq in Egt. subst c. reflexivity.
  - rewrite (after_qgt_head s (Ascii.eqb c "?")).
    rewrite match_here_lit.
    destruct s as [|c' s']; simpl.
    + now destruct (Ascii.eqb "?" c).
    + destruct (Ascii.eqb c' ">") eqn:E'.
      * apply Ascii.eqb_eq in E'. subst c'.
        rewrite (Ascii.eqb_sym c "?").
        destruct (Ascii.eqb "?" c); reflexivity.
      * destruct (Spec.and_then (Spec.after_qgt s' (Ascii.eqb c' "?"))
                    (Splitter.match_here k)); [reflexivity|].
        destruct (Ascii.eqb "?" c); [|reflexivity].
        rewrite (Ascii.eqb_sym ">" c'), E'. reflexivity.
Qed.

(** A lazy star over every character before a last literal stops at the
    first occurrence of the literal. *)
Lemma lazy_star_then_literal (l : string) :
  forall s,
    Splitter.match_here
      [Splitter.Star false Splitter.any_char; Splitter.Lit l] s
    = Spec.after_first l s.
Proof.
  induction s as [|c s IH].
  - simpl. destruct (Splitter.strip_prefix l ""); reflexivity.
  - rewrite match_here_star. cbv zeta. rewrite IH. rewrite match_here_lit.
    unfold Splitter.any_char. simpl Spec.after_first.
    destruct (Splitter.strip_prefix l (String c s)); reflexivity.
Qed.

(** The boundary pattern never backtracks into a second way of matching. *)
Lemma match_here_pattern (s : string) :
  Splitter.match_here Splitter.pattern s = Spec.boundary s.
Proof.
  unfold Splitter.pattern, Spec.boundary.
  rewrite match_here_lit.
  destruct (Splitter.strip_prefix Splitter.xml_decl s) as [s1|]; [|reflexivity].
  cbn [Spec.and_then]. rewrite greedy_star_then_question_gt.
  destruct (Spec.after_qgt s1 false) as [s2|]; [|reflexivity].
  cbn [Spec.and_then]. rewrite greedy_star_then_outside by reflexivity.
  rewrite match_here_lit.
  destruct (Splitter.strip_prefix "<!DOCTYPE" (Spec.drop_while Py.is_space s2))
    as [s3|]; [|reflexivity].
  cbn [Spec.and_then]. rewrite greedy_star_then_outside by reflexivity.
  rewrite match_here_lit.
  destruct (Splitter.strip_prefix ">" (Spec.drop_while Splitter.not_gt s3))
    as [s4|]; [|reflexivity].
  cbn [Spec.and_then]. rewrite greedy_star_then_outside by reflexivity.
  rewrite match_here_lit.
  destruct (Splitter.strip_prefix "<us-patent-application"
              (Spec.drop_while Py.is_space s4)) as [s5|]; [|reflexivity].
  cbn [Spec.and_then]. rewrite greedy_star_then_outside by reflexivity.
  rewrite match_here_lit.
  destruct (Splitter.strip_prefix ">" (Spec.drop_while Splitter.not_gt s5))
    as [s6|]; [|reflexivity].
  cbn [Spec.and_then]. apply lazy_star_then_literal.
Qed.

(** *** What follows a match does not change it *)

Lemma strip_prefix_app (l : string) :
  forall s t r,
    Splitter.strip_prefix l s = Some t ->
    Splitter.strip_prefix l (s ++ r) = Some (t ++ r).
Proof.
  induction l as [|a l IH]; intros s t r H; simpl in *.
  - now inversion H.
  - destruct s as [|b s]; [discriminate|]. simpl.
    destruct (Ascii.eqb a b); [now apply IH | discriminate].
Qed.

Lemma strip_prefix_split (l : string) :
  forall s t, Splitter.strip_prefix l s = Some t -> s = l ++ t.
Proof.
  induction l as [|a l IH]; intros s t H; simpl in *.
  - now inversion H.
  - destruct s as [|b s]; [discriminate|].
    destruct (Ascii.eqb a b) eqn:E; [|discriminate].
    apply Ascii.eqb_eq in E. subst b. now rewrite (IH _ _ H).
Qed.

Lemma strip_prefix_none_app (l : string) :
  forall s r,
    Splitter.strip_prefix l s = None ->
    String.length l <= String.length s ->
    Splitter.strip_prefix l (s ++ r) = None.
Proof.
  induction l as [|a l IH]; intros s r H Hlen; simpl in *.
  - discriminate.
  - destruct s as [|b s]; simpl in *; [lia|].
    destruct (Ascii.eqb a b); [apply IH; [assumption | lia] | reflexivity].
Qed.

Lemma after_qgt_app (s : string) :
  forall b t r,
    Spec.after_qgt s b = Some t -> Spec.after_qgt (s ++ r) b = Some (t ++ r).
Proof.
  induction s as [|c s IH]; intros b t r H; simpl in *; [discriminate|].
  destruct (Ascii.eqb c ">").
  - destruct b; [now inversion H | discriminate].
  - now apply IH.
Qed.

Lemma after_qgt_split (s : string) :
  forall b t, Spec.after_qgt s b = Some t -> exists u, s = u ++ t.
Proof.
  induction s as [|c s IH]; intros b t H; simpl in *; [discriminate|].
  destruct (Ascii.eqb c ">").
  - destruct b; [|discriminate]. inversion H; subst. now exists (String c "").
  - destruct (IH _ _ H) as (u & ->). now exists (String c u).
Qed.

Lemma drop_while_app (cls : ascii -> bool) (s r : string) :
  Spec.drop_while cls s <> "" ->
  Spec.drop_while cls (s ++ r) = Spec.drop_while cls s ++ r.
Proof.
  induction s as [|c s IH]; intros H; simpl in *; [congruence|].
  destruct (cls c); [now apply IH | reflexivity].
Qed.

Lemma drop_while_split (cls : ascii -> bool) (s : string) :
  exists u, s = u ++ Spec.drop_while cls s.
Proof.
  induction s as [|c s (u & IH)]; simpl.
  - now exists "".
  - destruct (cls c); [|now exists ""].
    exists (String c u). simpl. now rewrite <- IH.
Qed.

Lemma drop_strip_app (cls : ascii -> bool) (a : ascii) (l s t r : string) :
  Splitter.strip_prefix (String a l) (Spec.drop_while cls s) = Some t ->
  Splitter.strip_prefix (String a l) (Spec.drop_while cls (s ++ r)) = Some (t ++ r).
Proof.
  intros H. rewrite drop_while_app.
  - now apply strip_prefix_app.
  - intros E. rewrite E in H. discriminate.
Qed.

Lemma after_first_split (l : string) (s : string) :
  forall t, Spec.after_first l s = Some t -> exists u, s = u ++ l ++ t.
Proof.
  induction s as [|c s IH]; intros t H; simpl in H.
  - destruct (Splitter.strip_prefix l "") eqn:E; [|discriminate].
    inversion H; subst. exists "". exact (strip_prefix_split l _ _ E).
  - destruct (Splitter.strip_prefix l (String c s)) eqn:E.
    + inversion H; subst. exists "". exact (strip_prefix_split l _ _ E).
    + destruct (IH _ H) as (u & ->). now exists (String c u).
Qed.

Lemma after_first_app (l : string) (s : string) :
  forall t r,
    Spec.after_first l s = Some t -> Spec.after_first l (s ++ r) = Some (t ++ r).
Proof.
  induction s as [|c s IH]; intros t r H; simpl in H.
  - destruct (Splitter.strip_prefix l "") eqn:E; [|discriminate].
    inversion H; subst.
    pose proof (strip_prefix_app l "" t r E) as E'. simpl in E'.
    destruct r; simpl; now rewrite E'.
  - destruct (Splitter.strip_prefix l (String c s)) eqn:E.
    + inversion H; subst.
      pose proof (strip_prefix_app l _ t r E) as E'.
      change (String c s ++ r) with (String c (s ++ r)) in *.
      simpl. now rewrite E'.
    + destruct (after_first_split l s t H) as (u & Hu).
      assert (String.length l <= String.length (String c s)) as Hlen.
      { rewrite Hu. simpl. rewrite !length_append. lia. }
      pose proof (strip_prefix_none_app l _ r E Hlen) as E'.
      change (String c s ++ r) with (String c (s ++ r)) in *.
      simpl. rewrite E'. now apply IH.
Qed.

Lemma boundary_app (s t r : string) :
  Spec.boundary s = Some t -> Spec.boundary (s ++ r) = Some (t ++ r).
Proof.
  unfold Spec.boundary. intros H.
  destruct (Splitter.strip_prefix Splitter.xml_decl s) as [s1|] eqn:E1; [|discriminate].
  rewrite (strip_prefix_app _ _ _ r E1). cbn [Spec.and_then] in *.
  destruct (Spec.after_qgt s1 false) as [s2|] eqn:E2; [|discriminate].
  rewrite (after_qgt_app _ _ _ r E2). cbn [Spec.and_then] in *.
  destruct (Splitter.strip_prefix "<!DOCTYPE" (Spec.drop_while Py.is_space s2))
    as [s3|] eqn:E3; [|discriminate].
  rewrite (drop_strip_app _ _ _ _ _ r E3). cbn [Spec.and_then] in *.
  destruct (Splitter.strip_prefix ">" (Spec.drop_while Splitter.not_gt s3))
    as [s4|] eqn:E4; [|discriminate].
  rewrite (drop_strip_app _ _ _ _ _ r E4). cbn [Spec.and_then] in *.
  destruct (Splitter.strip_prefix "<us-patent-application"
              (Spec.drop_while Py.is_space s4)) as [s5|] eqn:E5; [|discriminate].
  rewrite (drop_strip_app _ _ _ _ _ r E5). cbn [Spec.and_then] in *.
  destruct (Splitter.strip_prefix ">" (Spec.drop_while Splitter.not_gt s5))
    as [s6|] eqn:E6; [|discriminate].
  rewrite (drop_strip_app _ _ _ _ _ r E6). cbn [Spec.and_then] in *.
  now apply after_first_app.
Qed.

(** A bounded document is matched whole whatever follows it. *)
Lemma bounded_document_followed (d r : string) :
  Spec.bounded_document d ->
  Splitter.match_here Splitter.pattern (d ++ r) = Some r.
Proof.
  unfold Spec.bounded_document. rewrite !match_here_pattern. intros H.
  now rewrite (boundary_app d "" r H).
Qed.

(** A bounded document starts with the declaration and ends with the
    closing tag of the root. *)
Lemma bounded_document_ends (d : string) :
  Spec.bounded_document d ->
  exists u v, d = Splitter.xml_decl ++ u /\ d = v ++ "</us-patent-application>".
Proof.
  unfold Spec.bounded_document. rewrite match_here_pattern. unfold Spec.boundary.
  intros H.
  destruct (Splitter.strip_prefix Splitter.xml_decl d) as [s1|] eqn:E1; [|discriminate].
  cbn [Spec.and_then] in H.
  destruct (Spec.after_qgt s1 false) as [s2|] eqn:E2; [|discriminate].
  cbn [Spec.and_then] in H.
  destruct (Splitter.strip_prefix "<!DOCTYPE" (Spec.drop_while Py.is_space s2))
    as [s3|] eqn:E3; [|discriminate].
  cbn [Spec.and_then] in H.
  destruct (Splitter.strip_prefix ">" (Spec.drop_while Splitter.not_gt s3))
    as [s4|] eqn:E4; [|discriminate].
  cbn [Spec.and_then] in H.
  destruct (Splitter.strip_prefix "<us-patent-application"
              (Spec.drop_while Py.is_space s4)) as [s5|] eqn:E5; [|discriminate].
  cbn [Spec.and_then] in H.
  destruct (Splitter.strip_prefix ">" (Spec.drop_while Splitter.not_gt s5))
    as [s6|] eqn:E6; [|discriminate].
  cbn [Spec.and_then] in H.
  apply strip_prefix_split in E1, E3, E4, E5, E6.
  apply after_qgt_split in E2 as (u2 & E2).
  destruct (drop_while_split Py.is_space s2) as (w2 & W2). rewrite E3 in W2.
  destruct (drop_while_split Splitter.not_gt s3) as (w3 & W3). rewrite E4 in W3.
  destruct (drop_while_split Py.is_space s4) as (w4 & W4). rewrite E5 in W4.
  destruct (drop_while_split Splitter.not_gt s5) as (w5 & W5). rewrite E6 in W5.
  apply after_first_split in H as (u6 & E7).
  clear E3 E4 E5 E6.
  exists s1.
  exists (Splitter.xml_decl ++ u2 ++ w2 ++ "<!DOCTYPE" ++ w3 ++ ">" ++ w4
          ++ "<us-patent-application" ++ w5 ++ ">" ++ u6).
  split; [exact E1|].
  rewrite E1, E2, W2, W3, W4, W5, E7.
  rewrite append_empty_r. now rewrite !append_assoc.
Qed.

(** *** The scan over a concatenation *)

Lemma finditer_cons (items : list Splitter.item) (c : ascii) (s : string) :
  Splitter.finditer items (String c s) 0
  = match Splitter.match_here items (String c s) with
    | Some rest =>
        let n := String.length (String c s) - String.length rest in
        Py.slice_to n (String c s) :: Splitter.finditer items s (n - 1)
    | None => Splitter.finditer items s 0
    end.
Proof. reflexivity. Qed.

Lemma finditer_skip (items : list Splitter.item) (u r : string) :
  Splitter.finditer items (u ++ r) (String.length u) = Splitter.finditer items r 0.
Proof. induction u as [|c u IH]; [reflexivity | exact IH]. Qed.

Lemma slice_to_app (d r : string) : Py.slice_to (String.length d) (d ++ r) = d.
Proof.
  induction d as [|c d IH]; simpl.
  - now destruct r.
  - now rewrite IH.
Qed.

Lemma finditer_match (items : list Splitter.item) (c : ascii) (d r : string) :
  Splitter.match_here items (String c d ++ r) = Some r ->
  Splitter.finditer items (String c d ++ r) 0
  = String c d :: Splitter.finditer items r 0.
Proof.
  intros H. change (String c d ++ r) with (String c (d ++ r)) in *.
  rewrite finditer_cons, H. cbv zeta.
  replace (String.length (String c (d ++ r)) - String.length r)
    with (S (String.length d)) by (cbn [String.length]; rewrite length_append; lia).
  replace (S (String.length d) - 1) with (String.length d) by lia.
  rewrite finditer_skip.
  change (Py.slice_to (S (String.length d)) (String c (d ++ r)))
    with (String c (Py.slice_to (String.length d) (d ++ r))).
  now rewrite slice_to_app.
Qed.

Lemma match_here_pattern_space (c : ascii) (s : string) :
  Py.is_space c = true -> Splitter.match_here Splitter.pattern (String c s) = None.
Proof.
  intros H. unfold Splitter.pattern. rewrite match_here_lit.
  change Splitter.xml_decl
    with (String "<" (Py.slice_from 1 Splitter.xml_decl)).
  cbn [Splitter.strip_prefix].
  destruct (Ascii.eqb "<" c) eqn:E; [|reflexivity].
  apply Ascii.eqb_eq in E. subst c. discriminate.
Qed.

Lemma finditer_spaces (w s : string) :
  Spec.all_space w = true ->
  Splitter.finditer Splitter.pattern (w ++ s) 0 = Splitter.finditer Splitter.pattern s 0.
Proof.
  induction w as [|c w IH]; intros H; [reflexivity|].
  simpl in H. apply andb_true_iff in H as [Hc Hw].
  change (String c w ++ s) with (String c (w ++ s)).
  rewrite finditer_cons, (match_here_pattern_space c _ Hc). now apply IH.
Qed.

Lemma finditer_trailer (w : string) :
  Spec.all_space w = true -> Splitter.finditer Splitter.pattern w 0 = [].
Proof.
  intros H. rewrite <- (append_empty_r w). now rewrite finditer_spaces.
Qed.

Lemma bounded_document_head (d : string) :
  Spec.bounded_document d -> exists d', d = String "<" d'.
Proof.
  intros H. destruct (bounded_document_ends d H) as (u & _ & -> & _).
  now exists (Py.slice_from 1 Splitter.xml_decl ++ u).
Qed.

Lemma finditer_concatenation (items : list (string * string)) (trailer : string) :
  Forall (fun it => Spec.all_space (fst it) = true /\ Spec.bounded_document (snd it))
    items ->
  Spec.all_space trailer = true ->
  Splitter.finditer Splitter.pattern (Spec.concatenation items trailer) 0
  = map snd items.
Proof.
  intros Hitems Htrailer.
  induction items as [|[w d] items IH]; simpl.
  - now apply finditer_trailer.
  - inversion Hitems as [|? ? [Hw Hd] Hrest]; subst. simpl in Hw, Hd.
    rewrite (finditer_spaces w _ Hw).
    pose proof (bounded_document_followed d (Spec.concatenation items trailer) Hd) as M.
    destruct (bounded_document_head d Hd) as (d' & ->).
    rewrite (finditer_match _ _ _ _ M). now rewrite (IH Hrest).
Qed.

(** *** The units handed to the parser *)

Lemma rstrip_last (v : string) (c : ascii) :
  Py.is_space c = false -> Py.rstrip (v ++ String c "") = v ++ String c "".
Proof.
  intros H. induction v as [|a v IH]; simpl.
  - now rewrite H.
  - rewrite IH. now destruct v.
Qed.

Lemma strip_bounded_document (d : string) :
  Spec.bounded_document d -> Py.strip d = d /\ Py.truthy d = true.
Proof.
  intros H.
  destruct (bounded_document_head d H) as (d' & Hd').
  destruct (bounded_document_ends d H) as (_ & v & _ & Hv).
  split; [|now rewrite Hd'].
  unfold Py.strip.
  replace (Py.lstrip d) with d by now rewrite Hd'.
  rewrite Hv.
  change "</us-patent-application>" with ("</us-patent-application" ++ ">").
  rewrite <- append_assoc. now apply rstrip_last.
Qed.

Lemma firstn_incl {A : Type} (n : nat) (l : list A) (x : A) :
  In x (firstn n l) -> In x l.
Proof.
  intros H. rewrite <- (firstn_skipn n l). apply in_or_app. now left.
Qed.

Lemma filter_all {A : Type} (f : A -> bool) (l : list A) :
  (forall x, In x l -> f x = true) -> filter f l = l.
Proof.
  induction l as [|x l IH]; intros H; simpl; [reflexivity|].
  rewrite (H x (or_introl eq_refl)), IH; [reflexivity|].
  intros y Hy. apply H. now right.
Qed.

Lemma map_fixed {A : Type} (f : A -> A) (l : list A) :
  (forall x, In x l -> f x = x) -> map f l = l.
Proof.
  induction l as [|x l IH]; intros H; simpl; [reflexivity|].
  rewrite (H x (or_introl eq_refl)), IH; [reflexivity|].
  intros y Hy. apply H. now right.
Qed.

Lemma split_documents_concatenation (items : list (string * string)) (trailer : string) :
  items <> [] ->
  Forall (fun it => Spec.all_space (fst it) = true /\ Spec.bounded_document (snd it))
    items ->
  Spec.all_space trailer = true ->
  Splitter.split_documents (Spec.concatenation items trailer) = map snd items.
Proof.
  intros Hne Hitems Htrailer. unfold Splitter.split_documents.
  rewrite (finditer_concatenation items trailer Hitems Htrailer).
  destruct items as [|it items]; [congruence | reflexivity].
Qed.

Lemma units_concatenation (items : list (string * string)) (trailer : string) :
  items <> [] ->
  Forall (fun it => Spec.all_space (fst it) = true /\ Spec.bounded_document (snd it))
    items ->
  Spec.all_space trailer = true ->
  Splitter.units (Spec.concatenation items trailer) = firstn 50 (map snd items).
Proof.
  intros Hne Hitems Htrailer. unfold Splitter.units.
  rewrite (split_documents_concatenation items trailer Hne Hitems Htrailer).
  assert (forall d, In d (firstn 50 (map snd items)) -> Spec.bounded_document d) as B.
  { intros d Hd. apply firstn_incl in Hd. apply in_map_iff in Hd as (it & <- & Hit).
    rewrite Forall_forall in Hitems. now apply Hitems. }
  rewrite map_fixed by (intros d Hd; apply strip_bounded_document, B, Hd).
  apply filter_all. intros d Hd. apply strip_bounded_document, B, Hd.
Qed.

(** C3, as the code has it.  For an input made of N documents, N at least
    1, each one matched by the boundary pattern from its first character to
    its last (declaration, document type, root element
    us-patent-application, the closing tag of the root nowhere before the
    end), with nothing but whitespace before, between and after them, the
    declaration-anchored scan yields exactly those N documents in order,
    the documents themselves and so as parsable as they are; the line scan
    is consulted exactly when the first scan yields nothing; and the units
    handed to the parser are the first 50 of them. *)
Theorem declaration_anchored_scan_recovers_documents :
  forall (items : list (string * string)) (trailer : string),
    items <> [] ->
    Forall (fun it => Spec.all_space (fst it) = true /\ Spec.bounded_document (snd it))
      items ->
    Spec.all_space trailer = true ->
    Splitter.finditer Splitter.pattern (Spec.concatenation items trailer) 0
    = map snd items /\
    Splitter.split_documents (Spec.concatenation items trailer) = map snd items /\
    List.length (Splitter.split_documents (Spec.concatenation items trailer))
    = List.length items /\
    Splitter.units (Spec.concatenation items trailer) = firstn 50 (map snd items) /\
    (forall content,
        (Splitter.finditer Splitter.pattern content 0 = [] ->
         Splitter.split_documents content = Splitter.split_by_lines_improved content) /\
        (Splitter.finditer Splitter.pattern content 0 <> [] ->
         Splitter.split_documents content
         = Splitter.finditer Splitter.pattern content 0)).
Proof.
  intros items trailer Hne Hitems Htrailer.
  split; [now apply finditer_concatenation|].
  split; [now apply split_documents_concatenation|].
  split.
  { rewrite split_documents_concatenation by assumption. apply length_map. }
  split; [now apply units_concatenation|].
  intros content. unfold Splitter.split_documents. split.
  - now intros ->.
  - intros H. now destruct (Splitter.finditer Splitter.pattern content 0).
Qed.

(** The theorem at two sample documents, one per line, and a last line
    break. *)
Lemma declaration_anchored_scan_recovers_documents_witness :
  [("", Sample.document_with_doctype "Folding bicycle frame");
   (Sample.nl, Sample.document_with_doctype "Antenna array")] <> [] /\
  Forall (fun it => Spec.all_space (fst it) = true /\ Spec.bounded_document (snd it))
    [("", Sample.document_with_doctype "Folding bicycle frame");
     (Sample.nl, Sample.document_with_doctype "Antenna array")] /\
  Spec.all_space Sample.nl = true /\
  Splitter.split_documents
    (Spec.concatenation
       [("", Sample.document_with_doctype "Folding bicycle frame");
        (Sample.nl, Sample.document_with_doctype "Antenna array")] Sample.nl)
  = [Sample.document_with_doctype "Folding bicycle frame";
     Sample.document_with_doctype "Antenna array"].
Proof.
  assert (Forall (fun it => Spec.all_space (fst it) = true
                            /\ Spec.bounded_document (snd it))
            [("", Sample.document_with_doctype "Folding bicycle frame");
             (Sample.nl, Sample.document_with_doctype "Antenna array")]) as F.
  { repeat constructor; vm_compute; reflexivity. }
  split; [discriminate|]. split; [exact F|]. split; [reflexivity|].
  exact (proj1 (proj2
          (declaration_anchored_scan_recovers_documents
             [("", Sample.document_with_doctype "Folding bicycle frame");
              (Sample.nl, Sample.document_with_doctype "Antenna array")]
             Sample.nl ltac:(discriminate) F eq_refl))).
Defined.

(** C3, as stated, fails.  Two applications, each well formed and each
    preceded by the declaration; the first names a document type and the
    second does not.  The splitter returns each of them when it is alone in
    the input.  Concatenated, one per line, they give one unit and not two:
    the first scan finds the first document, so the line scan, which finds
    both when neither names a document type, is not consulted.  Two
    applications without a document type written back to back on one line
    give one unit as well, and it is neither of them. *)
Lemma splitter_loses_document_without_doctype :
  Splitter.split_documents (Sample.document_with_doctype "Folding bicycle frame")
  = [Sample.document_with_doctype "Folding bicycle frame"] /\
  Splitter.split_documents (Sample.document_without_doctype "Antenna array")
  = [Sample.document_without_doctype "Antenna array"] /\
  Splitter.split_documents
    (Sample.document_with_doctype "Folding bicycle frame" ++ Sample.nl
     ++ Sample.document_without_doctype "Antenna array")
  = [Sample.document_with_doctype "Folding bicycle frame"] /\
  List.length
    (Splitter.split_documents
       (Sample.document_with_doctype "Folding bicycle frame" ++ Sample.nl
        ++ Sample.document_without_doctype "Antenna array")) <> 2 /\
  Splitter.split_documents
    (Sample.document_without_doctype "Folding bicycle frame" ++ Sample.nl
     ++ Sample.document_without_doctype "Antenna array")
  = [Sample.document_without_doctype "Folding bicycle frame";
     Sample.document_without_doctype "Antenna array"] /\
  Splitter.split_documents
    (Sample.document_without_doctype "Folding bicycle frame"
     ++ Sample.document_without_doctype "Antenna array")
  = [Sample.document_without_doctype "Folding bicycle frame" ++ Sample.declaration].
Proof.
  repeat split; try (vm_compute; reflexivity).
  vm_compute. discriminate.
Qed.

(** For such an input every one of the first 50 documents is handed to the
    XML parser as it is, and the records are those extracted from the
    trees it returns. *)
Lemma parse_concatenated_xml_bounded_documents :
  forall (fromstring : string -> option Parser.element) (hash : string -> Z)
         (current_year : Z) (items : list (string * string)) (trailer : string),
    items <> [] ->
    Forall (fun it => Spec.all_space (fst it) = true /\ Spec.bounded_document (snd it))
      items ->
    Spec.all_space trailer = true ->
    Splitter.parse_concatenated_xml fromstring hash current_year
      (Spec.concatenation items trailer)
    = flat_map
        (fun d => match fromstring d with
                  | Some root => Parser.extract_from_root hash current_year root
                  | None => []
                  end)
        (firstn 50 (map snd items)).
Proof.
  intros fromstring hash year items trailer Hne Hitems Htrailer.
  unfold Splitter.parse_concatenated_xml.
  now rewrite (units_concatenation items trailer Hne Hitems Htrailer).
Qed.

(** The lemma at two sample documents and the sample parser. *)
Lemma parse_concatenated_xml_bounded_documents_witness :
  Forall (fun it => Spec.all_space (fst it) = true /\ Spec.bounded_document (snd it))
    [("", Sample.document_with_doctype "Folding bicycle frame");
     (Sample.nl, Sample.document_with_doctype "Antenna array")] /\
  Splitter.parse_concatenated_xml Sample.fromstring (Sample.salted_hash 0) 2026
    (Spec.concatenation
       [("", Sample.document_with_doctype "Folding bicycle frame");
        (Sample.nl, Sample.document_with_doctype "Antenna array")] Sample.nl)
  = flat_map
      (fun d => match Sample.fromstring d with
                | Some root => Parser.extract_from_root (Sample.salted_hash 0) 2026 root
                | None => []
                end)
      (firstn 50 [Sample.document_with_doctype "Folding bicycle frame";
                  Sample.document_with_doctype "Antenna array"]).
Proof.
  assert (Forall (fun it => Spec.all_space (fst it) = true
                            /\ Spec.bounded_document (snd it))
            [("", Sample.document_with_doctype "Folding bicycle frame");
             (Sample.nl, Sample.document_with_doctype "Antenna array")]) as F.
  { repeat constructor; vm_compute; reflexivity. }
  split; [exact F|].
  exact (parse_concatenated_xml_bounded_documents Sample.fromstring
           (Sample.salted_hash 0) 2026
           [("", Sample.document_with_doctype "Folding bicycle frame");
            (Sample.nl, Sample.document_with_doctype "Antenna array")]
           Sample.nl ltac:(discriminate) F eq_refl).
Defined.

(** *** The line scan *)

Lemma split_lines_app (l : string) :
  Spec.one_line l = true ->
  forall s cur,
    Splitter.split_lines (l ++ s) cur
    = Splitter.split_lines s (rev (list_ascii_of_string l) ++ cur)%list.
Proof.
  induction l as [|c l IH]; intros H s cur; [reflexivity|].
  simpl in H. apply andb_true_iff in H as [Hc Hl].
  apply negb_true_iff in Hc.
  change (String c l ++ s) with (String c (l ++ s)).
  cbn [Splitter.split_lines]. rewrite Hc, (IH Hl).
  cbn [list_ascii_of_string rev]. now rewrite <- app_assoc.
Qed.

Lemma split_lines_one (l : string) :
  Spec.one_line l = true -> Splitter.split_lines l [] = [l].
Proof.
  intros H. rewrite <- (append_empty_r l) at 1.
  rewrite (split_lines_app l H). cbn [Splitter.split_lines].
  now rewrite app_nil_r, rev_involutive, string_of_list_ascii_of_string.
Qed.

Lemma split_lines_unlines (ls : list string) :
  ls <> [] -> Forall (fun l => Spec.one_line l = true) ls ->
  Splitter.split_lines (Spec.unlines ls) [] = ls.
Proof.
  induction ls as [|l ls IH]; intros Hne H; [congruence|].
  inversion H as [|? ? Hl Hls]; subst.
  destruct ls as [|l2 ls].
  - now apply split_lines_one.
  - change (Spec.unlines (l :: l2 :: ls))
      with (l ++ String Splitter.newline (Spec.unlines (l2 :: ls))).
    rewrite (split_lines_app l Hl). cbn [Splitter.split_lines].
    rewrite Ascii.eqb_refl, app_nil_r, rev_involutive, string_of_list_ascii_of_string.
    now rewrite IH.
Qed.

Lemma scan_rest (rest : list string) :
  forall depth found cur,
    Spec.closes_at_last rest depth = true ->
    fold_left Splitter.scan_line rest
      {| Splitter.documents := found; Splitter.current_doc := cur;
         Splitter.doc_started := true; Splitter.doc_depth := depth |}
    = Spec.between_documents (found ++ [Py.strip (cur ++ Spec.with_breaks rest)]).
Proof.
  induction rest as [|line rest IH]; intros depth found cur H; [discriminate|].
  cbn [Spec.closes_at_last] in H. cbv zeta in H.
  apply andb_true_iff in H as [Hdecl H]. apply negb_true_iff in Hdecl.
  cbn [fold_left Spec.with_breaks]. unfold Splitter.scan_line at 2.
  cbn [Splitter.doc_started Splitter.current_doc Splitter.documents Splitter.doc_depth].
  rewrite Hdecl.
  destruct (Py.contains "<us-patent-application" (Py.strip line)).
  - rewrite (IH _ _ _ H). now rewrite !append_assoc.
  - destruct (Py.contains "</us-patent-application>" (Py.strip line)).
    + destruct (depth - 1 =? 0)%Z.
      * destruct rest; [|discriminate]. reflexivity.
      * rewrite (IH _ _ _ H). now rewrite !append_assoc.
    + rewrite (IH _ _ _ H). now rewrite !append_assoc.
Qed.

Lemma scan_document (ls : list string) (found : list string) :
  Spec.line_document ls = true ->
  fold_left Splitter.scan_line ls (Spec.between_documents found)
  = Spec.between_documents (found ++ [Py.strip (Spec.with_breaks ls)]).
Proof.
  destruct ls as [|first rest]; [discriminate|].
  unfold Spec.line_document. intros H. apply andb_true_iff in H as [Hdecl Hrest].
  cbn [fold_left Spec.with_breaks]. unfold Splitter.scan_line at 2.
  rewrite Hdecl. cbn [Spec.between_documents Splitter.doc_started andb Splitter.documents].
  rewrite (scan_rest rest _ _ _ Hrest). now rewrite !append_assoc.
Qed.

Lemma scan_documents (docs : list (list string)) :
  forall found,
    Forall (fun ls => Spec.line_document ls = true) docs ->
    fold_left Splitter.scan_line (List.concat docs) (Spec.between_documents found)
    = Spec.between_documents
        (found ++ map (fun ls => Py.strip (Spec.with_breaks ls)) docs).
Proof.
  induction docs as [|ls docs IH]; intros found H; simpl.
  - now rewrite app_nil_r.
  - inversion H as [|? ? Hls Hdocs]; subst.
    rewrite fold_left_app, (scan_document ls found Hls), (IH _ Hdocs).
    now rewrite <- app_assoc.
Qed.

Lemma with_breaks_unlines (ls : list string) :
  ls <> [] ->
  Spec.with_breaks ls = Spec.unlines ls ++ String Splitter.newline "".
Proof.
  induction ls as [|l ls IH]; intros H; [congruence|].
  destruct ls as [|l2 ls].
  - reflexivity.
  - change (Spec.unlines (l :: l2 :: ls))
      with (l ++ String Splitter.newline "" ++ Spec.unlines (l2 :: ls)).
    cbn [Spec.with_breaks] in *. rewrite IH by discriminate.
    now rewrite !append_assoc.
Qed.

Lemma unlines_app (a b : list string) :
  a <> [] -> b <> [] ->
  Spec.unlines (a ++ b)
  = Spec.unlines a ++ String Splitter.newline "" ++ Spec.unlines b.
Proof.
  induction a as [|l a IH]; intros Ha Hb; [congruence|].
  destruct a as [|l2 a].
  - destruct b as [|l3 b]; [congruence | reflexivity].
  - change (Spec.unlines ((l :: l2 :: a) ++ b))
      with (l ++ String Splitter.newline "" ++ Spec.unlines ((l2 :: a) ++ b)).
    rewrite IH by (assumption || discriminate).
    change (Spec.unlines (l :: l2 :: a))
      with (l ++ String Splitter.newline "" ++ Spec.unlines (l2 :: a)).
    now rewrite !append_assoc.
Qed.

Lemma unlines_concat (docs : list (list string)) :
  docs <> [] -> Forall (fun ls => ls <> []) docs ->
  List.concat docs <> [] /\
  Spec.unlines (List.concat docs)
  = Py.join (String Splitter.newline "") (map Spec.unlines docs).
Proof.
  induction docs as [|ls docs IH]; intros Hne H; [congruence|].
  inversion H as [|? ? Hls Hdocs]; subst.
  split.
  - simpl. destruct ls; [congruence | discriminate].
  - destruct docs as [|ls2 docs].
    + simpl. now rewrite app_nil_r.
    + destruct (IH ltac:(discriminate) Hdocs) as (Hc & E).
      change (List.concat (ls :: ls2 :: docs))
        with (ls ++ List.concat (ls2 :: docs))%list.
      rewrite (unlines_app _ _ Hls Hc), E. reflexivity.
Qed.

Lemma rstrip_all_space (w : string) : Spec.all_space w = true -> Py.rstrip w = "".
Proof.
  induction w as [|c w IH]; intros H; [reflexivity|].
  simpl in H. apply andb_true_iff in H as [Hc Hw].
  simpl. now rewrite (IH Hw), Hc.
Qed.

Lemma rstrip_app_space (s w : string) :
  Spec.all_space w = true -> Py.rstrip (s ++ w) = Py.rstrip s.
Proof.
  intros H. induction s as [|c s IH]; simpl.
  - now apply rstrip_all_space.
  - now rewrite IH.
Qed.

Lemma lstrip_all_space (w : string) : Spec.all_space w = true -> Py.lstrip w = "".
Proof.
  induction w as [|c w IH]; intros H; [reflexivity|].
  simpl in H. apply andb_true_iff in H as [Hc Hw].
  simpl. now rewrite Hc, (IH Hw).
Qed.

Lemma strip_app_space (s w : string) :
  Spec.all_space w = true -> Py.strip (s ++ w) = Py.strip s.
Proof.
  intros H. unfold Py.strip. induction s as [|c s IH]; simpl.
  - now rewrite (lstrip_all_space w H).
  - destruct (Py.is_space c); [exact IH|].
    change (String c (s ++ w)) with (String c s ++ w).
    now apply rstrip_app_space.
Qed.

(** When the declaration-anchored scan finds nothing, the line scan
    yields one unit for each document that starts with the declaration on
    a line of its own and closes its root element on its last line, and the
    unit is the document, stripped. *)
Theorem line_scan_recovers_documents :
  forall docs : list (list string),
    docs <> [] ->
    Forall (fun ls => Spec.line_document ls = true /\
                      Forall (fun l => Spec.one_line l = true) ls) docs ->
    Splitter.finditer Splitter.pattern
      (Py.join (String Splitter.newline "") (map Spec.unlines docs)) 0 = [] ->
    Splitter.split_documents
      (Py.join (String Splitter.newline "") (map Spec.unlines docs))
    = map (fun ls => Py.strip (Spec.unlines ls)) docs.
Proof.
  intros docs Hne Hdocs Hscan.
  assert (Forall (fun ls : list string => ls <> []) docs) as Hnonempty.
  { rewrite Forall_forall in *. intros ls Hls E. subst ls.
    destruct (Hdocs [] Hls) as (H & _). discriminate. }
  destruct (unlines_concat docs Hne Hnonempty) as (Hc & E).
  unfold Splitter.split_documents. rewrite Hscan.
  rewrite <- E. unfold Splitter.split_by_lines_improved.
  rewrite split_lines_unlines.
  - change {| Splitter.documents := []; Splitter.current_doc := "";
              Splitter.doc_started := false; Splitter.doc_depth := 0 |}
      with (Spec.between_documents []).
    rewrite scan_documents.
    + cbn. apply map_ext_in. intros ls Hls.
      rewrite with_breaks_unlines.
      * now apply strip_app_space.
      * rewrite Forall_forall in Hnonempty. now apply Hnonempty.
    + rewrite Forall_forall in *. intros ls Hls. now apply Hdocs.
  - exact Hc.
  - apply Forall_concat. rewrite Forall_forall in *.
    intros ls Hls. now apply Hdocs.
Qed.

(** The theorem at two sample documents without a document type. *)
Lemma line_scan_recovers_documents_witness :
  [Sample.lines_without_doctype "Folding bicycle frame";
   Sample.lines_without_doctype "Antenna array"] <> [] /\
  Py.join Sample.nl
    (map Spec.unlines
       [Sample.lines_without_doctype "Folding bicycle frame";
        Sample.lines_without_doctype "Antenna array"])
  = Sample.document_without_doctype "Folding bicycle frame" ++ Sample.nl
    ++ Sample.document_without_doctype "Antenna array" /\
  Splitter.split_documents
    (Py.join Sample.nl
       (map Spec.unlines
          [Sample.lines_without_doctype "Folding bicycle frame";
           Sample.lines_without_doctype "Antenna array"]))
  = [Sample.document_without_doctype "Folding bicycle frame";
     Sample.document_without_doctype "Antenna array"].
Proof.
  split; [discriminate|]. split; [reflexivity|].
  apply (line_scan_recovers_documents
           [Sample.lines_without_doctype "Folding bicycle frame";
            Sample.lines_without_doctype "Antenna array"]).
  - discriminate.
  - repeat constructor; vm_compute; reflexivity.
  - vm_compute. reflexivity.
Defined.

(** * More of the code *)

(** ** [index_patents]: the table after a rebuild *)

Lemma existsb_ids (key : string) (rows : list Engine.row) :
  existsb (fun r' => String.eqb (id (Engine.r_patent r')) key) rows
  = existsb (fun s => String.eqb s key) (map (fun r => id (Engine.r_patent r)) rows).
Proof.
  induction rows as [|r rows IH]; simpl; [reflexivity | now rewrite IH].
Qed.

Lemma index_loop_first_by_id (items : list Engine.patent_dict) :
  forall i d,
    Engine.patents (Engine.index_loop i items d)
    = (Engine.patents d
       ++ Spec.first_by_id (map (fun r => id (Engine.r_patent r)) (Engine.patents d))
            (Spec.enumerate_rows i items))%list.
Proof.
  induction items as [|x items IH]; intros i d; simpl.
  - now rewrite app_nil_r.
  - unfold Engine.insert_into_patents. rewrite existsb_ids.
    destruct (existsb _ (map _ (Engine.patents d))).
    + apply IH.
    + rewrite IH. simpl. rewrite map_app. simpl. now rewrite <- app_assoc.
Qed.

Lemma first_by_id_fresh (rows : list Engine.row) :
  forall seen r,
    In r (Spec.first_by_id seen rows) ->
    In r rows /\ ~ In (id (Engine.r_patent r)) seen.
Proof.
  induction rows as [|x rows IH]; intros seen r H; simpl in H; [destruct H|].
  destruct (existsb (fun s => String.eqb s (id (Engine.r_patent x))) seen) eqn:E.
  - destruct (IH _ _ H). split; [now right | assumption].
  - destruct H as [<-|H].
    + split; [now left|]. intros Hin.
      assert (existsb (fun s => String.eqb s (id (Engine.r_patent x))) seen = true).
      { apply existsb_exists. exists (id (Engine.r_patent x)).
        split; [assumption | apply String.eqb_refl]. }
      congruence.
    + destruct (IH _ _ H) as (Hr & Hs). split; [now right|].
      intros Hin. apply Hs. apply in_or_app. now left.
Qed.

Lemma first_by_id_nodup (rows : list Engine.row) :
  forall seen,
    NoDup (map (fun r => id (Engine.r_patent r)) (Spec.first_by_id seen rows)).
Proof.
  induction rows as [|x rows IH]; intros seen; simpl; [constructor|].
  destruct (existsb (fun s => String.eqb s (id (Engine.r_patent x))) seen).
  - apply IH.
  - simpl. constructor; [|apply IH].
    intros Hin. apply in_map_iff in Hin as (r & Er & Hr).
    apply first_by_id_fresh in Hr as (_ & Hfresh). apply Hfresh.
    apply in_or_app. right. left. now symmetry.
Qed.

Lemma first_by_id_length (rows : list Engine.row) :
  forall seen, List.length (Spec.first_by_id seen rows) <= List.length rows.
Proof.
  induction rows as [|x rows IH]; intros seen; simpl; [lia|].
  destruct (existsb _ seen); simpl.
  - specialize (IH seen). lia.
  - specialize (IH (seen ++ [id (Engine.r_patent x)])%list). lia.
Qed.

Lemma enumerate_rows_length (items : list Engine.patent_dict) :
  forall i, List.length (Spec.enumerate_rows i items) = List.length items.
Proof.
  induction items as [|x items IH]; intros i; simpl; [reflexivity | now rewrite IH].
Qed.

Lemma index_patents_first_by_id (d : Engine.db) (items : list Engine.patent_dict) :
  Engine.patents (Engine.index_patents d items)
  = Spec.first_by_id [] (Spec.enumerate_rows 0 items).
Proof. unfold Engine.index_patents. now rewrite index_loop_first_by_id. Qed.

(** After a rebuild no two stored rows have the same id, whatever the
    batch and whatever the table held: the primary key of [patents] holds.
    There are at most as many rows as items in the batch. *)
Theorem index_patents_ids_unique :
  forall (d : Engine.db) (items : list Engine.patent_dict),
    NoDup (map (fun r => id (Engine.r_patent r))
             (Engine.patents (Engine.index_patents d items))) /\
    Engine.total_patents (Engine.index_patents d items) <= List.length items.
Proof.
  intros d items. rewrite index_patents_first_by_id. split.
  - apply first_by_id_nodup.
  - unfold Engine.total_patents. rewrite index_patents_first_by_id.
    rewrite <- (enumerate_rows_length items 0). apply first_by_id_length.
Qed.

(** The table after a rebuild is made of the batch alone: of the rows of
    the batch, numbered from 0 for the default ids, the first of each id,
    in order.  What the table held before leaves no trace in it. *)
Theorem index_patents_first_of_each_id :
  forall (d d' : Engine.db) (items : list Engine.patent_dict),
    Engine.patents (Engine.index_patents d items)
    = Spec.first_by_id [] (Spec.enumerate_rows 0 items) /\
    Engine.patents (Engine.index_patents d items)
    = Engine.patents (Engine.index_patents d' items).
Proof.
  intros d d' items. now rewrite !index_patents_first_by_id.
Qed.

(** What is stored is what was given: a batch of records with pairwise
    distinct ids is read back from the table record for record, in order,
    and the total is the size of the batch. *)
Theorem index_patents_round_trip :
  forall (d : Engine.db) (batch : list patent),
    NoDup (map id batch) ->
    map Engine.r_patent
      (Engine.patents (Engine.index_patents d (map Engine.dict_of_patent batch)))
    = batch /\
    Engine.total_patents (Engine.index_patents d (map Engine.dict_of_patent batch))
    = List.length batch.
Proof.
  intros d batch H. unfold Engine.total_patents.
  rewrite (index_patents_distinct d batch H). rewrite length_map. split; [|reflexivity].
  rewrite map_map. apply map_fixed. intros p _.
  apply (proj1 (row_of_dict_of_patent 0 p)).
Qed.

(** The lemma at the two samples. *)
Lemma index_patents_round_trip_witness :
  NoDup (map id [Sample.antenna; Sample.router]) /\
  map Engine.r_patent
    (Engine.patents
       (Engine.index_patents Sample.one_patent_db
          (map Engine.dict_of_patent [Sample.antenna; Sample.router])))
  = [Sample.antenna; Sample.router].
Proof.
  assert (NoDup (map id [Sample.antenna; Sample.router])) as H.
  { repeat constructor; simpl; intuition discriminate. }
  split; [exact H|].
  exact (proj1 (index_patents_round_trip Sample.one_patent_db
                  [Sample.antenna; Sample.router] H)).
Defined.

(** ** [search]: filters and the limit *)

Lemma scored_hit (query : string) (rows : list Engine.row) (x : Engine.search_result) :
  In x (Spec.scored query rows) ->
  In (Engine.hit x) rows /\
  Engine.score x = Engine.calculate_custom_score (Engine.r_patent (Engine.hit x)) query.
Proof.
  unfold Spec.scored. intros H. apply in_map_iff in H as (r & <- & Hr).
  split; [exact Hr | reflexivity].
Qed.

(** When [search] returns, with a limit other than 0, the full-text engine
    has answered the prepared query, and every result is a row of that
    answer, with its custom score, and passes each filter that was given
    and is not empty: the category is equal to the filter, the assignee
    matches it under LIKE, the publication date lies in the closed range.
    With the limit 0 the statement ends before the engine is asked, and
    [search] returns no result. *)
Theorem search_results_pass_filters :
  forall (fts_match : Engine.db -> string -> result (list Engine.row))
         (d : Engine.db) (query : string) (limit : Z)
         (by_category by_assignee : option string)
         (date_range : option (string * string))
         (results : list Engine.search_result),
    Engine.search fts_match d query limit by_category by_assignee date_range
    = Ok results ->
    (limit = 0%Z -> results = []) /\
    (limit <> 0%Z ->
     exists rows,
       fts_match d (Engine.prepare_fts_query query) = Ok rows /\
       forall x, In x results ->
         In (Engine.hit x) rows /\
         Engine.score x
         = Engine.calculate_custom_score (Engine.r_patent (Engine.hit x)) query /\
         (forall c, by_category = Some c -> c <> "" ->
                    category (Engine.r_patent (Engine.hit x)) = c) /\
         (forall a, by_assignee = Some a -> a <> "" ->
                    Engine.like ("%" ++ a ++ "%")
                      (assignee (Engine.r_patent (Engine.hit x))) = true) /\
         (forall lo hi, date_range = Some (lo, hi) ->
                        Engine.text_leb lo (publication_date (Engine.r_patent (Engine.hit x)))
                        = true /\
                        Engine.text_leb (publication_date (Engine.r_patent (Engine.hit x))) hi
                        = true)).
Proof.
  intros fts_match d query limit by_category by_assignee date_range results H.
  unfold Engine.search, Engine.candidates in H.
  destruct (Engine.fits_int64 limit); [|discriminate]. cbn [negb] in H.
  destruct (Z.eqb_spec limit 0) as [Hz|Hz].
  { inversion H. split; [reflexivity | contradiction]. }
  split; [contradiction|]. intros _.
  destruct (fts_match d (Engine.prepare_fts_query query)) as [rows|e] eqn:E;
    [|discriminate].
  cbn [bind] in H.
  destruct (Engine.like_refused by_assignee
            && existsb (Engine.category_condition by_category) rows);
    [discriminate|].
  cbn [bind] in H. inversion H; subst results; clear H.
  exists rows. split; [reflexivity|]. intros x Hx.
  apply (Permutation_in _ (sort_by_score_perm _)) in Hx.
  apply scored_hit in Hx as (Hhit & Hscore).
  apply sql_limit_incl in Hhit. apply filter_In in Hhit as (Hrow & Hcond).
  split; [exact Hrow|]. split; [exact Hscore|].
  unfold Engine.where_conditions in Hcond.
  apply andb_true_iff in Hcond as (Hcond & Hdate).
  apply andb_true_iff in Hcond as (Hcat & Hasg).
  split; [|split].
  - intros c -> Hc. destruct c as [|c0 c]; [congruence|].
    simpl in Hcat. now apply String.eqb_eq in Hcat.
  - intros a -> Ha. destruct a as [|a0 a]; [congruence|]. exact Hasg.
  - intros lo hi ->. unfold Engine.between in Hdate.
    now apply andb_true_iff in Hdate.
Qed.

(** The theorem at the two samples, filtered on the category physics. *)
Lemma search_results_pass_filters_witness :
  exists results,
    Engine.search Sample.all_rows Sample.two_patent_db "network" 10
      (Some "physics") None None = Ok results /\
    List.length results = 2 /\
    forall x, In x results -> category (Engine.r_patent (Engine.hit x)) = "physics".
Proof.
  eexists. split; [reflexivity|]. split; [reflexivity|].
  intros x Hx.
  destruct (search_results_pass_filters Sample.all_rows Sample.two_patent_db
              "network" 10 (Some "physics") None None _ eq_refl)
    as (_ & Hrows).
  destruct (Hrows ltac:(discriminate)) as (rows & _ & Hall).
  destruct (Hall x Hx) as (_ & _ & Hcat & _).
  apply Hcat; [reflexivity | discriminate].
Defined.



(** ** [prepare_fts_query]: what reaches the full-text engine *)

Lemma all_chars_of_list (p : ascii -> bool) (l : list ascii) :
  Spec.all_chars p (string_of_list_ascii l) = forallb p l.
Proof. induction l as [|c l IH]; simpl; [reflexivity | now rewrite IH]. Qed.

Lemma forallb_rev_true {A : Type} (p : A -> bool) (l : list A) :
  forallb p l = true -> forallb p (rev l) = true.
Proof.
  rewrite !forallb_forall. intros H x Hx. apply H. now apply in_rev.
Qed.

Lemma split_ws_all_chars (p : ascii -> bool) (s : string) :
  forall cur,
    Spec.all_chars (fun c => p c || Py.is_space c) s = true ->
    forallb p cur = true ->
    Forall (fun t => Spec.all_chars p t = true) (Py.split_ws s cur).
Proof.
  induction s as [|c s IH]; intros cur Hs Hcur; simpl.
  - destruct cur as [|a cur]; constructor; [|constructor].
    rewrite all_chars_of_list. now apply forallb_rev_true.
  - simpl in Hs. apply andb_true_iff in Hs as [Hc Hs].
    destruct (Py.is_space c) eqn:E.
    + destruct cur as [|a cur].
      * now apply IH.
      * constructor; [|now apply IH].
        rewrite all_chars_of_list. now apply forallb_rev_true.
    + apply IH; [assumption|]. simpl. rewrite orb_false_r in Hc. now rewrite Hc.
Qed.

Lemma strip_punctuation_chars (q : string) :
  Spec.all_chars (fun c => Py.is_word c || Py.is_space c) (Engine.strip_punctuation q)
  = true.
Proof.
  induction q as [|c q IH]; simpl; [reflexivity|]. rewrite IH, andb_true_r.
  destruct (Py.is_word c || Py.is_space c) eqn:E; [exact E | reflexivity].
Qed.

Lemma split_ws_nil (s : string) :
  forall cur, Py.split_ws s cur = [] <-> cur = [] /\ Spec.all_space s = true.
Proof.
  induction s as [|c s IH]; intros cur; simpl.
  - destruct cur as [|a cur].
    + split; [intros _; now split | reflexivity].
    + split; [discriminate | intros [H _]; discriminate].
  - destruct (Py.is_space c) eqn:E; simpl.
    + destruct cur as [|a cur].
      * rewrite IH. tauto.
      * split; [discriminate | intros [H _]; discriminate].
    + rewrite IH. split; [intros [H _]; discriminate | intros [_ H]; discriminate].
Qed.

Lemma strip_punctuation_all_space (q : string) :
  Spec.all_space (Engine.strip_punctuation q) = true
  <-> Spec.all_chars (fun c => negb (Py.is_word c)) q = true.
Proof.
  induction q as [|c q IH]; simpl; [tauto|].
  rewrite !andb_true_iff, IH.
  assert (Py.is_space (if Py.is_word c || Py.is_space c then c else " "%char) = true
          <-> negb (Py.is_word c) = true) as Hc.
  { destruct (Py.is_word c) eqn:Ew; simpl.
    - split; [|discriminate]. intros Hs.
      destruct c as [b0 b1 b2 b3 b4 b5 b6 b7].
      destruct b0, b1, b2, b3, b4, b5, b6, b7; vm_compute in Ew, Hs; congruence.
    - destruct (Py.is_space c) eqn:Es; [tauto | split; reflexivity]. }
  tauto.
Qed.

Lemma word_char_is_word (c : ascii) : Spec.word_char c = Py.is_word c.
Proof. destruct c as [[] [] [] [] [] [] [] []]; reflexivity. Qed.

Lemma word_not_space (c : ascii) : Py.is_word c = true -> Py.is_space c = false.
Proof. destruct c as [[] [] [] [] [] [] [] []]; vm_compute; congruence. Qed.

(** The terms of the prepared query are the words of the query. *)
Lemma split_strip_punctuation_words (s : string) :
  forall cur, Py.split_ws (Engine.strip_punctuation s) cur = Spec.words_from s cur.
Proof.
  induction s as [|c s IH]; intros cur; [reflexivity|].
  cbn [Engine.strip_punctuation Py.split_ws Spec.words_from].
  rewrite word_char_is_word.
  destruct (Py.is_word c) eqn:Ew.
  - cbn [orb]. rewrite (word_not_space c Ew). apply IH.
  - cbn [orb]. destruct (Py.is_space c) eqn:Es.
    + rewrite Es, IH. reflexivity.
    + change (Py.is_space " ") with true. cbv iota. rewrite IH. reflexivity.
Qed.

(** On an ASCII query, the prepared query is the words of the query (its
    maximal runs of letters, digits and underscores, in order), each
    between double quotes and followed by a star, joined by [ OR ].  A
    word is never empty and holds word characters only, so no quote, star
    or operator of the query reaches the full-text engine inside a term.
    The prepared query is empty exactly when the query has no word
    character. *)
Theorem prepare_fts_query_terms_are_words :
  forall query : string,
    Spec.ascii_text query = true ->
    Engine.prepare_fts_query query
    = Py.join " OR "
        (map (fun t => String Py.dquote t ++ String Py.dquote "*")
           (Spec.words query)) /\
    Forall (fun t => t <> "" /\ Spec.all_chars Spec.word_char t = true)
      (Spec.words query) /\
    (Spec.words query = []
     <-> Spec.all_chars (fun c => negb (Spec.word_char c)) query = true) /\
    (Engine.prepare_fts_query query = "" <-> Spec.words query = []).
Proof.
  intros query _.
  assert (Py.split (Engine.strip_punctuation query) = Spec.words query) as W
    by apply split_strip_punctuation_words.
  assert (forall p q : ascii -> bool, (forall c, p c = q c) ->
            forall s, Spec.all_chars p s = Spec.all_chars q s) as Ext.
  { intros p q E s. induction s as [|c s IH]; [reflexivity|].
    cbn [Spec.all_chars]. now rewrite E, IH. }
  split; [|split; [|split]].
  - unfold Engine.prepare_fts_query. rewrite W.
    destruct (Spec.words query) as [|t [|t2 ts]]; reflexivity.
  - rewrite <- W.
    pose proof (split_ws_all_chars Py.is_word (Engine.strip_punctuation query) []
                  (strip_punctuation_chars query) eq_refl) as Hw.
    rewrite Forall_forall in *. intros t Ht. split.
    + now apply (split_nonempty (Engine.strip_punctuation query)).
    + rewrite (Ext _ _ word_char_is_word). now apply Hw.
  - rewrite <- W. unfold Py.split.
    rewrite split_ws_nil, strip_punctuation_all_space.
    rewrite (Ext (fun c => negb (Spec.word_char c)) (fun c => negb (Py.is_word c)))
      by (intros c; now rewrite word_char_is_word).
    tauto.
  - unfold Engine.prepare_fts_query. rewrite W.
    destruct (Spec.words query) as [|t [|t2 ts]].
    + split; reflexivity.
    + split; discriminate.
    + split; [|discriminate]. simpl. discriminate.
Qed.

(** The theorem at a query with a quote, a star and a hyphen. *)
Lemma prepare_fts_query_terms_are_words_witness :
  Spec.ascii_text (String Py.dquote "deep* learning-based") = true /\
  Spec.words (String Py.dquote "deep* learning-based") = ["deep"; "learning"; "based"] /\
  Engine.prepare_fts_query (String Py.dquote "deep* learning-based")
  = Py.join " OR "
      (map (fun t => String Py.dquote t ++ String Py.dquote "*")
         ["deep"; "learning"; "based"]).
Proof.
  split; [reflexivity|]. split; [reflexivity|].
  exact (proj1 (prepare_fts_query_terms_are_words
                  (String Py.dquote "deep* learning-based") eq_refl)).
Defined.

(** ** [calculate_custom_score]: sign, zero, case *)

Lemma custom_score_weighted (p : patent) (query : string) :
  (Engine.calculate_custom_score p query
   == Spec.weighted_sum p query * Spec.boost p)%Q.
Proof.
  unfold Engine.calculate_custom_score, Engine.score_fields.
  pose proof (score_fields_fold p (Py.split (Py.lower query))
                Engine.field_weights (split_nonempty (Py.lower query)) 0%Q) as E.
  unfold Spec.boost. rewrite in_boosted_categories.
  destruct (String.eqb (category p) "artificial_intelligence"
            || String.eqb (category p) "telecommunications");
    rewrite E; unfold Spec.weighted_sum; ring.
Qed.

Lemma term_sum_nonneg (field_text : string) (terms : list string) :
  (0 <= Spec.term_sum field_text terms)%Q.
Proof.
  induction terms as [|t terms IH]; [apply Qle_refl|].
  change (Spec.term_sum field_text (t :: terms))
    with (inject_Z (Z.of_nat (Py.count field_text t))
          + Spec.term_sum field_text terms)%Q.
  assert (0 <= inject_Z (Z.of_nat (Py.count field_text t)))%Q as H.
  { change 0%Q with (inject_Z 0). rewrite <- Zle_Qle. lia. }
  revert H IH. generalize (inject_Z (Z.of_nat (Py.count field_text t))) as a.
  generalize (Spec.term_sum field_text terms) as b. intros b a H IH. lra.
Qed.

Lemma term_sum_zero (field_text : string) (terms : list string) :
  (Spec.term_sum field_text terms == 0)%Q
  <-> forall t, In t terms -> Py.count field_text t = 0.
Proof.
  induction terms as [|t terms IH].
  - split; [intros _ t [] | reflexivity].
  - pose proof (term_sum_nonneg field_text terms) as Hrest.
    change (Spec.term_sum field_text (t :: terms))
      with (inject_Z (Z.of_nat (Py.count field_text t))
            + Spec.term_sum field_text terms)%Q.
    assert (0 <= inject_Z (Z.of_nat (Py.count field_text t)))%Q as Hhead.
    { change 0%Q with (inject_Z 0). rewrite <- Zle_Qle. lia. }
    assert ((inject_Z (Z.of_nat (Py.count field_text t)) == 0)%Q
            <-> Py.count field_text t = 0) as Hz.
    { split; intros E.
      - unfold Qeq in E. simpl in E. lia.
      - rewrite E. reflexivity. }
    revert Hhead Hz Hrest IH.
    generalize (inject_Z (Z.of_nat (Py.count field_text t))) as a.
    generalize (Spec.term_sum field_text terms) as b.
    intros b a Hhead Hz Hrest IH. split.
    + intros H u [<-|Hu].
      * apply Hz. lra.
      * apply IH; [lra | assumption].
    + intros H.
      assert (a == 0)%Q as Ea by (apply Hz, H; now left).
      assert (b == 0)%Q as Eb by (apply IH; intros u Hu; apply H; now right).
      lra.
Qed.

(** The custom score is never negative.  It is zero exactly when no term
    of the query occurs, case apart, in the title, the abstract, the claims
    or the description; a query without terms scores zero. *)
Theorem custom_score_zero_iff_no_occurrence :
  forall (p : patent) (query : string),
    (0 <= Engine.calculate_custom_score p query)%Q /\
    ((Engine.calculate_custom_score p query == 0)%Q
     <-> forall field term,
           In field ["title"; "abstract"; "claims"; "description"] ->
           In term (Py.split (Py.lower query)) ->
           Py.count (Py.lower (Engine.get_field p field)) term = 0).
Proof.
  intros p query.
  pose proof (custom_score_weighted p query) as E.
  unfold Spec.weighted_sum, Engine.field_weights in E. cbn [fold_right fst snd] in E.
  set (terms := Py.split (Py.lower query)) in *.
  pose proof (term_sum_nonneg (Py.lower (Engine.get_field p "title")) terms) as N1.
  pose proof (term_sum_nonneg (Py.lower (Engine.get_field p "abstract")) terms) as N2.
  pose proof (term_sum_nonneg (Py.lower (Engine.get_field p "claims")) terms) as N3.
  pose proof (term_sum_nonneg (Py.lower (Engine.get_field p "description")) terms) as N4.
  pose proof (term_sum_zero (Py.lower (Engine.get_field p "title")) terms) as Z1.
  pose proof (term_sum_zero (Py.lower (Engine.get_field p "abstract")) terms) as Z2.
  pose proof (term_sum_zero (Py.lower (Engine.get_field p "claims")) terms) as Z3.
  pose proof (term_sum_zero (Py.lower (Engine.get_field p "description")) terms) as Z4.
  assert (Spec.boost p = (6 # 5)%Q \/ Spec.boost p = 1%Q) as [B|B]
    by (unfold Spec.boost; destruct (_ || _); auto).
  - rewrite B in E. split; [lra|].
    + split.
      * intros H field term Hf Ht.
        destruct Hf as [<-|[<-|[<-|[<-|[]]]]];
          [apply Z1 | apply Z2 | apply Z3 | apply Z4]; try assumption; lra.
      * intros H.
        assert (forall f, In f ["title"; "abstract"; "claims"; "description"] ->
                          (Spec.term_sum (Py.lower (Engine.get_field p f)) terms == 0)%Q)
          as Hz.
        { intros f Hf. apply term_sum_zero. intros t Ht. now apply H. }
        pose proof (Hz "title" ltac:(simpl; tauto)).
        pose proof (Hz "abstract" ltac:(simpl; tauto)).
        pose proof (Hz "claims" ltac:(simpl; tauto)).
        pose proof (Hz "description" ltac:(simpl; tauto)).
        lra.
  - rewrite B in E. split; [lra|].
    + split.
      * intros H field term Hf Ht.
        destruct Hf as [<-|[<-|[<-|[<-|[]]]]];
          [apply Z1 | apply Z2 | apply Z3 | apply Z4]; try assumption; lra.
      * intros H.
        assert (forall f, In f ["title"; "abstract"; "claims"; "description"] ->
                          (Spec.term_sum (Py.lower (Engine.get_field p f)) terms == 0)%Q)
          as Hz.
        { intros f Hf. apply term_sum_zero. intros t Ht. now apply H. }
        pose proof (Hz "title" ltac:(simpl; tauto)).
        pose proof (Hz "abstract" ltac:(simpl; tauto)).
        pose proof (Hz "claims" ltac:(simpl; tauto)).
        pose proof (Hz "description" ltac:(simpl; tauto)).
        lra.
Qed.

(** ** [get_aggregations]: the groupings without a row limit *)

Lemma bump_lookup (key : string) (groups : list (string * nat)) (k : string) :
  Engine.lookup (Engine.bump key groups) k
  = if String.eqb key k
    then Some (S (match Engine.lookup groups key with Some n => n | None => 0 end))
    else Engine.lookup groups k.
Proof.
  induction groups as [|[k0 n] groups IH]; simpl.
  - destruct (String.eqb_spec key k); reflexivity.
  - destruct (String.eqb_spec k0 key) as [->|Hk0]; simpl.
    + destruct (String.eqb_spec key k); reflexivity.
    + rewrite IH.
      destruct (String.eqb_spec key k) as [->|Hk].
      * destruct (String.eqb_spec k0 k); [contradiction | reflexivity].
      * reflexivity.
Qed.

Lemma bump_total (key : string) (groups : list (string * nat)) :
  Spec.total_count (Engine.bump key groups) = S (Spec.total_count groups).
Proof.
  induction groups as [|[k0 n] groups IH]; [reflexivity|].
  cbn [Engine.bump]. destruct (String.eqb k0 key).
  - reflexivity.
  - change (n + Spec.total_count (Engine.bump key groups)
            = S (n + Spec.total_count groups)).
    rewrite IH. lia.
Qed.

Lemma slice_to_length_min (n : nat) (s : string) :
  String.length (Py.slice_to n s) = Nat.min n (String.length s).
Proof.
  revert s. induction n as [|n IH]; intros [|c s]; simpl; try reflexivity.
  now rewrite IH.
Qed.

Lemma bump_keys (key : string) (groups : list (string * nat)) :
  map fst (Engine.bump key groups)
  = if existsb (String.eqb key) (map fst groups)
    then map fst groups else (map fst groups ++ [key])%list.
Proof.
  induction groups as [|[k0 n] groups IH]; simpl; [reflexivity|].
  rewrite (String.eqb_sym key k0).
  destruct (String.eqb k0 key); simpl; [reflexivity|].
  rewrite IH. now destruct (existsb _ _).
Qed.

Lemma bump_nodup (key : string) (groups : list (string * nat)) :
  NoDup (map fst groups) -> NoDup (map fst (Engine.bump key groups)).
Proof.
  intros H. rewrite bump_keys.
  destruct (existsb (String.eqb key) (map fst groups)) eqn:E; [assumption|].
  apply NoDup_app; [assumption | repeat constructor; intros [] |].
  intros x Hx [Hk|[]]. subst x.
  assert (existsb (String.eqb key) (map fst groups) = true) as Ht
    by (apply existsb_exists; exists key; split; [assumption | apply String.eqb_refl]).
  congruence.
Qed.

Lemma bump_positive (key : string) (groups : list (string * nat)) :
  Forall (fun kn => 1 <= snd kn) groups ->
  Forall (fun kn => 1 <= snd kn) (Engine.bump key groups).
Proof.
  induction 1 as [|[k0 n] groups Hn Hrest IH]; simpl.
  - repeat constructor.
  - destruct (String.eqb k0 key); constructor; simpl in *; try assumption; lia.
Qed.

Lemma fold_bump (keys : list string) (groups : list (string * nat)) :
  let out := fold_left (fun g key => Engine.bump key g) keys groups in
  (NoDup (map fst groups) -> NoDup (map fst out)) /\
  (Forall (fun kn => 1 <= snd kn) groups -> Forall (fun kn => 1 <= snd kn) out) /\
  Spec.total_count out = Spec.total_count groups + List.length keys /\
  forall k,
    Engine.lookup out k
    = match Engine.lookup groups k with
      | Some n => Some (n + Spec.occurrences k keys)
      | None => if Spec.occurrences k keys =? 0 then None
                else Some (Spec.occurrences k keys)
      end.
Proof.
  revert groups. induction keys as [|key keys IH]; intros groups; cbn zeta.
  - simpl. repeat split; try tauto; try lia.
    intros k. unfold Spec.occurrences. simpl.
    destruct (Engine.lookup groups k); [f_equal; lia | reflexivity].
  - simpl fold_left. destruct (IH (Engine.bump key groups)) as (N & P & T & L).
    split; [intros H; apply N, bump_nodup, H|].
    split; [intros H; apply P, bump_positive, H|].
    split; [rewrite T, bump_total; simpl; lia|].
    intros k. rewrite L, bump_lookup. unfold Spec.occurrences. simpl filter.
    rewrite (String.eqb_sym k key).
    destruct (String.eqb_spec key k) as [->|Hk]; simpl List.length.
    + destruct (Engine.lookup groups k); simpl; f_equal; lia.
    + reflexivity.
Qed.

Lemma group_count_spec (keys : list string) :
  NoDup (map fst (Engine.group_count keys)) /\
  Forall (fun kn => 1 <= snd kn) (Engine.group_count keys) /\
  Spec.total_count (Engine.group_count keys) = List.length keys /\
  forall k,
    Engine.lookup (Engine.group_count keys) k
    = if Spec.occurrences k keys =? 0 then None
      else Some (Spec.occurrences k keys).
Proof.
  destruct (fold_bump keys []) as (N & P & T & L).
  split; [apply N; constructor|].
  split; [apply P; constructor|].
  split; [exact T | exact L].
Qed.

(** The grouping by category has one entry for each category that occurs,
    with the number of patents of that category: the keys are distinct, no
    count is zero, a category that no patent has is missing, and the counts
    add up to [total_patents]. *)
Theorem categories_partition_the_patents :
  forall (d : Engine.db),
    NoDup (map fst (Engine.categories d)) /\
    (forall k,
        Engine.lookup (Engine.categories d) k
        = let n := List.length
                     (filter (fun r => String.eqb k (category (Engine.r_patent r)))
                        (Engine.patents d)) in
          if n =? 0 then None else Some n) /\
    Spec.total_count (Engine.categories d) = Engine.total_patents d.
Proof.
  intros d. unfold Engine.categories.
  destruct (group_count_spec
              (map (fun r => category (Engine.r_patent r)) (Engine.patents d)))
    as (N & _ & T & L).
  split; [exact N|]. split.
  - intros k. rewrite L. unfold Spec.occurrences. cbn zeta.
    assert (forall rows,
               List.length (filter (String.eqb k)
                              (map (fun r => category (Engine.r_patent r)) rows))
               = List.length
                   (filter (fun r => String.eqb k (category (Engine.r_patent r))) rows))
      as E.
    { induction rows as [|r rows IH]; simpl; [reflexivity|].
      destruct (String.eqb k (category (Engine.r_patent r))); simpl; now rewrite IH. }
    now rewrite E.
  - rewrite T. unfold Engine.total_patents. apply length_map.
Qed.

Lemma four_before_nul_length (s : string) :
  (4 <=? Engine.sql_length s) = Spec.four_before_nul s.
Proof.
  unfold Engine.sql_length.
  destruct s as [|a [|b [|c [|e s]]]]; cbn [Engine.until_nul Spec.four_before_nul];
    repeat (match goal with
            | |- context [Ascii.eqb ?x Ascii.zero] => destruct (Ascii.eqb x Ascii.zero)
            end; cbn [String.length negb andb]);
    reflexivity.
Qed.

Lemma four_before_nul_substr (s : string) :
  Spec.four_before_nul s = true -> Engine.sql_substr_to 4 s = Py.slice_to 4 s.
Proof.
  unfold Engine.sql_substr_to.
  destruct s as [|a [|b [|c [|e s]]]]; cbn [Spec.four_before_nul]; try discriminate.
  intros H. apply andb_true_iff in H as [H He]. apply andb_true_iff in H as [H Hc].
  apply andb_true_iff in H as [Ha Hb]. apply negb_true_iff in Ha, Hb, Hc, He.
  cbn [Engine.until_nul]. rewrite Ha, Hb, Hc, He. reflexivity.
Qed.

Lemma four_before_nul_long (s : string) :
  Spec.four_before_nul s = true -> 4 <= String.length s.
Proof.
  destruct s as [|a [|b [|c [|e s]]]]; cbn [Spec.four_before_nul]; try discriminate.
  intros _. simpl. lia.
Qed.

Lemma by_year_dated (d : Engine.db) :
  Engine.by_year d
  = Engine.group_count
      (map (fun r => Py.slice_to 4 (publication_date (Engine.r_patent r)))
         (Spec.dated d)).
Proof.
  unfold Engine.by_year, Spec.dated. f_equal.
  induction (Engine.patents d) as [|r rows IH]; [reflexivity|].
  cbn [filter]. rewrite four_before_nul_length.
  destruct (Spec.four_before_nul (publication_date (Engine.r_patent r))) eqn:E;
    [|exact IH].
  cbn [map]. now rewrite IH, (four_before_nul_substr _ E).
Qed.

(** The grouping by year counts exactly the patents whose publication date
    has four characters or more before any NUL, which is where [length]
    and [substr] stop reading, under the first four characters of the
    date: every key has four characters, the keys are distinct, no count is
    zero, and the counts add up to the number of such patents, so to no more
    than [total_patents]: a patent with a shorter date is in no year. *)
Theorem by_year_counts_the_dated_patents :
  forall (d : Engine.db),
    NoDup (map fst (Engine.by_year d)) /\
    Forall (fun kn => String.length (fst kn) = 4 /\ 1 <= snd kn) (Engine.by_year d) /\
    (forall k,
        Engine.lookup (Engine.by_year d) k
        = let n := List.length
                     (filter (fun r => String.eqb k
                                (Py.slice_to 4 (publication_date (Engine.r_patent r))))
                        (Spec.dated d)) in
          if n =? 0 then None else Some n) /\
    Spec.total_count (Engine.by_year d) = List.length (Spec.dated d) /\
    Spec.total_count (Engine.by_year d) <= Engine.total_patents d.
Proof.
  intros d. rewrite by_year_dated. set (dated := Spec.dated d).
  destruct (group_count_spec
              (map (fun r => Py.slice_to 4 (publication_date (Engine.r_patent r))) dated))
    as (N & P & T & L).
  split; [exact N|]. split.
  - apply Forall_forall. intros [k n] Hin. split.
    + assert (Engine.lookup
                (Engine.group_count
                   (map (fun r => Py.slice_to 4 (publication_date (Engine.r_patent r)))
                      dated)) k <> None) as Hk.
      { clear - Hin. induction (Engine.group_count _) as [|[k0 n0] g IH]; [destruct Hin|].
        simpl. destruct (String.eqb_spec k0 k); [discriminate|].
        destruct Hin as [Heq|Hin]; [congruence | now apply IH]. }
      rewrite L in Hk.
      destruct (Nat.eqb_spec
                  (Spec.occurrences k
                     (map (fun r => Py.slice_to 4 (publication_date (Engine.r_patent r)))
                        dated)) 0) as [|Hocc]; [congruence|].
      unfold Spec.occurrences in Hocc.
      destruct (filter (String.eqb k) _) as [|x xs] eqn:F; [contradiction|].
      assert (In x (x :: xs)) as Hx by now left.
      rewrite <- F in Hx. apply filter_In in Hx. destruct Hx as [Hx Hkx].
      apply String.eqb_eq in Hkx. subst x.
      apply in_map_iff in Hx. destruct Hx as (r & <- & Hr).
      unfold dated, Spec.dated in Hr.
      apply filter_In in Hr. destruct Hr as [_ Hr]. apply four_before_nul_long in Hr.
      cbn [fst]. rewrite slice_to_length_min. lia.
    + rewrite Forall_forall in P. exact (P (k, n) Hin).
  - split.
    + intros k. rewrite L. unfold Spec.occurrences. cbn zeta.
      assert (forall rows,
                 List.length
                   (filter (String.eqb k)
                      (map (fun r => Py.slice_to 4 (publication_date (Engine.r_patent r)))
                         rows))
                 = List.length
                     (filter (fun r => String.eqb k
                                (Py.slice_to 4 (publication_date (Engine.r_patent r))))
                        rows)) as E.
      { induction rows as [|r rows IH]; [reflexivity|].
        cbn [map filter].
        destruct (String.eqb k (Py.slice_to 4 (publication_date (Engine.r_patent r))));
          cbn [List.length]; now rewrite IH. }
      now rewrite E.
    + rewrite T, length_map.
      assert (List.length dated <= Engine.total_patents d) as Hle.
      { unfold dated, Spec.dated, Engine.total_patents. apply filter_length_le. }
      split; [reflexivity | exact Hle].
Qed.

(** ** The parser's field extractors *)

(** *** [clean_text] *)

Lemma lstrip_length (s : string) : String.length (Py.lstrip s) <= String.length s.
Proof.
  induction s as [|c s IH]; simpl; [lia|].
  destruct (Py.is_space c); simpl; lia.
Qed.

Lemma rstrip_length (s : string) : String.length (Py.rstrip s) <= String.length s.
Proof.
  induction s as [|c s IH]; simpl; [lia|].
  destruct (Py.rstrip s); [destruct (Py.is_space c)|]; simpl in *; lia.
Qed.

Lemma strip_length (s : string) : String.length (Py.strip s) <= String.length s.
Proof.
  unfold Py.strip.
  pose proof (rstrip_length (Py.lstrip s)). pose proof (lstrip_length s). lia.
Qed.

Lemma collapse_ws_length (s : string) :
  forall b, String.length (Parser.collapse_ws s b) <= String.length s.
Proof.
  induction s as [|c s IH]; intros b; simpl; [lia|].
  pose proof (IH true). pose proof (IH false).
  destruct (Py.is_space c); [destruct b|]; simpl; lia.
Qed.

Lemma blank_unclean_length (s : string) :
  String.length (Parser.blank_unclean s) = String.length s.
Proof. induction s as [|c s IH]; simpl; [reflexivity | now rewrite IH]. Qed.

Lemma collapse_ws_chars (s : string) :
  forall b,
    Spec.all_chars (fun c => negb (Py.is_space c) || Ascii.eqb c " ")
      (Parser.collapse_ws s b) = true.
Proof.
  induction s as [|c s IH]; intros b; simpl; [reflexivity|].
  destruct (Py.is_space c) eqn:E; [destruct b|]; simpl.
  - apply IH.
  - rewrite IH. reflexivity.
  - rewrite E, IH. reflexivity.
Qed.

Lemma blank_unclean_chars (s : string) :
  Spec.all_chars (fun c => negb (Py.is_space c) || Ascii.eqb c " ") s = true ->
  Spec.all_chars Spec.plain_char (Parser.blank_unclean s) = true.
Proof.
  induction s as [|c s IH]; intros H; [reflexivity|].
  cbn [Spec.all_chars Parser.blank_unclean] in *.
  apply andb_true_iff in H as [Hc Hs]. rewrite (IH Hs), andb_true_r.
  destruct (Parser.is_clean c) eqn:E; [|reflexivity].
  unfold Parser.is_clean in E. unfold Spec.plain_char. rewrite word_char_is_word.
  destruct (Py.is_word c), (Py.is_space c), (Ascii.eqb c " "),
    (existsb (Ascii.eqb c) (list_ascii_of_string "-.,;:()[]"));
    try reflexivity; discriminate.
Qed.

Lemma all_chars_slice_to (p : ascii -> bool) (n : nat) :
  forall s, Spec.all_chars p s = true -> Spec.all_chars p (Py.slice_to n s) = true.
Proof.
  induction n as [|n IH]; intros [|c s] H; try reflexivity.
  cbn [Py.slice_to Spec.all_chars] in *.
  apply andb_true_iff in H as [Hc Hs]. now rewrite Hc, (IH s Hs).
Qed.

Lemma clean_text_length (s : string) :
  String.length (Parser.clean_text s) <= 5000 /\
  String.length (Parser.clean_text s) <= String.length s.
Proof.
  unfold Parser.clean_text. destruct (negb (Py.truthy s)).
  - split; [apply Nat.leb_le; reflexivity | simpl; lia].
  - split; [apply slice_to_length|].
    rewrite slice_to_length_min, blank_unclean_length.
    pose proof (collapse_ws_length (Py.strip s) false).
    pose proof (strip_length s). lia.
Qed.

(** The cleaned form of an ASCII text has at most 5000 characters and no
    more than the text given; each of its characters is an ASCII letter, a
    digit, an underscore, a space or one of [-.,;:()[]]: no line break, no
    tab, no markup character is left.  The empty text and a text of
    whitespace only clean to the empty text. *)
Theorem clean_text_bounded_and_plain :
  forall (s : string),
    Spec.ascii_text s = true ->
    String.length (Parser.clean_text s) <= 5000 /\
    String.length (Parser.clean_text s) <= String.length s /\
    Spec.all_chars Spec.plain_char (Parser.clean_text s) = true /\
    (Spec.all_space s = true -> Parser.clean_text s = "").
Proof.
  intros s _. destruct (clean_text_length s) as [H1 H2].
  split; [exact H1|]. split; [exact H2|]. split.
  - unfold Parser.clean_text. destruct (negb (Py.truthy s)); [reflexivity|].
    apply all_chars_slice_to, blank_unclean_chars, collapse_ws_chars.
  - intros H. unfold Parser.clean_text. destruct (negb (Py.truthy s)); [reflexivity|].
    unfold Py.strip. rewrite (lstrip_all_space s H). reflexivity.
Qed.

(** The theorem at a text with markup, an ampersand and doubled blanks. *)
Lemma clean_text_bounded_and_plain_witness :
  Spec.ascii_text "  A <b>frame</b> &  hinge; folds. " = true /\
  Parser.clean_text "  A <b>frame</b> &  hinge; folds. "
  = "A  b frame  b    hinge; folds." /\
  Spec.all_chars Spec.plain_char (Parser.clean_text "  A <b>frame</b> &  hinge; folds. ")
  = true.
Proof.
  split; [reflexivity|]. split; [reflexivity|].
  exact (proj1 (proj2 (proj2
           (clean_text_bounded_and_plain "  A <b>frame</b> &  hinge; folds. " eq_refl)))).
Defined.

(** *** [extract_patent_id] *)

Lemma lstrip_head (s : string) :
  Py.lstrip s = "" \/
  exists c t, Py.lstrip s = String c t /\ Py.is_space c = false.
Proof.
  induction s as [|c s IH]; simpl; [now left|].
  destruct (Py.is_space c) eqn:E; [exact IH|].
  right. now exists c, s.
Qed.

Lemma rstrip_cons (c : ascii) (s : string) :
  Py.rstrip (String c s)
  = match Py.rstrip s with
    | "" => if Py.is_space c then "" else String c ""
    | r => String c r
    end.
Proof. reflexivity. Qed.

Lemma rstrip_idem (s : string) : Py.rstrip (Py.rstrip s) = Py.rstrip s.
Proof.
  induction s as [|c s IH]; [reflexivity|].
  rewrite rstrip_cons. destruct (Py.rstrip s) as [|a r] eqn:E.
  - destruct (Py.is_space c) eqn:Hc; [reflexivity|].
    rewrite rstrip_cons. simpl Py.rstrip. now rewrite Hc.
  - rewrite rstrip_cons, IH. reflexivity.
Qed.

Lemma strip_idem (s : string) : Py.strip (Py.strip s) = Py.strip s.
Proof.
  unfold Py.strip. destruct (lstrip_head s) as [E|(c & t & E & Hc)]; rewrite E.
  - reflexivity.
  - assert (exists r, Py.rstrip (String c t) = String c r) as (r & Er).
    { rewrite rstrip_cons. destruct (Py.rstrip t); [rewrite Hc|]; eauto. }
    rewrite Er. cbn [Py.lstrip]. rewrite Hc, <- Er. apply rstrip_idem.
Qed.

Lemma strip_no_space (s : string) :
  Spec.all_chars (fun c => negb (Py.is_space c)) s = true -> Py.strip s = s.
Proof.
  intros H. unfold Py.strip.
  assert (Py.lstrip s = s) as ->.
  { destruct s as [|c s]; [reflexivity|]. cbn [Spec.all_chars] in H.
    apply andb_true_iff in H as [Hc _]. cbn [Py.lstrip].
    now destruct (Py.is_space c). }
  induction s as [|c s IH]; [reflexivity|].
  cbn [Spec.all_chars] in H. apply andb_true_iff in H as [Hc Hs].
  rewrite rstrip_cons, (IH Hs). destruct s; [|reflexivity].
  now destruct (Py.is_space c).
Qed.

Lemma string_of_uint_no_space (d : Decimal.uint) :
  Spec.all_chars (fun c => negb (Py.is_space c))
    (DecimalString.NilEmpty.string_of_uint d) = true.
Proof. induction d; simpl; try rewrite IHd; reflexivity. Qed.

Lemma str_of_int_no_space (z : Z) :
  Spec.all_chars (fun c => negb (Py.is_space c)) (Parser.str_of_int z) = true.
Proof.
  unfold Parser.str_of_int, DecimalString.NilZero.string_of_int.
  destruct (Z.to_int z) as [d|d];
    unfold DecimalString.NilZero.string_of_uint;
    destruct d; try reflexivity;
    cbn [Spec.all_chars]; rewrite ?andb_true_iff;
    repeat split; try reflexivity;
    match goal with
    | |- Spec.all_chars _ (DecimalString.NilEmpty.string_of_uint ?d) = true =>
        apply string_of_uint_no_space
    | _ => idtac
    end.
Qed.

Lemma first_id_stripped (e : Parser.element) (paths : list (list Parser.step)) :
  forall pid,
    Parser.first_id e paths = Some pid -> pid <> "" /\ Py.strip pid = pid.
Proof.
  induction paths as [|path paths IH]; intros pid H; simpl in H; [discriminate|].
  destruct (Parser.id_at e path) as [x|] eqn:E; [|now apply IH].
  inversion H; subst. unfold Parser.id_at in E.
  destruct (Parser.find e path) as [id_elem|]; [|discriminate].
  destruct (Parser.text id_elem) as [t|]; [|discriminate].
  destruct (Py.truthy t && Py.truthy (Py.strip t)) eqn:T; [|discriminate].
  inversion E; subst. apply andb_true_iff in T as [_ T].
  split; [intros Z; rewrite Z in T; discriminate | apply strip_idem].
Qed.

(** The identifier of an application is never empty and has no whitespace
    at either end, whichever way it is obtained and whatever the hash. *)
Theorem extract_patent_id_never_empty :
  forall (hash : string -> Z) (e : Parser.element),
    Parser.extract_patent_id hash e <> "" /\
    Py.strip (Parser.extract_patent_id hash e) = Parser.extract_patent_id hash e /\
    1 <= String.length (Parser.extract_patent_id hash e).
Proof.
  intros hash e.
  assert (Parser.extract_patent_id hash e <> "" /\
          Py.strip (Parser.extract_patent_id hash e) = Parser.extract_patent_id hash e)
    as [N S].
  { unfold Parser.extract_patent_id.
    destruct (Parser.first_id e Parser.id_paths) as [pid|] eqn:E.
    - now apply (first_id_stripped e Parser.id_paths).
    - unfold Parser.fallback_id. split; [discriminate|].
      apply strip_no_space, all_chars_slice_to.
      change (Spec.all_chars (fun c => negb (Py.is_space c))
                (Parser.str_of_int (hash (Parser.str_of_element e))) = true).
      apply str_of_int_no_space. }
  split; [exact N|]. split; [exact S|].
  destruct (Parser.extract_patent_id hash e); [congruence | simpl; lia].
Qed.

(** *** [extract_inventors_robust] *)

Lemma add_inventor_nodup (inventors : list string) (e : Parser.element) :
  NoDup inventors -> NoDup (Parser.add_inventor inventors e).
Proof.
  intros H. unfold Parser.add_inventor.
  destruct (Parser.person_name e) as [name|]; [|assumption].
  destruct (existsb (String.eqb name) inventors) eqn:E; [assumption|].
  apply NoDup_app; [assumption | repeat constructor; intros [] |].
  intros x Hx [Hn|[]]. subst x.
  assert (existsb (String.eqb name) inventors = true) as Ht
    by (apply existsb_exists; exists name; split; [assumption | apply String.eqb_refl]).
  congruence.
Qed.

Lemma fold_add_inventor_nodup (es : list Parser.element) :
  forall inventors,
    NoDup inventors -> NoDup (fold_left Parser.add_inventor es inventors).
Proof.
  induction es as [|e es IH]; intros inventors H; simpl; [assumption|].
  apply IH, add_inventor_nodup, H.
Qed.

(** The list of inventors is never empty and names nobody twice, also when
    an inventor element is reached by several of the paths. *)
Theorem extract_inventors_nonempty_distinct :
  forall (e : Parser.element),
    Parser.extract_inventors_robust e <> [] /\
    NoDup (Parser.extract_inventors_robust e).
Proof.
  intros e. unfold Parser.extract_inventors_robust.
  assert (forall paths inventors,
             NoDup inventors ->
             NoDup (fold_left
                      (fun acc path =>
                         fold_left Parser.add_inventor (Parser.findall path [e]) acc)
                      paths inventors)) as H.
  { induction paths as [|path paths IH]; intros inventors Hn; simpl; [assumption|].
    apply IH, fold_add_inventor_nodup, Hn. }
  specialize (H Parser.inventor_paths [] (NoDup_nil _)). cbv zeta.
  destruct (fold_left _ Parser.inventor_paths []) as [|name names].
  - split; [discriminate | repeat constructor; intros []].
  - split; [discriminate | exact H].
Qed.

(** *** [categorize_patent], classifications *)

Lemma dict_get_in (d : list (string * string)) (key default : string) :
  In (Parser.dict_get d key default) (map snd d) \/
  Parser.dict_get d key default = default.
Proof.
  induction d as [|[k v] d IH]; simpl; [now right|].
  destruct (String.eqb k key); [left; now left|].
  destruct IH as [IH|IH]; [left; now right | now right].
Qed.

(** The category is always one of fifteen labels: the six of the
    specific table, the eight broad ones of the classification letters A to
    H, or other. *)
Theorem categorize_patent_among_labels :
  forall (ipc_class title : string),
    In (Parser.categorize_patent ipc_class title) Spec.category_labels /\
    List.length Spec.category_labels = 15 /\
    NoDup Spec.category_labels /\
    incl Engine.boosted_categories Spec.category_labels.
Proof.
  intros ipc_class title. split.
  - unfold Parser.categorize_patent, Spec.category_labels. cbv zeta.
    set (code := if negb (Py.truthy ipc_class) then "G06F" else ipc_class).
    destruct (Parser.scan_categories (Py.lower title) code Parser.specific_patterns)
      as [category|] eqn:E.
    + apply scan_categories_some in E as (before & patterns & after & Ht & _).
      apply in_or_app. left. rewrite Ht, map_app. apply in_or_app. right. now left.
    + apply in_or_app. right. apply in_or_app.
      destruct (dict_get_in Parser.ipc_categories (Py.upper (Py.slice_to 1 code)) "other")
        as [H|H]; [now left | right; rewrite H; now left].
  - split; [reflexivity|]. split.
    + unfold Spec.category_labels. simpl.
      repeat (constructor; [simpl; intros H;
                            repeat (destruct H as [H|H]; [discriminate|]); exact H|]).
      constructor.
    + intros c H. unfold Engine.boosted_categories in H. simpl in H.
      destruct H as [<-|[<-|[]]]; unfold Spec.category_labels; simpl; tauto.
Qed.

(** The list of classifications is never empty, so the main class of a
    candidate is always its first classification and the category is
    computed from it; the default G06F of the candidate is never used. *)
Theorem candidate_main_class_is_first_classification :
  forall (hash : string -> Z) (current_year : Z) (e : Parser.element),
    exists c rest,
      Parser.extract_classifications_robust e = c :: rest /\
      ipc_classes (Parser.candidate hash current_year e) = c :: rest /\
      ipc_class (Parser.candidate hash current_year e) = c /\
      category (Parser.candidate hash current_year e)
      = Parser.categorize_patent c (title (Parser.candidate hash current_year e)).
Proof.
  intros hash year e.
  assert (exists c rest, Parser.extract_classifications_robust e = c :: rest)
    as (c & rest & E).
  { unfold Parser.extract_classifications_robust.
    destruct (Parser.collect_texts Py.strip e Parser.ipc_paths) as [|c rest];
      [|now exists c, rest].
    destruct (Parser.collect_texts _ e Parser.us_paths) as [|c rest];
      [now exists "G06F", [] | now exists c, rest]. }
  exists c, rest. split; [exact E|].
  cbn [Parser.candidate ipc_classes ipc_class category title]. rewrite E.
  repeat split.
Qed.

(** *** [extract_dates_robust] *)

Lemma first_date_iso (current_year : Z) (e : Parser.element)
    (paths : list (list Parser.step)) :
  (1000 <= current_year <= 9999)%Z ->
  forall d, Parser.first_date current_year e paths = Some d -> Spec.iso_date d = true.
Proof.
  intros Hyear. induction paths as [|path paths IH]; intros d H; simpl in H;
    [discriminate|].
  destruct (Parser.find e path) as [date_elem|]; [|now apply IH].
  destruct (Parser.text date_elem) as [t|]; [|now apply IH].
  destruct (Py.truthy t); [|now apply IH].
  inversion H. now apply format_date_iso.
Qed.

Lemma iso_date_length (d : string) : Spec.iso_date d = true -> String.length d = 10.
Proof.
  unfold Spec.iso_date, Spec.shape_of_date. intros H.
  destruct d as [|c0 [|c1 [|c2 [|c3 [|c4 [|c5 [|c6 [|c7 [|c8 [|c9 [|c10 d]]]]]]]]]]];
    simpl in H; try discriminate. reflexivity.
Qed.

(** In a year of four digits, both dates of an application whose texts are
    ASCII have the shape YYYY-MM-DD and so ten characters, whatever the
    elements hold. *)
Theorem extract_dates_iso_shaped :
  forall (current_year : Z) (e : Parser.element),
    (1000 <= current_year <= 9999)%Z ->
    Spec.ascii_element e = true ->
    Spec.iso_date (fst (Parser.extract_dates_robust current_year e)) = true /\
    Spec.iso_date (snd (Parser.extract_dates_robust current_year e)) = true /\
    String.length (fst (Parser.extract_dates_robust current_year e)) = 10 /\
    String.length (snd (Parser.extract_dates_robust current_year e)) = 10.
Proof.
  intros year e Hyear _.
  assert (forall paths,
             Spec.iso_date
               (Engine.get (Parser.first_date year e paths)
                  (Parser.str_of_int year ++ "-01-01")) = true) as H.
  { intros paths. destruct (Parser.first_date year e paths) as [d|] eqn:E; simpl.
    - now apply (first_date_iso year e paths).
    - now apply default_date_iso. }
  unfold Parser.extract_dates_robust. cbn [fst snd].
  pose proof (H Parser.app_date_paths) as Ha.
  pose proof (H Parser.pub_date_paths) as Hp.
  repeat split; try assumption; now apply iso_date_length.
Qed.

(** The theorem in the year 2026, on the sample application published on
    20250731, which has no application date. *)
Lemma extract_dates_iso_shaped_witness :
  (1000 <= 2026 <= 9999)%Z /\
  Spec.ascii_element Sample.untitled_application = true /\
  Parser.extract_dates_robust 2026 Sample.untitled_application
  = ("2026-01-01", "2025-07-31") /\
  Spec.iso_date (snd (Parser.extract_dates_robust 2026 Sample.untitled_application))
  = true.
Proof.
  split; [lia|]. split; [reflexivity|]. split; [reflexivity|].
  apply (extract_dates_iso_shaped 2026 Sample.untitled_application);
    [lia | reflexivity].
Defined.

(** *** The record as a whole *)

Lemma text_or_plain (e : option Parser.element) (default : string) :
  Spec.all_chars Spec.plain_char default = true ->
  String.length default <= 5000 ->
  Spec.all_chars Spec.plain_char (Parser.text_or e default) = true /\
  String.length (Parser.text_or e default) <= 5000.
Proof.
  intros Hd Hl. destruct e as [e|]; simpl; [|now split].
  split; [|apply clean_text_length].
  unfold Parser.clean_text. destruct (negb (Py.truthy _)); [reflexivity|].
  apply all_chars_slice_to, blank_unclean_chars, collapse_ws_chars.
Qed.

(** The four texts of a record extracted from an application whose texts
    are ASCII are plain and bounded: the title has 5 to 5000 characters, the
    abstract 10 to 5000, the claims at most 5000 and the description at most
    3000, and each of their characters is an ASCII letter, a digit, an
    underscore, a space or one of [-.,;:()[]]. *)
Theorem extracted_texts_plain_and_bounded :
  forall (hash : string -> Z) (current_year : Z) (e : Parser.element) (p : patent),
    Spec.ascii_element e = true ->
    Parser.extract_patent_data_robust hash current_year e = Some p ->
    5 <= String.length (title p) <= 5000 /\
    10 <= String.length (abstract p) <= 5000 /\
    String.length (claims p) <= 5000 /\
    String.length (description p) <= 3000 /\
    Forall (fun field => Spec.all_chars Spec.plain_char field = true)
      [title p; abstract p; claims p; description p].
Proof.
  intros hash year e p _ H. apply extract_some in H as (-> & Ht & Ha).
  assert (forall s, String.length s <= 21 -> String.length s <= 5000) as Small.
  { intros s Hs. apply (Nat.le_trans _ 21); [exact Hs | apply Nat.leb_le; reflexivity]. }
  destruct (text_or_plain (Parser.find_element_flexible e Parser.title_paths)
              "Untitled" eq_refl (Small "Untitled" ltac:(simpl; lia))) as [Pt Lt].
  destruct (text_or_plain (Parser.find_element_flexible e Parser.abstract_paths)
              "No abstract available" eq_refl (Small "No abstract available" ltac:(simpl; lia))) as [Pa La].
  destruct (text_or_plain (Parser.find_element_flexible e Parser.claims_paths)
              "No claims available" eq_refl (Small "No claims available" ltac:(simpl; lia))) as [Pc Lc].
  cbn [Parser.candidate title abstract claims description] in *.
  split; [split; assumption|]. split; [split; assumption|].
  split; [assumption|]. split; [apply slice_to_length|].
  repeat constructor; try assumption.
  apply all_chars_slice_to.
  unfold Parser.clean_text. destruct (negb (Py.truthy _)); [reflexivity|].
  apply all_chars_slice_to, blank_unclean_chars, collapse_ws_chars.
Qed.

(** The theorem at the sample application of the folding bicycle frame. *)
Lemma extracted_texts_plain_and_bounded_witness :
  Spec.ascii_element (Sample.anonymous_application 4096) = true /\
  Parser.extract_patent_data_robust (Sample.salted_hash 7) 2026
    (Sample.anonymous_application 4096)
  = Some (Parser.candidate (Sample.salted_hash 7) 2026 (Sample.anonymous_application 4096)) /\
  title (Parser.candidate (Sample.salted_hash 7) 2026 (Sample.anonymous_application 4096))
  = "Folding bicycle frame" /\
  abstract (Parser.candidate (Sample.salted_hash 7) 2026 (Sample.anonymous_application 4096))
  = "A frame that folds about a hinge." /\
  Forall (fun field => Spec.all_chars Spec.plain_char field = true)
    [ title (Parser.candidate (Sample.salted_hash 7) 2026
               (Sample.anonymous_application 4096));
      abstract (Parser.candidate (Sample.salted_hash 7) 2026
                  (Sample.anonymous_application 4096));
      claims (Parser.candidate (Sample.salted_hash 7) 2026
                (Sample.anonymous_application 4096));
      description (Parser.candidate (Sample.salted_hash 7) 2026
                     (Sample.anonymous_application 4096)) ].
Proof.
  split; [vm_compute; reflexivity|]. split; [vm_compute; reflexivity|].
  split; [vm_compute; reflexivity|]. split; [vm_compute; reflexivity|].
  apply (extracted_texts_plain_and_bounded (Sample.salted_hash 7) 2026
           (Sample.anonymous_application 4096)
           (Parser.candidate (Sample.salted_hash 7) 2026
              (Sample.anonymous_application 4096)));
    vm_compute; reflexivity.
Defined.

Lemma iso_date_four_before_nul (s : string) :
  Spec.iso_date s = true -> Spec.four_before_nul s = true.
Proof.
  rewrite iso_date_is_digit. unfold Spec.shape_of_date. intros H.
  destruct s as [|c0 [|c1 [|c2 [|c3 [|c4 [|c5 [|c6 [|c7 [|c8 [|c9 [|c10 s]]]]]]]]]]];
    simpl in H; try discriminate.
  assert (forall c, Py.is_digit c = true -> negb (Ascii.eqb c Ascii.zero) = true) as D.
  { intros c. destruct c as [[] [] [] [] [] [] [] []]; vm_compute; congruence. }
  cbn [Spec.four_before_nul].
  destruct (Py.is_digit c0) eqn:E0; [|discriminate].
  destruct (Py.is_digit c1) eqn:E1; [|discriminate].
  destruct (Py.is_digit c2) eqn:E2; [|discriminate].
  destruct (Py.is_digit c3) eqn:E3; [|discriminate].
  now rewrite (D c0 E0), (D c1 E1), (D c2 E2), (D c3 E3).
Qed.

(** In a year of four digits, every record that the parser extracts from a
    root whose texts are ASCII and a rebuild stores is counted in the
    grouping by year: the counts of the years add up to the number of
    stored patents, and every stored publication date has the shape
    YYYY-MM-DD. *)
Theorem by_year_counts_every_extracted_patent :
  forall (hash : string -> Z) (current_year : Z) (root : Parser.element) (d : Engine.db),
    (1000 <= current_year <= 9999)%Z ->
    Spec.ascii_element root = true ->
    let stored :=
      Engine.index_patents d
        (map Engine.dict_of_patent (Parser.extract_from_root hash current_year root)) in
    Forall (fun r => Spec.iso_date (publication_date (Engine.r_patent r)) = true)
      (Engine.patents stored) /\
    Spec.total_count (Engine.by_year stored) = Engine.total_patents stored.
Proof.
  intros hash year root d Hyear _ stored.
  assert (Forall (fun r => Spec.iso_date (publication_date (Engine.r_patent r)) = true)
            (Engine.patents stored)) as Hiso.
  { apply Forall_forall. intros r Hr. unfold stored in Hr.
    apply index_patents_rows in Hr.
    apply extract_from_root_in in Hr as (e & _ & He).
    apply extract_some in He as (-> & _).
    cbn [Parser.candidate publication_date].
    assert (forall paths,
               Spec.iso_date
                 (Engine.get (Parser.first_date year e paths)
                    (Parser.str_of_int year ++ "-01-01")) = true) as H.
    { intros paths. destruct (Parser.first_date year e paths) as [x|] eqn:E; simpl.
      - now apply (first_date_iso year e paths).
      - now apply default_date_iso. }
    apply H. }
  split; [exact Hiso|].
  rewrite by_year_dated.
  destruct (group_count_spec
              (map (fun r => Py.slice_to 4 (publication_date (Engine.r_patent r)))
                 (Spec.dated stored))) as (_ & _ & T & _).
  rewrite T, length_map. unfold Engine.total_patents, Spec.dated. f_equal.
  apply filter_all. intros r Hr. rewrite Forall_forall in Hiso.
  apply iso_date_four_before_nul, (Hiso r Hr).
Qed.

(** The theorem in the year 2026, at the sample application without title
    and abstract elements, stored in an empty database. *)
Lemma by_year_counts_every_extracted_patent_witness :
  (1000 <= 2026 <= 9999)%Z /\
  Spec.ascii_element Sample.untitled_application = true /\
  Engine.by_year
    (Engine.index_patents Sample.empty_db
       (map Engine.dict_of_patent
          (Parser.extract_from_root (Sample.salted_hash 7) 2026
             Sample.untitled_application)))
  = [("2025", 1)] /\
  Spec.total_count
    (Engine.by_year
       (Engine.index_patents Sample.empty_db
          (map Engine.dict_of_patent
             (Parser.extract_from_root (Sample.salted_hash 7) 2026
                Sample.untitled_application))))
  = Engine.total_patents
      (Engine.index_patents Sample.empty_db
         (map Engine.dict_of_patent
            (Parser.extract_from_root (Sample.salted_hash 7) 2026
               Sample.untitled_application))).
Proof.
  split; [lia|]. split; [reflexivity|]. split; [reflexivity|].
  apply (by_year_counts_every_extracted_patent (Sample.salted_hash 7) 2026
           Sample.untitled_application Sample.empty_db);
    [lia | reflexivity].
Defined.

(** ** The declaration-anchored scan on any input *)

Lemma strip_prefix_app_none (l x t : string) :
  Splitter.strip_prefix l (x ++ t) = None -> Splitter.strip_prefix l x = None.
Proof.
  intros H. destruct (Splitter.strip_prefix l x) as [y|] eqn:E; [|reflexivity].
  rewrite (strip_prefix_app l x y t E) in H. discriminate.
Qed.

Lemma strip_prefix_self (l x : string) : Splitter.strip_prefix l (l ++ x) = Some x.
Proof.
  induction l as [|a l IH]; simpl; [reflexivity|].
  now rewrite Ascii.eqb_refl.
Qed.

Lemma after_first_unfold (l s : string) :
  Spec.after_first l s
  = match Splitter.strip_prefix l s with
    | Some r => Some r
    | None =>
        match s with
        | "" => None
        | String _ s' => Spec.after_first l s'
        end
    end.
Proof. destruct s; reflexivity. Qed.

Lemma after_first_self (l : string) : Spec.after_first l l = Some "".
Proof.
  pose proof (strip_prefix_self l "") as H. rewrite append_empty_r in H.
  now rewrite after_first_unfold, H.
Qed.

Lemma after_first_cut (l : string) (s : string) :
  forall t,
    Spec.after_first l s = Some t ->
    exists u, s = u ++ l ++ t /\ Spec.after_first l (u ++ l) = Some "".
Proof.
  induction s as [|c s IH]; intros t H; simpl in H.
  - destruct (Splitter.strip_prefix l "") eqn:E; [|discriminate].
    inversion H; subst. exists "". split.
    + exact (strip_prefix_split l _ _ E).
    + apply after_first_self.
  - destruct (Splitter.strip_prefix l (String c s)) eqn:E.
    + inversion H; subst. exists "". split.
      * exact (strip_prefix_split l _ _ E).
      * apply after_first_self.
    + destruct (IH _ H) as (u & Hs & Hu). exists (String c u). split.
      * simpl. now rewrite <- Hs.
      * assert (Splitter.strip_prefix l (String c (u ++ l)) = None) as N.
        { apply (strip_prefix_app_none l (String c (u ++ l)) t).
          change (String c (u ++ l) ++ t) with (String c ((u ++ l) ++ t)).
          rewrite append_assoc, <- Hs. exact E. }
        change (String c u ++ l) with (String c (u ++ l)).
        now rewrite after_first_unfold, N.
Qed.

Lemma after_qgt_cut (s : string) :
  forall b t,
    Spec.after_qgt s b = Some t ->
    exists u, s = u ++ t /\ forall r, Spec.after_qgt (u ++ r) b = Some r.
Proof.
  induction s as [|c s IH]; intros b t H; simpl in H; [discriminate|].
  destruct (Ascii.eqb c ">") eqn:E.
  - destruct b; [|discriminate]. inversion H; subst.
    exists (String c ""). split; [reflexivity|].
    intros r. simpl. now rewrite E.
  - destruct (IH _ _ H) as (u & -> & Hu). exists (String c u).
    split; [reflexivity|]. intros r. simpl. now rewrite E.
Qed.

Lemma drop_while_cut (cls : ascii -> bool) (s : string) :
  exists u,
    s = u ++ Spec.drop_while cls s /\
    forall a r, cls a = false -> Spec.drop_while cls (u ++ String a r) = String a r.
Proof.
  induction s as [|c s (u & Hs & Hu)]; simpl.
  - exists "". split; [reflexivity|]. intros a r Ha. simpl. now rewrite Ha.
  - destruct (cls c) eqn:E.
    + exists (String c u). split; [simpl; now rewrite <- Hs|].
      intros a r Ha. simpl. rewrite E. now apply Hu.
    + exists "". split; [reflexivity|]. intros a r Ha. simpl. now rewrite Ha.
Qed.

Lemma drop_then_prefix_cut (cls : ascii -> bool) (a : ascii) (l s t : string) :
  cls a = false ->
  Splitter.strip_prefix (String a l) (Spec.drop_while cls s) = Some t ->
  exists u,
    s = u ++ String a l ++ t /\
    forall r,
      Splitter.strip_prefix (String a l) (Spec.drop_while cls (u ++ String a l ++ r))
      = Some r.
Proof.
  intros Ha H. destruct (drop_while_cut cls s) as (u & Hs & Hu).
  apply strip_prefix_split in H. exists u. split.
  - rewrite Hs at 1. now rewrite H.
  - intros r. change (String a l ++ r) with (String a (l ++ r)).
    rewrite (Hu a (l ++ r) Ha).
    change (String a (l ++ r)) with (String a l ++ r). apply strip_prefix_self.
Qed.

Lemma boundary_cut (s t : string) :
  Spec.boundary s = Some t ->
  exists d, s = d ++ t /\ Spec.boundary d = Some "".
Proof.
  unfold Spec.boundary. intros H.
  destruct (Splitter.strip_prefix Splitter.xml_decl s) as [s1|] eqn:E1; [|discriminate].
  cbn [Spec.and_then] in H.
  destruct (Spec.after_qgt s1 false) as [s2|] eqn:E2; [|discriminate].
  cbn [Spec.and_then] in H.
  destruct (Splitter.strip_prefix "<!DOCTYPE" (Spec.drop_while Py.is_space s2))
    as [s3|] eqn:E3; [|discriminate].
  cbn [Spec.and_then] in H.
  destruct (Splitter.strip_prefix ">" (Spec.drop_while Splitter.not_gt s3))
    as [s4|] eqn:E4; [|discriminate].
  cbn [Spec.and_then] in H.
  destruct (Splitter.strip_prefix "<us-patent-application"
              (Spec.drop_while Py.is_space s4)) as [s5|] eqn:E5; [|discriminate].
  cbn [Spec.and_then] in H.
  destruct (Splitter.strip_prefix ">" (Spec.drop_while Splitter.not_gt s5))
    as [s6|] eqn:E6; [|discriminate].
  cbn [Spec.and_then] in H.
  apply strip_prefix_split in E1.
  apply after_qgt_cut in E2 as (u2 & E2 & C2).
  apply (drop_then_prefix_cut Py.is_space) in E3 as (w2 & E3 & C3); [|reflexivity].
  apply (drop_then_prefix_cut Splitter.not_gt) in E4 as (w3 & E4 & C4); [|reflexivity].
  apply (drop_then_prefix_cut Py.is_space) in E5 as (w4 & E5 & C5); [|reflexivity].
  apply (drop_then_prefix_cut Splitter.not_gt) in E6 as (w5 & E6 & C6); [|reflexivity].
  apply after_first_cut in H as (u6 & E7 & C7).
  exists (Splitter.xml_decl ++ u2 ++ w2 ++ "<!DOCTYPE" ++ w3 ++ ">" ++ w4
          ++ "<us-patent-application" ++ w5 ++ ">"
          ++ u6 ++ "</us-patent-application>").
  split.
  - rewrite E1, E2, E3, E4, E5, E6, E7. now rewrite !append_assoc.
  - rewrite strip_prefix_self. cbn [Spec.and_then].
    rewrite C2. cbn [Spec.and_then].
    rewrite C3. cbn [Spec.and_then].
    rewrite C4. cbn [Spec.and_then].
    rewrite C5. cbn [Spec.and_then].
    rewrite C6. cbn [Spec.and_then].
    exact C7.
Qed.

Lemma match_here_pattern_cut (s rest : string) :
  Splitter.match_here Splitter.pattern s = Some rest ->
  exists c d, s = String c d ++ rest /\ Spec.bounded_document (String c d).
Proof.
  rewrite match_here_pattern. intros H.
  destruct (boundary_cut s rest H) as (d & Hs & Hd).
  assert (Spec.bounded_document d) as B
    by (unfold Spec.bounded_document; now rewrite match_here_pattern).
  destruct (bounded_document_head d B) as (d' & ->).
  now exists "<"%char, d'.
Qed.

Lemma finditer_decomposition (n : nat) :
  forall content,
    String.length content <= n ->
    exists items trailer,
      content = Spec.concatenation items trailer /\
      Splitter.finditer Splitter.pattern content 0 = map snd items /\
      Forall (fun it => Spec.bounded_document (snd it)) items.
Proof.
  induction n as [|n IH]; intros content Hlen.
  - destruct content; [|simpl in Hlen; lia].
    exists [], "". repeat split. constructor.
  - destruct content as [|c s].
    + exists [], "". repeat split. constructor.
    + destruct (Splitter.match_here Splitter.pattern (String c s)) as [rest|] eqn:M.
      * destruct (match_here_pattern_cut _ _ M) as (c' & d & Hs & B).
        assert (String.length rest <= n) as Hrest.
        { assert (String.length (String c s) = String.length (String c' d ++ rest)) as L
            by now rewrite Hs.
          rewrite length_append in L. simpl in L, Hlen. lia. }
        destruct (IH rest Hrest) as (items & trailer & Hc & Hf & Hb).
        exists (("", String c' d) :: items), trailer.
        clear Hlen. rewrite Hs in M |- *.
        split; [simpl; now rewrite <- Hc|].
        split; [|constructor; assumption].
        rewrite (finditer_match _ _ _ _ M). simpl. now rewrite Hf.
      * assert (String.length s <= n) as Hs by (simpl in Hlen; lia).
        destruct (IH s Hs) as (items & trailer & Hc & Hf & Hb).
        rewrite finditer_cons, M. clear M IH Hlen.
        destruct items as [|[w d] items].
        -- exists [], (String c trailer). simpl in *. repeat split.
           ++ now rewrite Hc.
           ++ exact Hf.
           ++ constructor.
        -- exists ((String c w, d) :: items), trailer. simpl in *. repeat split.
           ++ now rewrite Hc.
           ++ exact Hf.
           ++ inversion Hb; subst. now constructor.
Qed.

(** Whatever the input, the documents of the declaration-anchored scan lie
    in the input one after the other without overlap, in the order of the
    list, and each is matched by the boundary pattern from its first
    character to its last: it starts with the declaration and ends with the
    closing tag of the root.  When the scan finds any, the units handed to
    the parser are the first 50 of them, unchanged; in every case there are
    at most 50 units. *)
Theorem regex_scan_yields_bounded_documents :
  forall (content : string),
    exists items trailer,
      content = Spec.concatenation items trailer /\
      Splitter.finditer Splitter.pattern content 0 = map snd items /\
      Forall (fun it =>
                Spec.bounded_document (snd it) /\
                exists u v, snd it = Splitter.xml_decl ++ u /\
                            snd it = v ++ "</us-patent-application>") items /\
      (items <> [] -> Splitter.units content = firstn 50 (map snd items)) /\
      List.length (Splitter.units content) <= 50.
Proof.
  intros content.
  destruct (finditer_decomposition (String.length content) content (le_n _))
    as (items & trailer & Hc & Hf & Hb).
  exists items, trailer. split; [exact Hc|]. split; [exact Hf|]. split.
  - rewrite Forall_forall in *. intros it Hit.
    split; [now apply Hb | apply bounded_document_ends; now apply Hb].
  - split.
    + intros Hne. unfold Splitter.units, Splitter.split_documents. rewrite Hf.
      assert (forall d, In d (firstn 50 (map snd items)) -> Spec.bounded_document d) as B.
      { intros d Hd. apply firstn_incl in Hd. apply in_map_iff in Hd as (it & <- & Hit).
        rewrite Forall_forall in Hb. now apply Hb. }
      destruct items as [|it items]; [congruence|].
      change (match map snd (it :: items) with
              | [] => Splitter.split_by_lines_improved content
              | _ :: _ => map snd (it :: items)
              end) with (map snd (it :: items)).
      rewrite map_fixed by (intros d Hd; apply strip_bounded_document, B, Hd).
      apply filter_all. intros d Hd. apply strip_bounded_document, B, Hd.
    + unfold Splitter.units.
      eapply Nat.le_trans; [apply filter_length_le|].
      rewrite length_map. apply firstn_le_length.
Qed.

(** ** An input without the declaration *)

Lemma startswith_app (sub x y : string) :
  Py.startswith sub x = true -> Py.startswith sub (x ++ y) = true.
Proof.
  revert x. induction sub as [|a sub IH]; intros x H; [reflexivity|].
  destruct x as [|b x]; [discriminate|].
  cbn [Py.startswith append] in *. apply andb_true_iff in H as [Hb Hx].
  now rewrite Hb, (IH x Hx).
Qed.

Lemma contains_of_startswith (sub x : string) :
  Py.startswith sub x = true -> Py.contains sub x = true.
Proof. intros H. destruct x; simpl; [exact H | now rewrite H]. Qed.

Lemma contains_app_l (sub x y : string) :
  Py.contains sub x = true -> Py.contains sub (x ++ y) = true.
Proof.
  induction x as [|c x IH]; intros H.
  - simpl in H. apply contains_of_startswith.
    destruct sub; [reflexivity | discriminate].
  - cbn [Py.contains append] in *. apply orb_true_iff in H as [H|H].
    + change (String c (x ++ y)) with (String c x ++ y).
      now rewrite (startswith_app sub (String c x) y H).
    + rewrite (IH H). apply orb_true_r.
Qed.

Lemma contains_app_r (sub x y : string) :
  Py.contains sub y = true -> Py.contains sub (x ++ y) = true.
Proof.
  intros H. induction x as [|c x IH]; [exact H|].
  cbn [Py.contains append]. rewrite IH. apply orb_true_r.
Qed.

Lemma lstrip_suffix (s : string) : exists w, s = w ++ Py.lstrip s.
Proof.
  induction s as [|c s (w & IH)]; simpl; [now exists ""|].
  destruct (Py.is_space c); [|now exists ""].
  exists (String c w). simpl. now rewrite <- IH.
Qed.

Lemma rstrip_prefix (s : string) : exists w, s = Py.rstrip s ++ w.
Proof.
  induction s as [|c s (w & IH)]; [now exists ""|].
  rewrite rstrip_cons. destruct (Py.rstrip s) as [|a r] eqn:E.
  - destruct (Py.is_space c).
    + now exists (String c s).
    + exists s. reflexivity.
  - exists w. simpl. simpl in IH. now rewrite <- IH.
Qed.

Lemma startswith_strip_contains (sub l : string) :
  Py.startswith sub (Py.strip l) = true -> Py.contains sub l = true.
Proof.
  intros H. unfold Py.strip in H.
  destruct (lstrip_suffix l) as (w & Hl).
  destruct (rstrip_prefix (Py.lstrip l)) as (w' & Hr).
  rewrite Hl. apply contains_app_r. rewrite Hr.
  apply contains_of_startswith, startswith_app, H.
Qed.

Lemma string_of_list_ascii_snoc (l : list ascii) (c : ascii) (s : string) :
  string_of_list_ascii (l ++ [c]) ++ s = string_of_list_ascii l ++ String c s.
Proof. induction l as [|a l IH]; simpl; [reflexivity | now rewrite IH]. Qed.

Lemma split_lines_without (sub : string) (s : string) :
  forall cur,
    Py.contains sub (string_of_list_ascii (rev cur) ++ s) = false ->
    Forall (fun l => Py.contains sub l = false) (Splitter.split_lines s cur).
Proof.
  induction s as [|c s IH]; intros cur H; simpl.
  - rewrite append_empty_r in H. now repeat constructor.
  - destruct (Ascii.eqb c Splitter.newline).
    + constructor.
      * destruct (Py.contains sub (string_of_list_ascii (rev cur))) eqn:E;
          [|reflexivity].
        now rewrite (contains_app_l sub _ (String c s) E) in H.
      * apply IH. simpl.
        destruct (Py.contains sub s) eqn:E; [|reflexivity].
        assert (Py.contains sub (String c s) = true) as E'
          by (cbn [Py.contains]; rewrite E; apply orb_true_r).
        now rewrite (contains_app_r sub (string_of_list_ascii (rev cur)) _ E') in H.
    + apply IH. simpl rev. now rewrite string_of_list_ascii_snoc.
Qed.

Lemma scan_idle (lines : list string) :
  Forall (fun l => Py.contains Splitter.xml_decl l = false) lines ->
  fold_left Splitter.scan_line lines (Spec.between_documents [])
  = Spec.between_documents [].
Proof.
  induction 1 as [|l lines Hl Hrest IH]; [reflexivity|].
  cbn [fold_left].
  assert (Splitter.scan_line (Spec.between_documents []) l
          = Spec.between_documents []) as ->; [|exact IH].
  unfold Splitter.scan_line.
  destruct (Py.startswith Splitter.xml_decl (Py.strip l)) eqn:E; [|reflexivity].
  apply startswith_strip_contains in E. congruence.
Qed.

(** An input in which the declaration does not occur yields no document by
    either scan, so no unit and no patent from the concatenated reading; a
    file that does not parse as one document and lacks the declaration gives
    no patents at all. *)
Theorem input_without_declaration_yields_nothing :
  forall (fromstring : string -> option Parser.element) (hash : string -> Z)
         (current_year : Z) (content : string),
    Py.contains Splitter.xml_decl content = false ->
    Splitter.finditer Splitter.pattern content 0 = [] /\
    Splitter.split_by_lines_improved content = [] /\
    Splitter.units content = [] /\
    Splitter.parse_concatenated_xml fromstring hash current_year content = [] /\
    (fromstring content = None ->
     Splitter.parse_uspto_xml fromstring hash current_year content = []).
Proof.
  intros fromstring hash year content H.
  assert (Splitter.finditer Splitter.pattern content 0 = []) as F.
  { destruct (finditer_decomposition (String.length content) content (le_n _))
      as (items & trailer & Hc & Hf & Hb).
    rewrite Hf. destruct items as [|[w d] items]; [reflexivity|].
    apply Forall_inv in Hb. cbn [snd] in Hb. rename Hb into Hd.
    destruct (bounded_document_ends d Hd) as (u & _ & Hu & _).
    assert (Py.contains Splitter.xml_decl content = true) as T; [|congruence].
    rewrite Hc. simpl. apply contains_app_r, contains_app_l.
    rewrite Hu. apply contains_of_startswith.
    rewrite <- (append_empty_r Splitter.xml_decl) at 1.
    apply startswith_app.
    rewrite append_empty_r. reflexivity. }
  assert (Splitter.split_by_lines_improved content = []) as L.
  { unfold Splitter.split_by_lines_improved.
    change {| Splitter.documents := []; Splitter.current_doc := "";
              Splitter.doc_started := false; Splitter.doc_depth := 0 |}
      with (Spec.between_documents []).
    rewrite scan_idle; [reflexivity|].
    apply split_lines_without. exact H. }
  assert (Splitter.units content = []) as U.
  { unfold Splitter.units, Splitter.split_documents. rewrite F, L. reflexivity. }
  split; [exact F|]. split; [exact L|]. split; [exact U|].
  assert (Splitter.parse_concatenated_xml fromstring hash year content = []) as P
    by (unfold Splitter.parse_concatenated_xml; now rewrite U).
  split; [exact P|].
  intros N. unfold Splitter.parse_uspto_xml. now rewrite N.
Qed.

(** The theorem at a file whose declaration is written with single
    quotes. *)
Lemma input_without_declaration_yields_nothing_witness :
  Py.contains Splitter.xml_decl "<?xml version='1.0'?><us-patent-application/>" = false /\
  Splitter.units "<?xml version='1.0'?><us-patent-application/>" = [].
Proof.
  split; [reflexivity|].
  exact (proj1 (proj2 (proj2
           (input_without_declaration_yields_nothing
              (fun _ => None) (Sample.salted_hash 7) 2026
              "<?xml version='1.0'?><us-patent-application/>" eq_refl)))).
Defined.

(** ** [index_patents]: items without an id *)

Lemma str_of_nat_inj (a b : nat) : Engine.str_of_nat a = Engine.str_of_nat b -> a = b.
Proof.
  unfold Engine.str_of_nat. intros H. apply DecimalNat.Unsigned.to_uint_inj.
  assert (Some (Nat.to_uint a) = Some (Nat.to_uint b)) as E
    by (rewrite <- !DecimalString.NilEmpty.usu; now rewrite H).
  now inversion E.
Qed.

Lemma position_ids_nodup (n : nat) :
  forall i, NoDup (map (fun j => "patent_" ++ Engine.str_of_nat j) (seq i n)).
Proof.
  induction n as [|n IH]; intros i; simpl; constructor; [|apply IH].
  intros H. apply in_map_iff in H as (j & E & Hj).
  apply in_seq in Hj. inversion E as [E']. apply str_of_nat_inj in E'. lia.
Qed.

Lemma enumerate_rows_position_ids (items : list Engine.patent_dict) :
  Forall (fun x => Engine.d_id x = None) items ->
  forall i,
    map (fun r => id (Engine.r_patent r)) (Spec.enumerate_rows i items)
    = map (fun j => "patent_" ++ Engine.str_of_nat j) (seq i (List.length items)).
Proof.
  induction 1 as [|x items Hx Hrest IH]; intros i; [reflexivity|].
  cbn [Spec.enumerate_rows map List.length seq]. rewrite IH. f_equal.
  cbn [Engine.row_of_dict Engine.r_patent id]. now rewrite Hx.
Qed.

Lemma first_by_id_all (rows : list Engine.row) :
  forall seen,
    NoDup (map (fun r => id (Engine.r_patent r)) rows) ->
    (forall r, In r rows -> ~ In (id (Engine.r_patent r)) seen) ->
    Spec.first_by_id seen rows = rows.
Proof.
  induction rows as [|x rows IH]; intros seen Hn Hs; [reflexivity|].
  cbn [Spec.first_by_id].
  destruct (existsb (fun s => String.eqb s (id (Engine.r_patent x))) seen) eqn:E.
  - apply existsb_exists in E as (s & Hin & Heq). apply String.eqb_eq in Heq. subst s.
    exfalso. apply (Hs x); [now left | assumption].
  - f_equal. cbn [map] in Hn. inversion Hn as [|? ? Hx Hrest]; subst.
    apply IH; [assumption|].
    intros r Hr Hin. apply in_app_or in Hin as [Hin|[Heq|[]]].
    + apply (Hs r); [now right | assumption].
    + apply Hx. rewrite Heq. apply in_map_iff. now exists r.
Qed.

(** The items of a batch that carry no id are stored under the ids
    patent_0, patent_1, ... of their positions in the batch: when no item
    has an id, every item is stored, in order, and none is refused. *)
Theorem index_patents_numbers_items_without_id :
  forall (d : Engine.db) (items : list Engine.patent_dict),
    Forall (fun x => Engine.d_id x = None) items ->
    map (fun r => id (Engine.r_patent r))
      (Engine.patents (Engine.index_patents d items))
    = map (fun j => "patent_" ++ Engine.str_of_nat j) (seq 0 (List.length items)) /\
    Engine.patents (Engine.index_patents d items) = Spec.enumerate_rows 0 items /\
    Engine.total_patents (Engine.index_patents d items) = List.length items.
Proof.
  intros d items H.
  assert (Engine.patents (Engine.index_patents d items) = Spec.enumerate_rows 0 items)
    as E.
  { rewrite index_patents_first_by_id. apply first_by_id_all; [|intros r _ []].
    rewrite (enumerate_rows_position_ids items H). apply position_ids_nodup. }
  split; [rewrite E; now apply enumerate_rows_position_ids|].
  split; [exact E|].
  unfold Engine.total_patents. rewrite E. apply enumerate_rows_length.
Qed.

(** The theorem at a batch of two items that have a title only. *)
Lemma index_patents_numbers_items_without_id_witness :
  map (fun r => id (Engine.r_patent r))
    (Engine.patents
       (Engine.index_patents Sample.one_patent_db
          [Sample.item_without_id "Folding bicycle frame";
           Sample.item_without_id "Folding bicycle frame"]))
  = ["patent_0"; "patent_1"].
Proof.
  apply (index_patents_numbers_items_without_id Sample.one_patent_db
           [Sample.item_without_id "Folding bicycle frame";
            Sample.item_without_id "Folding bicycle frame"]).
  repeat constructor.
Defined.

(** ** [search]: a query without word characters *)

(** An ASCII query without a letter, digit or underscore (the empty query,
    blanks, punctuation only) is prepared as the empty string; when the
    full-text engine refuses the empty string, as SQLite does, [search]
    raises what the engine raised, whatever the filters, for every limit
    that is a signed 64-bit integer other than 0. *)
Theorem search_without_word_characters_raises :
  forall (fts_match : Engine.db -> string -> result (list Engine.row))
         (d : Engine.db) (query : string) (limit : Z)
         (by_category by_assignee : option string)
         (date_range : option (string * string)) (e : exn),
    Spec.ascii_text query = true ->
    Spec.all_chars (fun c => negb (Spec.word_char c)) query = true ->
    (- 2 ^ 63 <= limit < 2 ^ 63)%Z -> limit <> 0%Z ->
    fts_match d "" = Raise e ->
    Engine.prepare_fts_query query = "" /\
    Engine.search fts_match d query limit by_category by_assignee date_range = Raise e.
Proof.
  intros fts_match d query limit by_category by_assignee date_range e _ Hq Hi Hz He.
  assert (Engine.prepare_fts_query query = "") as P.
  { unfold Engine.prepare_fts_query.
    assert (Py.split (Engine.strip_punctuation query) = []) as ->; [|reflexivity].
    unfold Py.split. rewrite (split_strip_punctuation_words query []).
    clear - Hq. induction query as [|c q IH]; [reflexivity|].
    cbn [Spec.all_chars] in Hq. apply andb_true_iff in Hq as [Hc Hq].
    apply negb_true_iff in Hc. cbn [Spec.words_from]. rewrite Hc. now apply IH. }
  split; [exact P|].
  unfold Engine.search, Engine.candidates.
  rewrite (proj2 (fits_int64_spec limit) Hi). cbn [negb].
  destruct (Z.eqb_spec limit 0); [contradiction|].
  now rewrite P, He.
Qed.

(** The theorem at a query of punctuation only. *)
Lemma search_without_word_characters_raises_witness :
  Spec.ascii_text "?!" = true /\
  Spec.all_chars (fun c => negb (Spec.word_char c)) "?!" = true /\
  (- 2 ^ 63 <= 10 < 2 ^ 63)%Z /\
  Sample.all_rows Sample.two_patent_db "" = Raise OperationalError /\
  Engine.search Sample.all_rows Sample.two_patent_db "?!" 10 None None None
  = Raise OperationalError.
Proof.
  split; [reflexivity|]. split; [reflexivity|]. split; [lia|]. split; [reflexivity|].
  apply (search_without_word_characters_raises Sample.all_rows Sample.two_patent_db
           "?!" 10 None None None OperationalError);
    try reflexivity; [lia | discriminate].
Defined.

(** ** Texts and names without outer whitespace *)

Lemma trimmed_parts (a : string) :
  Py.strip a = a -> Py.lstrip a = a /\ Py.rstrip a = a.
Proof.
  intros H. unfold Py.strip in H.
  destruct (lstrip_suffix a) as (w & Hw).
  pose proof (rstrip_length (Py.lstrip a)) as L1.
  assert (String.length a = String.length w + String.length (Py.lstrip a)) as L2
    by (rewrite Hw at 1; apply length_append).
  rewrite H in L1.
  assert (w = "") as -> by (destruct w; [reflexivity | simpl in L2; lia]).
  simpl in Hw. rewrite <- Hw in H. now split.
Qed.

Lemma lstrip_app_keep (a y : string) :
  a <> "" -> Py.lstrip a = a -> Py.lstrip (a ++ y) = a ++ y.
Proof.
  intros Hne H. destruct a as [|c a]; [congruence|].
  cbn [Py.lstrip append] in *. destruct (Py.is_space c); [|reflexivity].
  pose proof (lstrip_length a) as L. rewrite H in L. simpl in L. lia.
Qed.

Lemma rstrip_app_keep (x b : string) :
  b <> "" -> Py.rstrip b = b -> Py.rstrip (x ++ b) = x ++ b.
Proof.
  intros Hne H. induction x as [|c x IH]; [exact H|].
  change (String c x ++ b) with (String c (x ++ b)).
  rewrite rstrip_cons, IH.
  destruct (x ++ b) eqn:E; [|reflexivity].
  destruct x; simpl in E; [congruence | discriminate].
Qed.

Lemma join_trimmed (l : list string) :
  Forall (fun p => p <> "" /\ Py.lstrip p = p /\ Py.rstrip p = p) l ->
  (l <> [] -> Py.join " " l <> "") /\
  Py.lstrip (Py.join " " l) = Py.join " " l /\
  Py.rstrip (Py.join " " l) = Py.join " " l.
Proof.
  induction 1 as [|p l (Hne & Hl & Hr) Hrest (IHne & IHl & IHr)].
  - repeat split. congruence.
  - destruct l as [|q l]; [now repeat split|].
    change (Py.join " " (p :: q :: l)) with (p ++ " " ++ Py.join " " (q :: l)).
    assert (Py.join " " (q :: l) <> "") as N by (apply IHne; discriminate).
    split; [intros _ E; destruct p; [congruence | discriminate]|].
    split; [now apply lstrip_app_keep|].
    rewrite <- append_assoc. apply rstrip_app_keep; assumption.
Qed.

Lemma strip_piece (t : string) :
  Py.truthy (Py.strip t) = true ->
  Py.strip t <> "" /\ Py.lstrip (Py.strip t) = Py.strip t
  /\ Py.rstrip (Py.strip t) = Py.strip t.
Proof.
  intros H. split; [intros E; rewrite E in H; discriminate|].
  apply trimmed_parts, strip_idem.
Qed.

Lemma element_forall (P : Parser.element -> Prop) :
  (forall t tx tl cs a, Forall P cs -> P (Parser.Element t tx tl cs a)) ->
  forall e, P e.
Proof.
  intros H. fix IH 1. intros [t tx tl cs a]. apply H.
  revert cs. fix IHcs 1. intros [|c cs]; constructor; [apply IH | apply IHcs].
Qed.

Lemma filter_pieces (texts : list string) :
  Forall (fun p => Py.truthy p = true ->
                   p <> "" /\ Py.lstrip p = p /\ Py.rstrip p = p) texts ->
  Forall (fun p => p <> "" /\ Py.lstrip p = p /\ Py.rstrip p = p)
    (filter Py.truthy texts).
Proof.
  induction 1 as [|p l Hp Hrest IH]; simpl; [constructor|].
  destruct (Py.truthy p) eqn:E; [constructor; auto | assumption].
Qed.

(** The flattened text of an element has no whitespace at its start or at
    its end, however deep the element and whatever its texts and tails
    hold; so the strip that [clean_text] applies to it changes nothing. *)
Theorem extract_text_content_trimmed :
  forall (e : Parser.element),
    Py.strip (Parser.extract_text_content e) = Parser.extract_text_content e /\
    Py.lstrip (Parser.extract_text_content e) = Parser.extract_text_content e /\
    Py.rstrip (Parser.extract_text_content e) = Parser.extract_text_content e.
Proof.
  assert (forall e,
             Py.lstrip (Parser.extract_text_content e) = Parser.extract_text_content e /\
             Py.rstrip (Parser.extract_text_content e) = Parser.extract_text_content e)
    as H.
  { apply element_forall. intros t tx tl cs a IH.
    cbn [Parser.extract_text_content]. cbv zeta.
    apply join_trimmed, filter_pieces, Forall_app. split.
    - destruct tx as [s|]; [|constructor].
      destruct (Py.truthy s); [|constructor].
      constructor; [apply strip_piece | constructor].
    - induction IH as [|c cs (Hl & Hr) Hrest IHcs]; [constructor|].
      cbn [flat_map]. apply Forall_app. split; [|exact IHcs].
      unfold Parser.child_texts. apply Forall_app. split.
      + destruct (Py.truthy (Parser.extract_text_content c)) eqn:E; [|constructor].
        constructor; [|constructor]. intros _.
        split; [intros Z; rewrite Z in E; discriminate | now split].
      + destruct (Parser.tail c) as [s|]; [|constructor].
        destruct (Py.truthy s); [|constructor].
        constructor; [apply strip_piece | constructor]. }
  intros e. destruct (H e) as [Hl Hr].
  split; [unfold Py.strip; now rewrite Hl, Hr | now split].
Qed.

Lemma person_name_trimmed (e : Parser.element) (name : string) :
  Parser.person_name e = Some name -> Py.strip name = name.
Proof.
  unfold Parser.person_name.
  destruct (Parser.find e [Parser.Desc "first-name"]); [|discriminate].
  destruct (Parser.find e [Parser.Desc "last-name"]); [|discriminate].
  intros H. inversion H. apply strip_idem.
Qed.

Lemma first_org_trimmed (e : Parser.element) (paths : list (list Parser.step)) :
  forall org, Parser.first_org e paths = Some org -> Py.strip org = org.
Proof.
  induction paths as [|path paths IH]; intros org H; simpl in H; [discriminate|].
  destruct (Parser.find e path) as [org_elem|]; [|now apply IH].
  destruct (Parser.text org_elem) as [t|]; [|now apply IH].
  destruct (Py.truthy t); [|now apply IH].
  inversion H. apply strip_idem.
Qed.

(** The assignee and every inventor name carry no whitespace at either
    end: each is a stripped text, a stripped pair of names, or the default
    name. *)
Theorem names_have_no_outer_whitespace :
  forall (e : Parser.element),
    Py.strip (Parser.extract_assignee_robust e) = Parser.extract_assignee_robust e /\
    Forall (fun name => Py.strip name = name) (Parser.extract_inventors_robust e).
Proof.
  intros e. split.
  - unfold Parser.extract_assignee_robust.
    induction Parser.assignee_paths as [|path paths IH]; [reflexivity|].
    cbn [Parser.assignee_from].
    destruct (Parser.find e path) as [assignee_elem|]; [|exact IH].
    destruct (Parser.first_org assignee_elem Parser.org_paths) as [org|] eqn:O;
      [now apply (first_org_trimmed assignee_elem Parser.org_paths)|].
    destruct (Parser.person_name assignee_elem) as [name|] eqn:N;
      [now apply (person_name_trimmed assignee_elem) | exact IH].
  - unfold Parser.extract_inventors_robust.
    assert (forall es inventors,
               Forall (fun name => Py.strip name = name) inventors ->
               Forall (fun name => Py.strip name = name)
                 (fold_left Parser.add_inventor es inventors)) as Inner.
    { induction es as [|x es IH]; intros inventors H; simpl; [assumption|].
      apply IH. unfold Parser.add_inventor.
      destruct (Parser.person_name x) as [name|] eqn:N; [|assumption].
      destruct (existsb (String.eqb name) inventors); [assumption|].
      apply Forall_app. split; [assumption|]. repeat constructor.
      now apply (person_name_trimmed x). }
    assert (forall paths inventors,
               Forall (fun name => Py.strip name = name) inventors ->
               Forall (fun name => Py.strip name = name)
                 (fold_left
                    (fun acc path =>
                       fold_left Parser.add_inventor (Parser.findall path [e]) acc)
                    paths inventors)) as Outer.
    { induction paths as [|path paths IH]; intros inventors H; simpl; [assumption|].
      apply IH, Inner, H. }
    specialize (Outer Parser.inventor_paths [] (Forall_nil _)). cbv zeta.
    destruct (fold_left _ Parser.inventor_paths []) as [|name names].
    + repeat constructor.
    + exact Outer.
Qed.

(** ** [process_file], [process_directory]: the caps *)

Lemma capped_incl {A : Type} (cap : option Z) (l : list A) (x : A) :
  In x (Splitter.capped cap l) -> In x l.
Proof.
  unfold Splitter.capped, Splitter.slice_list.
  destruct cap as [n|]; [|tauto].
  destruct (n =? 0)%Z; [tauto|].
  destruct (n <? 0)%Z; apply firstn_incl.
Qed.

Lemma capped_length {A : Type} (n : Z) (l : list A) :
  (0 < n)%Z -> List.length (Splitter.capped (Some n) l) <= Z.to_nat n.
Proof.
  intros H. unfold Splitter.capped, Splitter.slice_list.
  destruct (Z.eqb_spec n 0); [lia|].
  destruct (Z.ltb_spec n 0); [lia|]. apply firstn_le_length.
Qed.

Lemma capped_length_le {A : Type} (cap : option Z) (l : list A) :
  List.length (Splitter.capped cap l) <= List.length l.
Proof.
  unfold Splitter.capped, Splitter.slice_list.
  destruct cap as [n|]; [|lia].
  destruct (n =? 0)%Z; [lia|].
  destruct (n <? 0)%Z; rewrite length_firstn; lia.
Qed.

Lemma flat_map_length_bound {A B : Type} (f : A -> list B) (m : nat) (l : list A) :
  (forall x, List.length (f x) <= m) ->
  List.length (flat_map f l) <= List.length l * m.
Proof.
  intros H. induction l as [|x l IH]; simpl; [lia|].
  rewrite length_app. specialize (H x). lia.
Qed.

(** With a positive cap per file, [process_directory] returns at most
    that many patents for each file whose name ends in .xml, and for no
    more than [max_files] files when that is positive; every patent
    returned was parsed from such a file.  A cap of 0, like no cap, cuts
    nothing: [process_file] then returns all that the file holds. *)
Theorem process_directory_respects_caps :
  forall (fromstring : string -> option Parser.element) (hash : string -> Z)
         (current_year : Z) (files : list (string * string))
         (max_files : option Z) (m : Z),
    (0 < m)%Z ->
    let out :=
      Splitter.process_directory fromstring hash current_year files max_files (Some m) in
    List.length out
    <= List.length (filter (fun f => Parser.endswith ".xml" (fst f)) files) * Z.to_nat m /\
    (forall k, max_files = Some k -> (0 < k)%Z ->
               List.length out <= Z.to_nat k * Z.to_nat m) /\
    (forall p, In p out ->
               exists f, In f files /\ Parser.endswith ".xml" (fst f) = true /\
                         In p (Splitter.parse_uspto_xml fromstring hash current_year (snd f))) /\
    (forall content,
        List.length (Splitter.process_file fromstring hash current_year content (Some m))
        <= Z.to_nat m /\
        Splitter.process_file fromstring hash current_year content (Some 0%Z)
        = Splitter.parse_uspto_xml fromstring hash current_year content /\
        Splitter.process_file fromstring hash current_year content None
        = Splitter.parse_uspto_xml fromstring hash current_year content).
Proof.
  intros fromstring hash year files max_files m Hm out.
  set (xml_files := filter (fun f => Parser.endswith ".xml" (fst f)) files).
  assert (out = flat_map
                  (fun f => Splitter.process_file fromstring hash year (snd f) (Some m))
                  (Splitter.capped max_files xml_files)) as E.
  { unfold out, Splitter.process_directory. fold xml_files. cbv zeta.
    destruct xml_files as [|f fs] eqn:X; [|reflexivity].
    destruct max_files as [k|]; [|reflexivity].
    unfold Splitter.capped, Splitter.slice_list.
    destruct (k =? 0)%Z; [reflexivity|].
    destruct (k <? 0)%Z; now rewrite firstn_nil. }
  assert (forall content,
             List.length (Splitter.process_file fromstring hash year content (Some m))
             <= Z.to_nat m) as Hfile
    by (intros content; unfold Splitter.process_file; now apply capped_length).
  pose proof (flat_map_length_bound
                (fun f => Splitter.process_file fromstring hash year (snd f) (Some m))
                (Z.to_nat m) (Splitter.capped max_files xml_files)
                (fun f => Hfile (snd f))) as Hall.
  rewrite <- E in Hall.
  split; [|split; [|split]].
  - pose proof (capped_length_le max_files xml_files). nia.
  - intros k -> Hk. pose proof (capped_length k xml_files Hk). nia.
  - intros p Hp. rewrite E in Hp. apply in_flat_map in Hp as (f & Hf & Hp).
    apply capped_incl in Hf. unfold xml_files in Hf. apply filter_In in Hf as [Hin Hx].
    exists f. split; [exact Hin|]. split; [exact Hx|].
    unfold Splitter.process_file in Hp. now apply capped_incl in Hp.
  - intros content. split; [apply Hfile | split; reflexivity].
Qed.

(** The theorem at a directory of two XML files of two applications each
    and one other file: four patents without caps, one with a cap of one
    file and one patent for each file. *)
Lemma process_directory_respects_caps_witness :
  (0 < 1)%Z /\
  List.length
    (Splitter.process_directory Sample.fromstring (Sample.salted_hash 7) 2026
       Sample.directory None None) = 4 /\
  List.length
    (Splitter.process_directory Sample.fromstring (Sample.salted_hash 7) 2026
       Sample.directory None (Some 1%Z)) = 2 /\
  List.length
    (Splitter.process_directory Sample.fromstring (Sample.salted_hash 7) 2026
       Sample.directory (Some 1%Z) (Some 1%Z)) = 1 /\
  List.length
    (Splitter.process_directory Sample.fromstring (Sample.salted_hash 7) 2026
       Sample.directory (Some 1%Z) (Some 1%Z))
  <= Z.to_nat 1 * Z.to_nat 1.
Proof.
  split; [lia|]. split; [vm_compute; reflexivity|]. split; [vm_compute; reflexivity|].
  split; [vm_compute; reflexivity|].
  destruct (process_directory_respects_caps Sample.fromstring (Sample.salted_hash 7) 2026
              Sample.directory (Some 1%Z) 1 ltac:(lia)) as (_ & Hfiles & _).
  apply (Hfiles 1%Z); [reflexivity | lia].
Defined.
